(** * Cerebrum.Server: the DHT and Gossip overlays, embedded in Rocq

    A shallow embedding of the peer-to-peer core of the repository
    ([cerebrum/p2p/dht/node.py], [cerebrum/p2p/dht/protocol.py],
    [cerebrum/p2p/gossip/protocol.py], [cerebrum/p2p/gossip/agent_presence.py])
    and the properties of its specification that were checked against it.

    Conventions of the embedding.
    - Python [int] is [Z] (or [N] where the code only produces naturals);
      [time.time()] is an integer clock reading handed to each operation as
      [now]: one reading per operation.
    - Decoded JSON is the type [json]; a Python [dict] with string keys is
      an association list in insertion order, with the update-in-place
      semantics of [d[k] = v].
    - Exceptions are values of [res]; the state reached before the raise
      is kept by the operations that catch them.
    - Python objects that are shared by reference live in an explicit
      store ([gmap loc _]). *)

From Stdlib Require Import ZArith NArith String Ascii List Bool Lia.
From Stdlib Require Import Strings.Byte Sorting.Sorted.
From stdpp Require Import base gmap strings list fin_maps pretty.

Set Warnings "-register-all".

Local Open Scope string_scope.
Local Open Scope list_scope.
Local Open Scope Z_scope.

(** ** Python values *)

Inductive json : Type :=
| JNull
| JBool (b : bool)
| JNum (z : Z)
| JStr (s : string)
| JList (l : list json)
| JObj (o : list (string * json)).

Abbreviation dict := (list (string * json)).

Inductive pyexn : Type := IndexError | KeyError | TypeError | AttributeError.

Inductive res (A : Type) : Type :=
| Ok (a : A)
| Raise (e : pyexn).
Arguments Ok {A} a.
Arguments Raise {A} e.

(** [d.get(k)] on an insertion-ordered dictionary. *)
Fixpoint dget {V : Type} (k : string) (d : list (string * V)) : option V :=
  match d with
  | [] => None
  | (k', v) :: r => if String.eqb k' k then Some v else dget k r
  end.

(** [d[k] = v]: an existing key keeps its position, a new one goes last. *)
Fixpoint dset {V : Type} (k : string) (v : V) (d : list (string * V)) : list (string * V) :=
  match d with
  | [] => [(k, v)]
  | (k', v') :: r => if String.eqb k' k then (k', v) :: r else (k', v') :: dset k v r
  end.

(** [del d[k]] for a key that is present: no entry for [k] is left. *)
Fixpoint ddel {V : Type} (k : string) (d : list (string * V)) : list (string * V) :=
  match d with
  | [] => []
  | (k', v') :: r => if String.eqb k' k then ddel k r else (k', v') :: ddel k r
  end.

(** [d.update(other)]. *)
Definition dupdate {V : Type} (d other : list (string * V)) : list (string * V) :=
  fold_left (fun acc kv => dset (fst kv) (snd kv) acc) other d.

(** Truth value of a decoded JSON value ([if x:], [not x], [x or y]). *)
Definition py_truthy (j : json) : bool :=
  match j with
  | JNull => false
  | JBool b => b
  | JNum z => negb (z =? 0)
  | JStr s => negb (String.eqb s "")
  | JList l => match l with [] => false | _ => true end
  | JObj o => match o with [] => false | _ => true end
  end.

(** [l[i]] with Python's negative indices. *)
Definition py_norm_index (len : nat) (i : Z) : option nat :=
  if 0 <=? i then (if i <? Z.of_nat len then Some (Z.to_nat i) else None)
  else (if - Z.of_nat len <=? i then Some (Z.to_nat (Z.of_nat len + i)) else None).

Definition py_index {A : Type} (l : list A) (i : Z) : res A :=
  match py_norm_index (length l) i with
  | Some n => match l !! n with Some x => Ok x | None => Raise IndexError end
  | None => Raise IndexError
  end.

(** [l[:count]]. *)
Definition py_slice_to {A : Type} (l : list A) (count : Z) : list A :=
  if 0 <=? count then take (Z.to_nat count) l
  else take (Z.to_nat (Z.of_nat (length l) + count)) l.

(** [l.sort(key=...)]: the stable sort, as an insertion sort. *)
Fixpoint insert_sorted {A : Type} (key : A -> N) (x : A) (l : list A) : list A :=
  match l with
  | [] => [x]
  | y :: r => if (key x <=? key y)%N then x :: y :: r else y :: insert_sorted key x r
  end.

Fixpoint sort_by {A : Type} (key : A -> N) (l : list A) : list A :=
  match l with
  | [] => []
  | x :: r => insert_sorted key x (sort_by key r)
  end.

#[global] Instance byte_eq_dec : EqDecision byte := Byte.byte_eq_dec.

(** ** cerebrum/p2p/dht/node.py *)

Module NodeID.

Record t : Type := Build { id_bytes : list byte }.

#[global] Instance eq_dec : EqDecision t.
Proof. solve_decision. Defined.

(** [__eq__]. *)
Definition eqb (a b : t) : bool := bool_decide (a = b).

Definition xor_byte (a b : byte) : N := N.lxor (Byte.to_N a) (Byte.to_N b).

(** [bytes(a ^ b for a, b in zip(self.id_bytes, other.id_bytes))]:
    [zip] stops at the shorter argument. *)
Fixpoint zip_xor (a b : list byte) : list N :=
  match a, b with
  | x :: a', y :: b' => xor_byte x y :: zip_xor a' b'
  | _, _ => []
  end.

(** [int.from_bytes(_, byteorder='big')]. *)
Definition int_from_bytes (l : list N) : N :=
  fold_left (fun acc x => (acc * 256 + x)%N) l 0%N.

Definition distance (self other : t) : N :=
  int_from_bytes (zip_xor (id_bytes self) (id_bytes other)).

Definition hex_digit (n : N) : ascii :=
  if (n <? 10)%N then ascii_of_N (48 + n) else ascii_of_N (87 + n).

Fixpoint hex (l : list byte) : string :=
  match l with
  | [] => ""
  | b :: r =>
      String (hex_digit (Byte.to_N b / 16)) (String (hex_digit (Byte.to_N b mod 16)) (hex r))
  end.

(** [__str__]. *)
Definition str (self : t) : string := hex (id_bytes self).

End NodeID.

Module Node.

Record t : Type := Build {
  node_id : NodeID.t;
  ip : string;
  port : Z;
  last_seen : Z
}.

(** [Node(node_id, ip, port)] at clock reading [now]. *)
Definition new (node_id : NodeID.t) (ip : string) (port : Z) (now : Z) : t :=
  Build node_id ip port now.

(** [__eq__]: [last_seen] is not compared. *)
Definition eqb (a b : t) : bool :=
  NodeID.eqb (node_id a) (node_id b) && String.eqb (ip a) (ip b) && (port a =? port b).

End Node.

Module KBucket.

Record t : Type := Build {
  nodes : list Node.t;
  k : Z
}.

Definition init (k : Z) : t := Build [] k.

(** The [for i, existing_node in enumerate(self.nodes)] loop of
    [add_node]: [self.nodes.pop(i)] at the first [i] whose node id
    matches, [None] when the loop falls through. *)
Fixpoint pop_existing (id : NodeID.t) (l : list Node.t) : option (list Node.t) :=
  match l with
  | [] => None
  | x :: r =>
      if NodeID.eqb (Node.node_id x) id then Some r
      else match pop_existing id r with
           | Some r' => Some (x :: r')
           | None => None
           end
  end.

Definition add_node (self : t) (node : Node.t) : t * bool :=
  match pop_existing (Node.node_id node) (nodes self) with
  | Some rest => (Build (rest ++ [node]) (k self), true)
  | None =>
      if Z.of_nat (length (nodes self)) <? k self
      then (Build (nodes self ++ [node]) (k self), true)
      else (self, false)
  end.

Definition get_nodes (self : t) : list Node.t := nodes self.

Definition ids (self : t) : list NodeID.t := map Node.node_id (nodes self).

(** The bucket obtained from [KBucket(k)] by a sequence of [add_node] calls. *)
Definition after (k : Z) (adds : list Node.t) : t :=
  fold_left (fun b n => fst (add_node b n)) adds (init k).

End KBucket.

Module RoutingTable.

Record t : Type := Build {
  local_node_id : NodeID.t;
  k : Z;
  bits : Z;
  buckets : list KBucket.t
}.

(** [RoutingTable(local_node_id, k, bits)]. *)
Definition init (local_node_id : NodeID.t) (k : Z) (bits : Z) : t :=
  Build local_node_id k bits (repeat (KBucket.init k) (Z.to_nat bits)).

Definition _get_bucket_index (self : t) (node_id : NodeID.t) : Z :=
  let distance := NodeID.distance (local_node_id self) node_id in
  if (distance =? 0)%N then 0
  else bits self - Z.of_N (N.size distance).

Definition add_node (self : t) (node : Node.t) : res (t * bool) :=
  if NodeID.eqb (Node.node_id node) (local_node_id self) then Ok (self, false)
  else
    let bucket_index := _get_bucket_index self (Node.node_id node) in
    match py_norm_index (length (buckets self)) bucket_index with
    | None => Raise IndexError
    | Some i =>
        match buckets self !! i with
        | None => Raise IndexError
        | Some b =>
            let '(b', r) := KBucket.add_node b node in
            Ok (Build (local_node_id self) (k self) (bits self) (<[i := b']> (buckets self)), r)
        end
    end.

(** One visit of the [while] loop of [get_closest_nodes]: the bucket at
    [index] is appended when [guard] holds, and the index moves by [step]. *)
Definition visit (self : t) (guard : bool) (index step : Z) (nodes : list Node.t)
  : res (list Node.t * Z) :=
  if guard then
    match py_index (buckets self) index with
    | Ok b => Ok (nodes ++ KBucket.get_nodes b, index + step)
    | Raise e => Raise e
    end
  else Ok (nodes, index).

(** The [while len(nodes) < count and (left_bucket >= 0 or right_bucket <
    self.bits)] loop. [None] is reserved for running out of [fuel]. *)
Fixpoint scan_adjacent (fuel : nat) (self : t) (count : Z)
    (left_bucket right_bucket : Z) (nodes : list Node.t) : option (res (list Node.t)) :=
  if (Z.of_nat (length nodes) <? count)
     && ((0 <=? left_bucket) || (right_bucket <? bits self))
  then
    match fuel with
    | O => None
    | S fuel' =>
        match visit self (0 <=? left_bucket) left_bucket (-1) nodes with
        | Raise e => Some (Raise e)
        | Ok (nodes1, left1) =>
            match visit self (right_bucket <? bits self) right_bucket 1 nodes1 with
            | Raise e => Some (Raise e)
            | Ok (nodes2, right1) => scan_adjacent fuel' self count left1 right1 nodes2
            end
        end
    end
  else Some (Ok nodes).

Definition scan_fuel (self : t) (bucket_index : Z) : nat :=
  Z.to_nat (Z.max bucket_index (bits self - (bucket_index + 1))).

Definition get_closest_nodes (self : t) (target_id : NodeID.t) (count : Z)
  : option (res (list Node.t)) :=
  let bucket_index := _get_bucket_index self target_id in
  match py_index (buckets self) bucket_index with
  | Raise e => Some (Raise e)
  | Ok b =>
      let nodes := KBucket.get_nodes b in
      match scan_adjacent (scan_fuel self bucket_index) self count
              (bucket_index - 1) (bucket_index + 1) nodes with
      | None => None
      | Some (Raise e) => Some (Raise e)
      | Some (Ok nodes) =>
          let sorted :=
            sort_by (fun node => NodeID.distance target_id (Node.node_id node)) nodes in
          Some (Ok (py_slice_to sorted count))
      end
  end.

(** All contacts of the table, bucket by bucket. *)
Definition all_nodes (self : t) : list Node.t :=
  concat (map KBucket.get_nodes (buckets self)).

(** The specification's brute-force scan: every contact of every bucket,
    sorted by distance to the target, first [count] kept. *)
Definition closest_bruteforce (self : t) (target_id : NodeID.t) (count : Z) : list Node.t :=
  py_slice_to
    (sort_by (fun node => NodeID.distance target_id (Node.node_id node)) (all_nodes self))
    count.

(** The table obtained from an empty one by a sequence of [add_node]
    calls (a call that raises leaves the table as it was). *)
Definition after (local_node_id : NodeID.t) (k bits : Z) (adds : list Node.t) : t :=
  fold_left
    (fun rt n => match add_node rt n with Ok (rt', _) => rt' | Raise _ => rt end)
    adds (init local_node_id k bits).

End RoutingTable.

(** Keys of a Python dictionary that arrive as decoded JSON: strings,
    numbers (with [True == 1] and [False == 0]) and [None] are hashable,
    lists and dictionaries are not. *)
Inductive pykey : Type :=
| KNone
| KNum (z : Z)
| KStr (s : string).

#[global] Instance pykey_eq_dec : EqDecision pykey.
Proof. solve_decision. Defined.

#[global] Instance pykey_countable : Countable pykey.
Proof.
  refine (inj_countable'
    (fun k => match k with
              | KNone => inl tt
              | KNum z => inr (inl z)
              | KStr s => inr (inr s)
              end)
    (fun x => match x with
              | inl _ => KNone
              | inr (inl z) => KNum z
              | inr (inr s) => KStr s
              end) _).
  intros []; reflexivity.
Defined.

Definition py_hashable (j : json) : res pykey :=
  match j with
  | JNull => Ok KNone
  | JBool b => Ok (KNum (if b then 1 else 0))
  | JNum z => Ok (KNum z)
  | JStr s => Ok (KStr s)
  | JList _ | JObj _ => Raise TypeError
  end.

(** [d.get(k)]: [None] when the key is missing. *)
Definition py_get (k : string) (d : dict) : json :=
  match dget k d with Some v => v | None => JNull end.

(** References to Python objects. *)
Abbreviation loc := positive.

(** What the interpreter provides and the repository does not define:
    [hash] of a [str] (salted per process), [str] of a dictionary, and
    SHA-1. *)
Class PyRuntime : Type := {
  py_hash : string -> Z;
  py_str : json -> string;
  sha1 : string -> list byte
}.

(** [NodeID.from_string]: the SHA-1 digest of the string. *)
Definition NodeID_from_string `{PyRuntime} (string_value : string) : NodeID.t :=
  NodeID.Build (sha1 string_value).

Module DHT.

(** A value of [data_store]: decoded JSON, or a reference to a
    dictionary object that the caller also holds. *)
Inductive pyval : Type :=
| Imm (j : json)
| Ref (l : loc).

Record t : Type := Build {
  node_id : NodeID.t;
  ip : string;
  port : Z;
  local_node : Node.t;
  routing_table : RoutingTable.t;
  data_store : gmap pykey pyval
}.

(** [DHT(ip, port, node_id, k)] with a given node id. *)
Definition init (ip : string) (port : Z) (node_id : NodeID.t) (k : Z) (now : Z) : t :=
  Build node_id ip port (Node.new node_id ip port now)
        (RoutingTable.init node_id k 160) ∅.

Definition set_data_store (self : t) (ds : gmap pykey pyval) : t :=
  Build (node_id self) (ip self) (port self) (local_node self) (routing_table self) ds.

Definition store (self : t) (key : string) (value : pyval) : t * bool :=
  (set_data_store self (<[KStr key := value]> (data_store self)), true).

Definition lookup (self : t) (key : string) : option pyval :=
  data_store self !! KStr key.

(** The four assignments [metadata[...] = ...] of [register_agent]. *)
Definition stamp (self : t) (now : Z) (metadata : dict) : dict :=
  dset "node_port" (JNum (port self))
    (dset "node_ip" (JStr (ip self))
      (dset "node_id" (JStr (NodeID.str (node_id self)))
        (dset "last_update" (JNum now) metadata))).

(** [register_agent(agent_id, metadata)]: [metadata] is the caller's
    dictionary object, at [metadata] in the object store [heap]. The
    result is [None] only for a reference that points to no object. *)
Definition register_agent (heap : gmap loc dict) (self : t)
    (agent_id : string) (metadata : loc) (now : Z)
  : option (gmap loc dict * t * bool) :=
  match heap !! metadata with
  | None => None
  | Some m =>
      let key := "agent:" +:+ agent_id in
      let heap' := <[metadata := stamp self now m]> heap in
      let '(self', ok) := store self key (Ref metadata) in
      Some (heap', self', ok)
  end.

Definition find_agent (self : t) (agent_id : string) : option pyval :=
  lookup self ("agent:" +:+ agent_id).

(** The dictionary a stored value denotes in an object store. *)
Definition deref (heap : gmap loc dict) (v : pyval) : option json :=
  match v with
  | Imm j => Some j
  | Ref l => JObj <$> heap !! l
  end.

End DHT.

(** ** cerebrum/p2p/dht/protocol.py

    [Message], the pending-request table of [DHTProtocol] with
    [send_request] and [_resolve_pending_request], the three reply
    handlers, [_handle_ping] and [_handle_store]. *)

Module Message.

Record t : Type := Build {
  msg_type : string;
  sender_id : string;
  data : dict;
  message_id : string
}.

(** [Message(msg_type, sender_id, data, message_id)]:
    [message_id or str(hash(str(data) + str(sender_id)))]. *)
Definition new `{PyRuntime} (msg_type sender_id : string) (data : dict)
    (message_id : option string) : t :=
  let derived := pretty (py_hash (py_str (JObj data) +:+ sender_id)) in
  Build msg_type sender_id data
    (match message_id with
     | Some s => if String.eqb s "" then derived else s
     | None => derived
     end).

(** A decoded envelope: the entries [from_dict] reads, each of its
    declared type when present. *)
Record wire : Type := Wire {
  w_type : option string;
  w_sender : option string;
  w_data : option dict;
  w_id : option string
}.

Definition to_dict (self : t) : wire :=
  Wire (Some (msg_type self)) (Some (sender_id self)) (Some (data self))
       (Some (message_id self)).

Definition from_dict `{PyRuntime} (w : wire) : t :=
  new (default "unknown" (w_type w)) (default "" (w_sender w)) (default [] (w_data w))
      (w_id w).

(** [decode]: [None] stands for bytes that are not JSON. *)
Definition decode `{PyRuntime} (datagram : option wire) : t :=
  match datagram with
  | Some w => from_dict w
  | None => new "error" "" [("error", JStr "Invalid message format")] None
  end.

End Message.

Module DHTProtocol.

Definition MSG_PING := "ping".
Definition MSG_PONG := "pong".
Definition MSG_STORE := "store".

(** An [asyncio.Future]. *)
Inductive future : Type :=
| Pending
| Result (response : Message.t)
| Cancelled.

Inductive effect : Type :=
| SendTo (message : Message.t) (addr : string * Z)
| LogError.

Record t : Type := Build {
  dht : DHT.t;
  transport : bool;
  pending_requests : gmap string loc;
  futures : gmap loc future
}.

(** [DHTProtocol(dht)]; [futures] is the store of the future objects
    created so far. *)
Definition init (dht : DHT.t) : t := Build dht false ∅ ∅.

Definition connection_made (self : t) : t :=
  Build (dht self) true (pending_requests self) (futures self).

Definition _send_message (self : t) (message : Message.t) (addr : string * Z)
  : list effect :=
  if transport self then [SendTo message addr] else [LogError].

(** [send_request] up to its [await]: the message and the future are
    created, the future is registered, the datagram is handed to
    [_send_message]. The coroutine keeps [message.message_id] and the
    future. *)
Definition register_pending (self : t) (message_id : string) : t * loc :=
  let future := fresh (dom (futures self)) in
  (Build (dht self) (transport self)
         (<[message_id := future]> (pending_requests self))
         (<[future := Pending]> (futures self)),
   future).

Definition send_request_begin `{PyRuntime} (self : t) (msg_type : string)
    (data : dict) (addr : string * Z) : t * list effect * (string * loc) :=
  let message := Message.new msg_type (NodeID.str (DHT.node_id (dht self))) data None in
  let '(self1, future) := register_pending self (Message.message_id message) in
  (self1, _send_message self1 message addr, (Message.message_id message, future)).

(** [send_request] from the point where [asyncio.wait_for(future,
    timeout)] gives control back: with the result of a future that is
    done, or, for a future still pending when the timeout elapses, by
    cancelling it and raising [TimeoutError], which [send_request] turns
    into [None]. The [finally] clause pops the message id in all cases. *)
Definition send_request_end (self : t) (message_id : string) (future : loc)
  : t * option Message.t :=
  let '(futures', result) :=
    match futures self !! future with
    | Some (Result response) => (futures self, Some response)
    | Some Pending => (<[future := Cancelled]> (futures self), None)
    | Some Cancelled | None => (futures self, None)
    end in
  (Build (dht self) (transport self) (delete message_id (pending_requests self)) futures',
   result).

Definition _resolve_pending_request (self : t) (message_id : string)
    (response : Message.t) : t :=
  match pending_requests self !! message_id with
  | Some future =>
      match futures self !! future with
      | Some Pending =>
          Build (dht self) (transport self) (pending_requests self)
                (<[future := Result response]> (futures self))
      | _ => self
      end
  | None => self
  end.

(** [_handle_pong], [_handle_found_nodes] and [_handle_found_value]
    have this one body. *)
Definition _handle_reply (self : t) (message : Message.t) : res t :=
  let request_id := py_get "request_id" (Message.data message) in
  if py_truthy request_id then
    match request_id with
    | JStr s => Ok (_resolve_pending_request self s message)
    | JList _ | JObj _ => Raise TypeError
    | _ => Ok self
    end
  else Ok self.

Definition _handle_ping `{PyRuntime} (self : t) (message : Message.t)
    (addr : string * Z) : list effect :=
  let pong := Message.new MSG_PONG (NodeID.str (DHT.node_id (dht self)))
                [("request_id", JStr (Message.message_id message))] None in
  _send_message self pong addr.

Definition store_ack `{PyRuntime} (self : t) (message : Message.t) : Message.t :=
  Message.new MSG_PONG (NodeID.str (DHT.node_id (dht self)))
    [("request_id", JStr (Message.message_id message)); ("status", JStr "success")] None.

Definition _handle_store `{PyRuntime} (self : t) (message : Message.t)
    (addr : string * Z) : res (t * list effect) :=
  let key := py_get "key" (Message.data message) in
  let value := py_get "value" (Message.data message) in
  if py_truthy key && negb (match value with JNull => true | _ => false end) then
    match py_hashable key with
    | Raise e => Raise e
    | Ok k =>
        let dht' := DHT.set_data_store (dht self)
                      (<[k := DHT.Imm value]> (DHT.data_store (dht self))) in
        let self' := Build dht' (transport self) (pending_requests self) (futures self) in
        Ok (self', _send_message self' (store_ack self' message) addr)
    end
  else Ok (self, []).

(** What the rest of the program can do to a protocol object while a
    request is waiting: replies are resolved, other requests begin and
    finish. *)
Inductive event : Type :=
| Resolve (message_id : string) (response : Message.t)
| Begin (msg_type : string) (data : dict) (addr : string * Z)
| End_ (message_id : string) (future : loc).

Definition step `{PyRuntime} (self : t) (ev : event) : t :=
  match ev with
  | Resolve message_id response => _resolve_pending_request self message_id response
  | Begin msg_type data addr => fst (fst (send_request_begin self msg_type data addr))
  | End_ message_id future => fst (send_request_end self message_id future)
  end.

Definition run `{PyRuntime} (self : t) (evs : list event) : t :=
  fold_left step evs self.

(** The message id a request would be sent under. *)
Definition request_id `{PyRuntime} (self : t) (msg_type : string) (data : dict) : string :=
  Message.message_id
    (Message.new msg_type (NodeID.str (DHT.node_id (dht self))) data None).

(** Events of the other requests, seen from the request [message_id]
    waiting on [future]. *)
Definition foreign `{PyRuntime} (self : t) (message_id : string) (future : loc)
    (ev : event) : Prop :=
  match ev with
  | Resolve _ _ => True
  | Begin msg_type data _ => request_id self msg_type data ≠ message_id
  | End_ message_id' future' => message_id' ≠ message_id ∧ future' ≠ future
  end.

(** The first response resolved under [message_id] in a list of events. *)
Fixpoint first_reply (message_id : string) (evs : list event) : option Message.t :=
  match evs with
  | [] => None
  | Resolve message_id' response :: r =>
      if String.eqb message_id' message_id then Some response
      else first_reply message_id r
  | _ :: r => first_reply message_id r
  end.

Definition MSG_FIND_VALUE := "find_value".
Definition MSG_FOUND_NODES := "found_nodes".
Definition MSG_FOUND_VALUE := "found_value".

(** [{"id": str(node.node_id), "ip": node.ip, "port": node.port}]. *)
Definition node_entry (node : Node.t) : json :=
  JObj [("id", JStr (NodeID.str (Node.node_id node))); ("ip", JStr (Node.ip node));
        ("port", JNum (Node.port node))].

(** [self.dht.data_store.get(key)] as the value that goes into a
    response: the dictionary a reference denotes in the object store
    [heap]; [None] for a missing key and for a stored [None]. *)
Definition stored_value (heap : gmap loc dict) (self : t) (k : pykey) : option json :=
  match DHT.data_store (dht self) !! k with
  | Some v =>
      match DHT.deref heap v with
      | Some JNull | None => None
      | Some j => Some j
      end
  | None => None
  end.

(** [_handle_find_value]; the result is [None] only when the loop of
    [get_closest_nodes] runs out of fuel. *)
Definition _handle_find_value `{PyRuntime} (heap : gmap loc dict) (self : t)
    (message : Message.t) (addr : string * Z) : option (res (list effect)) :=
  let key := py_get "key" (Message.data message) in
  let sender := NodeID.str (DHT.node_id (dht self)) in
  if negb (py_truthy key) then Some (Ok [])
  else
    match py_hashable key with
    | Raise e => Some (Raise e)
    | Ok k =>
        match stored_value heap self k with
        | Some value =>
            let response :=
              Message.new MSG_FOUND_VALUE sender
                [("request_id", JStr (Message.message_id message)); ("key", key);
                 ("value", value)] None in
            Some (Ok (_send_message self response addr))
        | None =>
            match key with
            | JStr s =>
                match RoutingTable.get_closest_nodes (DHT.routing_table (dht self))
                        (NodeID_from_string s) 20 with
                | None => None
                | Some (Raise e) => Some (Raise e)
                | Some (Ok nodes) =>
                    let response :=
                      Message.new MSG_FOUND_NODES sender
                        [("request_id", JStr (Message.message_id message)); ("key", key);
                         ("nodes", JList (map node_entry nodes))] None in
                    Some (Ok (_send_message self response addr))
                end
            | _ => Some (Raise AttributeError)
            end
        end
    end.

End DHTProtocol.

(** ** Operators of Python on decoded JSON *)

(** The number a value counts as in arithmetic and comparisons
    ([bool] is a subclass of [int]). *)
Definition py_num (j : json) : res Z :=
  match j with
  | JNum z => Ok z
  | JBool b => Ok (if b then 1 else 0)
  | _ => Raise TypeError
  end.

(** [a == b]. *)
Fixpoint py_eq (a b : json) : bool :=
  match a, b with
  | JNull, JNull => true
  | JNum x, JNum y => x =? y
  | JNum x, JBool y => x =? (if y then 1 else 0)
  | JBool x, JNum y => (if x then 1 else 0) =? y
  | JBool x, JBool y => Bool.eqb x y
  | JStr s, JStr s' => String.eqb s s'
  | JList la, JList lb =>
      (fix go (la lb : list json) : bool :=
         match la, lb with
         | [], [] => true
         | x :: la', y :: lb' => py_eq x y && go la' lb'
         | _, _ => false
         end) la lb
  | JObj oa, JObj ob =>
      Nat.eqb (length oa) (length ob)
      && (fix go (oa : list (string * json)) : bool :=
            match oa with
            | [] => true
            | (k, v) :: oa' =>
                match dget k ob with
                | Some v' => py_eq v v'
                | None => false
                end && go oa'
            end) oa
  | _, _ => false
  end.

(** [a > b]: numbers by value, strings and lists lexicographically,
    [TypeError] for the other pairs. *)
Fixpoint py_gt (a b : json) : res bool :=
  match a, b with
  | JNum x, JNum y => Ok (y <? x)
  | JNum x, JBool y => Ok ((if y then 1 else 0) <? x)
  | JBool x, JNum y => Ok (y <? (if x then 1 else 0))
  | JBool x, JBool y => Ok (x && negb y)
  | JStr s, JStr s' => Ok (String.ltb s' s)
  | JList la, JList lb =>
      (fix go (la lb : list json) : res bool :=
         match la, lb with
         | [], _ => Ok false
         | _ :: _, [] => Ok true
         | x :: la', y :: lb' => if py_eq x y then go la' lb' else py_gt x y
         end) la lb
  | _, _ => Raise TypeError
  end.

(** [j == s] for a [str] [s], and [j == z] for an [int] [z]. *)
Definition py_eq_str (j : json) (s : string) : bool :=
  match j with JStr s' => String.eqb s' s | _ => false end.

Definition py_eq_num (j : json) (z : Z) : bool :=
  match j with
  | JNum z' => z' =? z
  | JBool b => (if b then 1 else 0) =? z
  | _ => false
  end.

(** [j[k]] for a [str] [k]. *)
Definition py_getitem (j : json) (k : string) : res json :=
  match j with
  | JObj o => match dget k o with Some v => Ok v | None => Raise KeyError end
  | _ => Raise TypeError
  end.

(** [j[k] = v] for a [str] [k]. *)
Definition py_setitem (j : json) (k : string) (v : json) : res json :=
  match j with
  | JObj o => Ok (JObj (dset k v o))
  | _ => Raise TypeError
  end.

(** [j.get(k, d)]. *)
Definition py_get_default (j : json) (k : string) (d : json) : res json :=
  match j with
  | JObj o => Ok (match dget k o with Some v => v | None => d end)
  | _ => Raise AttributeError
  end.

(** [k in j] for a [str] [k]: a key of a dictionary, a substring of a
    string, an element of a list. *)
Definition py_contains (k : string) (j : json) : res bool :=
  match j with
  | JObj o => Ok (match dget k o with Some _ => true | None => false end)
  | JStr s => Ok (match String.index 0 k s with Some _ => true | None => false end)
  | JList l => Ok (existsb (fun x => py_eq_str x k) l)
  | _ => Raise TypeError
  end.

(** [j.update(other)] for two dictionaries. *)
Definition py_update (j other : json) : res json :=
  match j, other with
  | JObj o, JObj o' => Ok (JObj (dupdate o o'))
  | JObj _, _ => Raise TypeError
  | _, _ => Raise AttributeError
  end.

(** [j.copy()]. *)
Definition py_copy (j : json) : res json :=
  match j with
  | JObj _ | JList _ => Ok j
  | _ => Raise AttributeError
  end.

(** [random.sample(population, k)], driven by the readings [rnd] of the
    random generator: one element is drawn from what is left, [k] times. *)
Fixpoint sample {A : Type} (rnd : nat -> nat) (population : list A) (k : nat) : list A :=
  match k with
  | O => []
  | S k' =>
      let i := (rnd k' mod length population)%nat in
      match population !! i with
      | Some x => x :: sample rnd (delete i population) k'
      | None => []
      end
  end.

(** ** A state, output and exception monad for the methods of an object *)

Module PyM.

Section Defs.
Context {S E : Type}.

Definition M (A : Type) : Type := S -> S * list E * res A.

Definition ret {A : Type} (a : A) : M A := fun s => (s, [], Ok a).

Definition bind {A B : Type} (m : M A) (f : A -> M B) : M B :=
  fun s =>
    match m s with
    | (s1, o1, Ok a) =>
        match f a s1 with
        | (s2, o2, r) => (s2, o1 ++ o2, r)
        end
    | (s1, o1, Raise e) => (s1, o1, Raise e)
    end.

Definition raise {A : Type} (e : pyexn) : M A := fun s => (s, [], Raise e).

Definition lift {A : Type} (r : res A) : M A := fun s => (s, [], r).

Definition get : M S := fun s => (s, [], Ok s).

Definition put (s' : S) : M unit := fun _ => (s', [], Ok tt).

Definition emit (e : E) : M unit := fun s => (s, [e], Ok tt).

(** [try: m except Exception: pass] (the handlers only log). *)
Definition try_ (m : M unit) : M unit :=
  fun s =>
    match m s with
    | (s1, o1, _) => (s1, o1, Ok tt)
    end.

(** [for x in l: f(x)]. *)
Fixpoint for_each {A : Type} (l : list A) (f : A -> M unit) : M unit :=
  match l with
  | [] => ret tt
  | x :: r => bind (f x) (fun _ => for_each r f)
  end.

Definition state_of {A : Type} (x : S * list E * res A) : S := fst (fst x).
Definition output_of {A : Type} (x : S * list E * res A) : list E := snd (fst x).
Definition result_of {A : Type} (x : S * list E * res A) : res A := snd x.

End Defs.

Arguments M : clear implicits.

End PyM.

Notation "'let*' x := m 'in' k" := (PyM.bind m (fun x => k))
  (at level 10, x name, m at level 100, k at level 200).
Notation "'do*' m 'in' k" := (PyM.bind m (fun _ => k))
  (at level 10, m at level 100, k at level 200).

(** ** cerebrum/p2p/gossip/protocol.py *)

(** The callables registered as callbacks: the four bound methods that
    [AgentPresenceService.start] registers, and any other callable. *)
Inductive callable : Type :=
| HandleAgentActive
| HandleAgentInactive
| HandleAgentQuery
| HandleAgentInfo
| External (n : nat).

Module GossipMessage.

Definition DEFAULT_MAX_TRANSMIT_COUNT : Z := 3.

Record t : Type := Build {
  sender_id : string;
  message_type : string;
  data : dict;
  timestamp : Z;
  ttl : Z;
  message_id : string
}.

(** [GossipMessage(sender_id, message_type, data, timestamp, ttl)]:
    [self.timestamp = timestamp or time.time()] and
    [self.message_id = f"{sender_id}:{self.timestamp}:{hash(str(data))}"]. *)
Definition new `{PyRuntime} (sender_id message_type : string) (data : dict)
    (timestamp : option Z) (ttl : Z) (now : Z) : t :=
  let ts := match timestamp with
            | Some t => if t =? 0 then now else t
            | None => now
            end in
  Build sender_id message_type data ts ttl
    (sender_id +:+ ":" +:+ pretty ts +:+ ":" +:+ pretty (py_hash (py_str (JObj data)))).

(** The message object after its [data] dictionary was mutated in
    place: the id computed by the constructor stays. *)
Definition with_data (self : t) (data' : dict) : t :=
  Build (sender_id self) (message_type self) data' (timestamp self) (ttl self)
        (message_id self).

(** A decoded envelope: the fields [from_dict] reads, each of its
    declared type when present (the field ["id"] is not read). *)
Record wire : Type := Wire {
  w_sender_id : option string;
  w_type : option string;
  w_data : option dict;
  w_timestamp : option Z;
  w_ttl : option Z
}.

(** [to_dict], without the entry ["id"]. *)
Definition to_dict (self : t) : wire :=
  Wire (Some (sender_id self)) (Some (message_type self)) (Some (data self))
       (Some (timestamp self)) (Some (ttl self)).

Definition from_dict `{PyRuntime} (w : wire) (now : Z) : t :=
  new (default "" (w_sender_id w)) (default "" (w_type w)) (default [] (w_data w))
      (Some (default now (w_timestamp w)))
      (default DEFAULT_MAX_TRANSMIT_COUNT (w_ttl w)) now.

(** [decode]: [None] stands for bytes that are not JSON. *)
Definition decode `{PyRuntime} (datagram : option wire) (now : Z) : t :=
  match datagram with
  | Some w => from_dict w now
  | None => new "unknown" "error" [("error", JStr "Invalid message format")]
                None DEFAULT_MAX_TRANSMIT_COUNT now
  end.

End GossipMessage.

Module GossipProtocol.

Definition DEFAULT_GOSSIP_INTERVAL : Z := 5.
Definition DEFAULT_CLEANUP_INTERVAL : Z := 30.
Definition DEFAULT_SUSPICION_TIMEOUT : Z := 10.
Definition DEFAULT_DEAD_TIMEOUT : Z := 60.

(** [NodeState]. *)
Definition ALIVE := "alive".
Definition SUSPECT := "suspect".
Definition DEAD := "dead".

Definition MSG_PING := "ping".
Definition MSG_ACK := "ack".
Definition MSG_SYNC := "sync".
Definition MSG_STATE := "state".
Definition MSG_SUSPECT := "suspect".
Definition MSG_DEAD := "dead".

Inductive effect : Type :=
| SendTo (message : GossipMessage.t) (addr : json * json)
| Invoke (callback : callable) (message : GossipMessage.t).

Record t : Type := Build {
  node_id : string;
  port : Z;
  transport : bool;
  peers : list (string * json);
  message_cache : gmap string Z;
  callbacks : gmap string (list callable);
  gossip_interval : Z;
  cleanup_interval : Z;
  suspicion_timeout : Z;
  dead_timeout : Z
}.

Definition init (node_id : string) (port : Z) : t :=
  Build node_id port false [] ∅ ∅
        DEFAULT_GOSSIP_INTERVAL DEFAULT_CLEANUP_INTERVAL
        DEFAULT_SUSPICION_TIMEOUT DEFAULT_DEAD_TIMEOUT.

Definition set_peers (self : t) (ps : list (string * json)) : t :=
  Build (node_id self) (port self) (transport self) ps (message_cache self)
        (callbacks self) (gossip_interval self) (cleanup_interval self)
        (suspicion_timeout self) (dead_timeout self).

Definition set_message_cache (self : t) (mc : gmap string Z) : t :=
  Build (node_id self) (port self) (transport self) (peers self) mc
        (callbacks self) (gossip_interval self) (cleanup_interval self)
        (suspicion_timeout self) (dead_timeout self).

Definition set_callbacks (self : t) (cbs : gmap string (list callable)) : t :=
  Build (node_id self) (port self) (transport self) (peers self) (message_cache self)
        cbs (gossip_interval self) (cleanup_interval self)
        (suspicion_timeout self) (dead_timeout self).

(** [connection_made]; the two periodic tasks it starts are the events
    [CleanupTick] and [GossipTick] below. *)
Definition connection_made (self : t) : t :=
  Build (node_id self) (port self) true (peers self) (message_cache self)
        (callbacks self) (gossip_interval self) (cleanup_interval self)
        (suspicion_timeout self) (dead_timeout self).

Abbreviation M := (PyM.M t effect).

(** [self.peers[peer_id]]. *)
Definition peers_lookup (peer_id : string) : M json :=
  fun self =>
    match dget peer_id (peers self) with
    | Some p => (self, [], Ok p)
    | None => (self, [], Raise KeyError)
    end.

(** [self.peers[peer_id] = p]. *)
Definition peers_assign (peer_id : string) (p : json) : M unit :=
  fun self => (set_peers self (dset peer_id p (peers self)), [], Ok tt).

(** [del self.peers[peer_id]]. *)
Definition peers_del (peer_id : string) : M unit :=
  fun self =>
    match dget peer_id (peers self) with
    | Some _ => (set_peers self (ddel peer_id (peers self)), [], Ok tt)
    | None => (self, [], Raise KeyError)
    end.

(** [peer_id in self.peers]. *)
Definition in_peers (self : t) (peer_id : string) : bool :=
  match dget peer_id (peers self) with Some _ => true | None => false end.

(** [self.peers[peer_id][field]]. *)
Definition peer_getitem (peer_id field : string) : M json :=
  let* p := peers_lookup peer_id in
  PyM.lift (py_getitem p field).

(** [self.peers[peer_id][field] = v]: the record is updated in place. *)
Definition peer_setitem (peer_id field : string) (v : json) : M unit :=
  let* p := peers_lookup peer_id in
  let* p' := PyM.lift (py_setitem p field v) in
  peers_assign peer_id p'.

Definition _update_peer (peer_id ip : string) (port : Z) (state : string) (now : Z)
  : M unit :=
  let* self := PyM.get in
  if String.eqb peer_id (node_id self) then PyM.ret tt
  else if in_peers self peer_id then
    do* peer_setitem peer_id "last_seen" (JNum now) in
    let* more_recent :=
      (if String.eqb state DEAD then PyM.ret true
       else if String.eqb state SUSPECT then
         let* current := peer_getitem peer_id "state" in
         PyM.ret (py_eq_str current ALIVE)
       else PyM.ret false) in
    do* (if more_recent then peer_setitem peer_id "state" (JStr state) else PyM.ret tt) in
    let* old_ip := peer_getitem peer_id "ip" in
    let* moved :=
      (if negb (py_eq_str old_ip ip) then PyM.ret true
       else
         let* old_port := peer_getitem peer_id "port" in
         PyM.ret (negb (py_eq_num old_port port))) in
    if moved then
      do* peer_setitem peer_id "ip" (JStr ip) in
      peer_setitem peer_id "port" (JNum port)
    else PyM.ret tt
  else
    peers_assign peer_id
      (JObj [("ip", JStr ip); ("port", JNum port); ("state", JStr state);
             ("last_seen", JNum now); ("incarnation", JNum 0)]).

(** [_send_message]: nothing leaves without a transport; an exception
    of [sendto] is caught and logged. *)
Definition _send_message (message : GossipMessage.t) (addr : json * json) : M unit :=
  let* self := PyM.get in
  if transport self then PyM.emit (SendTo message addr) else PyM.ret tt.

(** [[(id, p) for id, p in self.peers.items() if p["state"] != DEAD]]. *)
Fixpoint live_of (ps : list (string * json)) : res (list (string * json)) :=
  match ps with
  | [] => Ok []
  | (id, p) :: r =>
      match py_getitem p "state" with
      | Raise e => Raise e
      | Ok s =>
          match live_of r with
          | Raise e => Raise e
          | Ok l => Ok (if py_eq_str s DEAD then l else (id, p) :: l)
          end
      end
  end.

(** [addr = (peer["ip"], peer["port"]); self._send_message(message, addr)]. *)
Definition send_to_peer (message : GossipMessage.t) (peer : json) : M unit :=
  let* ip := PyM.lift (py_getitem peer "ip") in
  let* port := PyM.lift (py_getitem peer "port") in
  _send_message message (ip, port).

(** [min(len(live_peers), max(3, int(len(live_peers) ** 0.5)))]. *)
Definition target_count (n : nat) : nat := Nat.min n (Nat.max 3 (Nat.sqrt n)).

Definition _propagate_message `{PyRuntime} (message : GossipMessage.t) (now : Z)
    (rnd : nat -> nat) : M unit :=
  if GossipMessage.ttl message <=? 1 then PyM.ret tt
  else
    let new_message :=
      GossipMessage.new (GossipMessage.sender_id message)
        (GossipMessage.message_type message) (GossipMessage.data message)
        (Some (GossipMessage.timestamp message)) (GossipMessage.ttl message - 1) now in
    let* self := PyM.get in
    let* live := PyM.lift (live_of (peers self)) in
    let live_peers := map snd live in
    match live_peers with
    | [] => PyM.ret tt
    | _ =>
        let targets := sample rnd live_peers (target_count (length live_peers)) in
        PyM.for_each targets (send_to_peer new_message)
    end.

Definition addr_of (addr : string * Z) : json * json := (JStr (fst addr), JNum (snd addr)).

Definition _handle_ping `{PyRuntime} (message : GossipMessage.t) (addr : string * Z)
    (now : Z) : M unit :=
  let* self := PyM.get in
  let ack := GossipMessage.new (node_id self) MSG_ACK
               [("target", JStr (GossipMessage.sender_id message))]
               None GossipMessage.DEFAULT_MAX_TRANSMIT_COUNT now in
  _send_message ack (addr_of addr).

Definition _handle_ack (message : GossipMessage.t) : M unit :=
  let target := py_get "target" (GossipMessage.data message) in
  let* self := PyM.get in
  if py_eq_str target (node_id self) && in_peers self (GossipMessage.sender_id message)
  then
    let* current := peer_getitem (GossipMessage.sender_id message) "state" in
    if py_eq_str current SUSPECT
    then peer_setitem (GossipMessage.sender_id message) "state" (JStr ALIVE)
    else PyM.ret tt
  else PyM.ret tt.

(** [_get_peers_state]. *)
Fixpoint copy_peers (ps : list (string * json)) : res (list (string * json)) :=
  match ps with
  | [] => Ok []
  | (id, p) :: r =>
      match py_copy p with
      | Raise e => Raise e
      | Ok p' =>
          match copy_peers r with
          | Raise e => Raise e
          | Ok r' => Ok ((id, p') :: r')
          end
      end
  end.

Definition _handle_sync `{PyRuntime} (message : GossipMessage.t) (addr : string * Z)
    (now : Z) : M unit :=
  let* self := PyM.get in
  let* peers_copy := PyM.lift (copy_peers (peers self)) in
  let state_msg := GossipMessage.new (node_id self) MSG_STATE
                     [("peers", JObj peers_copy)]
                     None GossipMessage.DEFAULT_MAX_TRANSMIT_COUNT now in
  _send_message state_msg (addr_of addr).

(** One iteration of the loop of [_handle_state]. The entry of a new
    peer is stored by reference: the assignment of ["last_seen"] also
    changes the entry inside the message, which is what the iteration
    returns. *)
Definition state_entry (now : Z) (peer_id : string) (peer_data : json) : M json :=
  let* self := PyM.get in
  if String.eqb peer_id (node_id self) then PyM.ret peer_data
  else
    match dget peer_id (peers self) with
    | Some local =>
        let* incoming := PyM.lift (py_get_default peer_data "incarnation" (JNum 0)) in
        let* known := PyM.lift (py_get_default local "incarnation" (JNum 0)) in
        let* newer := PyM.lift (py_gt incoming known) in
        if newer then
          let* local' := PyM.lift (py_update local peer_data) in
          do* peers_assign peer_id local' in
          PyM.ret peer_data
        else PyM.ret peer_data
    | None =>
        let* has_ip := PyM.lift (py_contains "ip" peer_data) in
        let* has_both :=
          (if has_ip then PyM.lift (py_contains "port" peer_data) else PyM.ret false) in
        if has_both then
          do* peers_assign peer_id peer_data in
          let* peer_data' := PyM.lift (py_setitem peer_data "last_seen" (JNum now)) in
          do* peers_assign peer_id peer_data' in
          PyM.ret peer_data'
        else PyM.ret peer_data
    end.

Fixpoint state_loop (now : Z) (entries : list (string * json)) : M (list (string * json)) :=
  match entries with
  | [] => PyM.ret []
  | (peer_id, peer_data) :: r =>
      let* peer_data' := state_entry now peer_id peer_data in
      let* r' := state_loop now r in
      PyM.ret ((peer_id, peer_data') :: r')
  end.

(** [_handle_state]; the result is [message.data] as the handler leaves it. *)
Definition _handle_state (message : GossipMessage.t) (now : Z) : M dict :=
  match dget "peers" (GossipMessage.data message) with
  | None => PyM.ret (GossipMessage.data message)
  | Some (JObj entries) =>
      let* entries' := state_loop now entries in
      PyM.ret (dset "peers" (JObj entries') (GossipMessage.data message))
  | Some _ => PyM.raise AttributeError
  end.

Definition _handle_suspect (message : GossipMessage.t) (now : Z) : M unit :=
  let suspect_id := py_get "peer_id" (GossipMessage.data message) in
  let* self := PyM.get in
  if negb (py_truthy suspect_id) || py_eq_str suspect_id (node_id self) then PyM.ret tt
  else
    match suspect_id with
    | JStr id =>
        if in_peers self id then
          let* current := peer_getitem id "state" in
          if negb (py_eq_str current DEAD) then
            do* peer_setitem id "state" (JStr SUSPECT) in
            peer_setitem id "suspect_time" (JNum now)
          else PyM.ret tt
        else PyM.ret tt
    | JList _ | JObj _ => PyM.raise TypeError
    | _ => PyM.ret tt
    end.

Definition _handle_dead (message : GossipMessage.t) : M unit :=
  let dead_id := py_get "peer_id" (GossipMessage.data message) in
  let* self := PyM.get in
  if negb (py_truthy dead_id) || py_eq_str dead_id (node_id self) then PyM.ret tt
  else
    match dead_id with
    | JStr id =>
        if in_peers self id then peer_setitem id "state" (JStr DEAD) else PyM.ret tt
    | JList _ | JObj _ => PyM.raise TypeError
    | _ => PyM.ret tt
    end.

(** [_trigger_callbacks]: what a callback does is outside the protocol
    object, an exception it raises is caught. *)
Definition _trigger_callbacks (message : GossipMessage.t) : M unit :=
  let* self := PyM.get in
  match callbacks self !! GossipMessage.message_type message with
  | Some cbs => PyM.for_each cbs (fun cb => PyM.emit (Invoke cb message))
  | None => PyM.ret tt
  end.

(** The [if]/[elif] chain of [_process_message]. *)
Definition dispatch `{PyRuntime} (message : GossipMessage.t) (addr : string * Z)
    (now : Z) : M dict :=
  let ty := GossipMessage.message_type message in
  let data := GossipMessage.data message in
  if String.eqb ty MSG_PING then do* _handle_ping message addr now in PyM.ret data
  else if String.eqb ty MSG_ACK then do* _handle_ack message in PyM.ret data
  else if String.eqb ty MSG_SYNC then do* _handle_sync message addr now in PyM.ret data
  else if String.eqb ty MSG_STATE then _handle_state message now
  else if String.eqb ty MSG_SUSPECT then do* _handle_suspect message now in PyM.ret data
  else if String.eqb ty MSG_DEAD then do* _handle_dead message in PyM.ret data
  else PyM.ret data.

Definition _process_message `{PyRuntime} (message : GossipMessage.t) (addr : string * Z)
    (now : Z) (rnd : nat -> nat) : M unit :=
  do* _update_peer (GossipMessage.sender_id message) (fst addr) (snd addr) ALIVE now in
  let* data' := dispatch message addr now in
  let message' := GossipMessage.with_data message data' in
  do* _trigger_callbacks message' in
  _propagate_message message' now rnd.

Definition _should_process_message (message : GossipMessage.t) (now : Z) : M bool :=
  let* self := PyM.get in
  if String.eqb (GossipMessage.sender_id message) (node_id self) then PyM.ret false
  else
    match message_cache self !! GossipMessage.message_id message with
    | Some _ => PyM.ret false
    | None =>
        if GossipMessage.ttl message <=? 0 then PyM.ret false
        else
          do* PyM.put (set_message_cache self
                         (<[GossipMessage.message_id message := now]> (message_cache self))) in
          PyM.ret true
    end.

(** [datagram_received] from the decoded message on. *)
Definition deliver `{PyRuntime} (message : GossipMessage.t) (addr : string * Z)
    (now : Z) (rnd : nat -> nat) : M unit :=
  PyM.try_
    (let* ok := _should_process_message message now in
     if ok then _process_message message addr now rnd else PyM.ret tt).

Definition datagram_received `{PyRuntime} (datagram : option GossipMessage.wire)
    (addr : string * Z) (now : Z) (rnd : nat -> nat) : M unit :=
  deliver (GossipMessage.decode datagram now) addr now rnd.

Definition _propagate_to_all (message : GossipMessage.t) : M unit :=
  let* self := PyM.get in
  PyM.for_each (map snd (peers self))
    (fun peer =>
       let* current := PyM.lift (py_getitem peer "state") in
       if negb (py_eq_str current DEAD) then send_to_peer message peer else PyM.ret tt).

(** The body of the loop of [_check_peers] for one peer of the snapshot
    [list(self.peers.items())]. *)
Definition check_peer `{PyRuntime} (now : Z) (peer_id : string) : M unit :=
  let* self := PyM.get in
  let* current := peer_getitem peer_id "state" in
  if py_eq_str current DEAD then
    let* seen := peer_getitem peer_id "last_seen" in
    let* seen_at := PyM.lift (py_num seen) in
    if dead_timeout self <? now - seen_at then peers_del peer_id else PyM.ret tt
  else if py_eq_str current SUSPECT then
    let* peer := peers_lookup peer_id in
    let* timed := PyM.lift (py_contains "suspect_time" peer) in
    let* expired :=
      (if timed then
         let* since := peer_getitem peer_id "suspect_time" in
         let* since_at := PyM.lift (py_num since) in
         PyM.ret (suspicion_timeout self <? now - since_at)
       else PyM.ret false) in
    if expired then
      do* peer_setitem peer_id "state" (JStr DEAD) in
      _propagate_to_all
        (GossipMessage.new (node_id self) MSG_DEAD [("peer_id", JStr peer_id)]
           None GossipMessage.DEFAULT_MAX_TRANSMIT_COUNT now)
    else PyM.ret tt
  else if py_eq_str current ALIVE then
    let* seen := peer_getitem peer_id "last_seen" in
    let* seen_at := PyM.lift (py_num seen) in
    if suspicion_timeout self <? now - seen_at then
      do* peer_setitem peer_id "state" (JStr SUSPECT) in
      do* peer_setitem peer_id "suspect_time" (JNum now) in
      let* peer := peers_lookup peer_id in
      do* send_to_peer
            (GossipMessage.new (node_id self) MSG_PING []
               None GossipMessage.DEFAULT_MAX_TRANSMIT_COUNT now) peer in
      _propagate_to_all
        (GossipMessage.new (node_id self) MSG_SUSPECT [("peer_id", JStr peer_id)]
           None GossipMessage.DEFAULT_MAX_TRANSMIT_COUNT now)
    else PyM.ret tt
  else PyM.ret tt.

Definition _check_peers `{PyRuntime} (now : Z) : M unit :=
  let* self := PyM.get in
  PyM.for_each (map fst (peers self)) (check_peer now).

(** Whether [_clean_message_cache] deletes an entry received at
    [received]. *)
Definition expired (self : t) (now received : Z) : bool :=
  cleanup_interval self * 2 <? now - received.

Definition _clean_message_cache (now : Z) : M unit :=
  let* self := PyM.get in
  PyM.put (set_message_cache self
             (filter (fun kv => expired self now (snd kv) = false) (message_cache self))).

(** One iteration of [_cleanup_task]. *)
Definition cleanup_tick `{PyRuntime} (now : Z) : M unit :=
  PyM.try_ (do* _check_peers now in _clean_message_cache now).

Definition _gossip `{PyRuntime} (now : Z) (rnd : nat -> nat) : M unit :=
  let* self := PyM.get in
  let* live := PyM.lift (live_of (peers self)) in
  match sample rnd (map snd live) 1 with
  | peer :: _ =>
      send_to_peer
        (GossipMessage.new (node_id self) MSG_SYNC []
           None GossipMessage.DEFAULT_MAX_TRANSMIT_COUNT now) peer
  | [] => PyM.ret tt
  end.

(** One iteration of [_gossip_task]. *)
Definition gossip_tick `{PyRuntime} (now : Z) (rnd : nat -> nat) : M unit :=
  PyM.try_ (_gossip now rnd).

Definition register_callback (message_type : string) (callback : callable) : M unit :=
  let* self := PyM.get in
  let registered := default [] (callbacks self !! message_type) in
  PyM.put (set_callbacks self (<[message_type := registered ++ [callback]]> (callbacks self))).

(** [get_active_peers]. *)
Definition get_active_peers (self : t) : res (list (string * json)) :=
  live_of (peers self).

(** The steps of a gossip node. *)
Inductive event : Type :=
| Datagram (datagram : option GossipMessage.wire) (addr : string * Z)
           (now : Z) (rnd : nat -> nat)
| UpdatePeer (peer_id ip : string) (port : Z) (state : string) (now : Z)
| CleanupTick (now : Z)
| GossipTick (now : Z) (rnd : nat -> nat)
| RegisterCallback (message_type : string) (callback : callable)
| ConnectionMade.

Definition step `{PyRuntime} (self : t) (ev : event) : t * list effect :=
  match ev with
  | Datagram datagram addr now rnd => fst (datagram_received datagram addr now rnd self)
  | UpdatePeer peer_id ip port state now =>
      fst (PyM.try_ (_update_peer peer_id ip port state now) self)
  | CleanupTick now => fst (cleanup_tick now self)
  | GossipTick now rnd => fst (gossip_tick now rnd self)
  | RegisterCallback message_type callback =>
      fst (register_callback message_type callback self)
  | ConnectionMade => (connection_made self, [])
  end.

Definition run `{PyRuntime} (self : t) (evs : list event) : t :=
  fold_left (fun s ev => fst (step s ev)) evs self.

(** The state recorded for a peer. *)
Definition state_of (self : t) (peer_id : string) : option json :=
  match dget peer_id (peers self) with
  | Some (JObj o) => dget "state" o
  | _ => None
  end.

Definition is_dead (self : t) (peer_id : string) : Prop :=
  state_of self peer_id = Some (JStr DEAD).

Definition absent (self : t) (peer_id : string) : Prop :=
  dget peer_id (peers self) = None.

(** The incarnation a record or a sync entry counts for:
    [.get("incarnation", 0)]. *)
Definition incarnation_of (record : json) : res json :=
  py_get_default record "incarnation" (JNum 0).

(** [ev] is a [state] message that the node processes and that has, for
    [peer_id], an entry whose incarnation is greater than the one of the
    record the node holds. *)
Definition revives `{PyRuntime} (self : t) (ev : event) (peer_id : string) : Prop :=
  match ev with
  | Datagram datagram addr now rnd =>
      let message := GossipMessage.decode datagram now in
      PyM.result_of (_should_process_message message now self) = Ok true
      ∧ GossipMessage.message_type message = MSG_STATE
      ∧ ∃ entries peer_data local incoming known,
          dget "peers" (GossipMessage.data message) = Some (JObj entries)
          ∧ In (peer_id, peer_data) entries
          ∧ dget peer_id (peers self) = Some local
          ∧ incarnation_of peer_data = Ok incoming
          ∧ incarnation_of local = Ok known
          ∧ py_gt incoming known = Ok true
  | _ => False
  end.

End GossipProtocol.

(** ** cerebrum/p2p/gossip/agent_presence.py *)

Module AgentPresence.

Record t : Type := Build {
  agent_id : json;
  node_id : json;
  capabilities : json;
  last_updated : json;
  status : string
}.

(** [AgentPresence(agent_id, node_id, capabilities, last_updated)]:
    [capabilities or []] and [last_updated or time.time()]. *)
Definition new (agent_id node_id capabilities last_updated : json) (now : Z) : t :=
  Build agent_id node_id
        (if py_truthy capabilities then capabilities else JList [])
        (if py_truthy last_updated then last_updated else JNum now)
        "active".

Definition to_dict (self : t) : dict :=
  [("agent_id", agent_id self); ("node_id", node_id self);
   ("capabilities", capabilities self); ("last_updated", last_updated self);
   ("status", JStr (status self))].

Definition from_dict (data : json) (now : Z) : res t :=
  match py_get_default data "agent_id" (JStr ""),
        py_get_default data "node_id" (JStr ""),
        py_get_default data "capabilities" (JList []),
        py_get_default data "last_updated" (JNum now) with
  | Ok a, Ok n, Ok c, Ok u => Ok (new a n c u now)
  | Raise e, _, _, _ | _, Raise e, _, _ | _, _, Raise e, _ | _, _, _, Raise e => Raise e
  end.

End AgentPresence.

Module AgentPresenceService.

Definition MSG_AGENT_ACTIVE := "agent_active".
Definition MSG_AGENT_INACTIVE := "agent_inactive".
Definition MSG_AGENT_QUERY := "agent_query".
Definition MSG_AGENT_INFO := "agent_info".

(** What leaves the service: what its gossip protocol emits, and the
    calls [callback(agent_id, presence.to_dict())] of the callbacks
    registered for the agent events. *)
Inductive effect : Type :=
| Gossip (e : GossipProtocol.effect)
| Notify (event_type : string) (callback : callable) (agent_id : json) (presence : dict).

Record t : Type := Build {
  node_id : string;
  host : string;
  port : Z;
  gossip : option GossipProtocol.t;
  transport : bool;
  running : bool;
  local_agents : gmap pykey AgentPresence.t;
  remote_agents : gmap pykey AgentPresence.t;
  callbacks : gmap string (list callable)
}.

(** [AgentPresenceService(node_id, host, port)] with a given node id. *)
Definition init (node_id host : string) (port : Z) : t :=
  Build node_id host port None false false ∅ ∅
        (<["agent_active" := []]> (<["agent_inactive" := []]>
           (<["agent_updated" := []]> (<["agent_discovered" := []]> ∅)))).

Definition set_gossip (self : t) (g : option GossipProtocol.t) : t :=
  Build (node_id self) (host self) (port self) g (transport self) (running self)
        (local_agents self) (remote_agents self) (callbacks self).

Definition set_local_agents (self : t) (m : gmap pykey AgentPresence.t) : t :=
  Build (node_id self) (host self) (port self) (gossip self) (transport self)
        (running self) m (remote_agents self) (callbacks self).

Definition set_remote_agents (self : t) (m : gmap pykey AgentPresence.t) : t :=
  Build (node_id self) (host self) (port self) (gossip self) (transport self)
        (running self) (local_agents self) m (callbacks self).

Definition set_running (self : t) (tr r : bool) : t :=
  Build (node_id self) (host self) (port self) (gossip self) tr r
        (local_agents self) (remote_agents self) (callbacks self).

Definition set_callbacks (self : t) (cbs : gmap string (list callable)) : t :=
  Build (node_id self) (host self) (port self) (gossip self) (transport self)
        (running self) (local_agents self) (remote_agents self) cbs.

Abbreviation M := (PyM.M t effect).

(** A method of [self.gossip] run from the service. *)
Definition in_gossip {A : Type} (m : GossipProtocol.M A) (g : GossipProtocol.t) : M A :=
  fun self =>
    match m g with
    | (g', out, r) => (set_gossip self (Some g'), map Gossip out, r)
    end.

(** [for peer in self.gossip.get_active_peers().values(): addr =
    (peer["ip"], peer["port"]); self.gossip._send_message(message, addr)]. *)
Definition broadcast (message : GossipMessage.t) : M unit :=
  let* self := PyM.get in
  match gossip self with
  | None => PyM.ret tt
  | Some g =>
      let* live := PyM.lift (GossipProtocol.get_active_peers g) in
      PyM.for_each (map snd live)
        (fun peer => in_gossip (GossipProtocol.send_to_peer message peer) g)
  end.

Definition _propagate_agent_active `{PyRuntime} (presence : AgentPresence.t) (now : Z)
  : M unit :=
  let* self := PyM.get in
  match gossip self with
  | None => PyM.ret tt
  | Some _ =>
      broadcast (GossipMessage.new (node_id self) MSG_AGENT_ACTIVE
                   [("presence", JObj (AgentPresence.to_dict presence))]
                   None GossipMessage.DEFAULT_MAX_TRANSMIT_COUNT now)
  end.

Definition _propagate_agent_inactive `{PyRuntime} (presence : AgentPresence.t) (now : Z)
  : M unit :=
  let* self := PyM.get in
  match gossip self with
  | None => PyM.ret tt
  | Some _ =>
      broadcast (GossipMessage.new (node_id self) MSG_AGENT_INACTIVE
                   [("agent_id", AgentPresence.agent_id presence);
                    ("node_id", AgentPresence.node_id presence)]
                   None GossipMessage.DEFAULT_MAX_TRANSMIT_COUNT now)
  end.

Definition _propagate_agent_query `{PyRuntime} (agent_id : string) (now : Z) : M unit :=
  let* self := PyM.get in
  match gossip self with
  | None => PyM.ret tt
  | Some _ =>
      broadcast (GossipMessage.new (node_id self) MSG_AGENT_QUERY
                   [("agent_id", JStr agent_id); ("requester", JStr (node_id self))]
                   None GossipMessage.DEFAULT_MAX_TRANSMIT_COUNT now)
  end.

(** [try: body except Exception: return False]. *)
Definition or_false (body : M bool) : M bool :=
  fun self =>
    match body self with
    | (s1, o1, Ok b) => (s1, o1, Ok b)
    | (s1, o1, Raise _) => (s1, o1, Ok false)
    end.

Definition register_agent `{PyRuntime} (agent_id : string) (capabilities : json) (now : Z)
  : M bool :=
  let* self := PyM.get in
  if negb (running self) then PyM.ret false
  else
    or_false
      (let presence :=
         AgentPresence.new (JStr agent_id) (JStr (node_id self)) capabilities JNull now in
       do* PyM.put (set_local_agents self (<[KStr agent_id := presence]> (local_agents self))) in
       do* _propagate_agent_active presence now in
       PyM.ret true).

Definition unregister_agent `{PyRuntime} (agent_id : string) (now : Z) : M bool :=
  let* self := PyM.get in
  if negb (running self) then PyM.ret false
  else
    or_false
      (match local_agents self !! KStr agent_id with
       | Some presence =>
           do* PyM.put (set_local_agents self (delete (KStr agent_id) (local_agents self))) in
           do* _propagate_agent_inactive presence now in
           PyM.ret true
       | None => PyM.ret false
       end).

Definition update_agent_capabilities `{PyRuntime} (agent_id : string) (capabilities : json)
    (now : Z) : M bool :=
  let* self := PyM.get in
  if negb (running self) then PyM.ret false
  else
    or_false
      (match local_agents self !! KStr agent_id with
       | Some presence =>
           let presence' :=
             AgentPresence.Build (AgentPresence.agent_id presence)
               (AgentPresence.node_id presence) capabilities (JNum now)
               (AgentPresence.status presence) in
           do* PyM.put (set_local_agents self
                          (<[KStr agent_id := presence']> (local_agents self))) in
           do* _propagate_agent_active presence' now in
           PyM.ret true
       | None => PyM.ret false
       end).

Definition query_agent `{PyRuntime} (agent_id : string) (now : Z)
  : M (option AgentPresence.t) :=
  let* self := PyM.get in
  match local_agents self !! KStr agent_id with
  | Some presence => PyM.ret (Some presence)
  | None =>
      match remote_agents self !! KStr agent_id with
      | Some presence => PyM.ret (Some presence)
      | None =>
          do* (if running self then _propagate_agent_query agent_id now else PyM.ret tt) in
          PyM.ret None
      end
  end.

Definition register_callback (event_type : string) (callback : callable) : M unit :=
  let* self := PyM.get in
  match callbacks self !! event_type with
  | Some registered =>
      PyM.put (set_callbacks self (<[event_type := registered ++ [callback]]> (callbacks self)))
  | None => PyM.ret tt
  end.

Definition _trigger_callbacks (event_type : string) (agent_id : json)
    (presence : AgentPresence.t) : M unit :=
  let* self := PyM.get in
  match callbacks self !! event_type with
  | Some cbs =>
      PyM.for_each cbs
        (fun cb => PyM.emit (Notify event_type cb agent_id (AgentPresence.to_dict presence)))
  | None => PyM.ret tt
  end.

(** The part [_handle_agent_active] and [_handle_agent_info] share, from
    [presence = AgentPresence.from_dict(presence_data)] on. *)
Definition merge_presence (presence_data : json) (now : Z) : M unit :=
  let* presence := PyM.lift (AgentPresence.from_dict presence_data now) in
  let agent_id := AgentPresence.agent_id presence in
  let* self := PyM.get in
  if py_eq_str (AgentPresence.node_id presence) (node_id self) then PyM.ret tt
  else
    let* key := PyM.lift (py_hashable agent_id) in
    match remote_agents self !! key with
    | None =>
        do* PyM.put (set_remote_agents self (<[key := presence]> (remote_agents self))) in
        _trigger_callbacks "agent_discovered" agent_id presence
    | Some existing_presence =>
        let* is_updated :=
          PyM.lift (py_gt (AgentPresence.last_updated presence)
                          (AgentPresence.last_updated existing_presence)) in
        if is_updated then
          do* PyM.put (set_remote_agents self (<[key := presence]> (remote_agents self))) in
          _trigger_callbacks "agent_updated" agent_id presence
        else PyM.ret tt
    end.

Definition presence_data_of (message : GossipMessage.t) : json :=
  match dget "presence" (GossipMessage.data message) with
  | Some v => v
  | None => JObj []
  end.

Definition _handle_agent_active (message : GossipMessage.t) (now : Z) : M unit :=
  let presence_data := presence_data_of message in
  if negb (py_truthy presence_data) then PyM.ret tt
  else merge_presence presence_data now.

Definition _handle_agent_info (message : GossipMessage.t) (now : Z) : M unit :=
  let presence_data := presence_data_of message in
  let target := py_get "target" (GossipMessage.data message) in
  let* self := PyM.get in
  if negb (py_truthy presence_data) || negb (py_eq_str target (node_id self))
  then PyM.ret tt
  else merge_presence presence_data now.

Definition _handle_agent_inactive (message : GossipMessage.t) : M unit :=
  let agent_id := py_get "agent_id" (GossipMessage.data message) in
  let node_id := py_get "node_id" (GossipMessage.data message) in
  if negb (py_truthy agent_id) || negb (py_truthy node_id) then PyM.ret tt
  else
    let* key := PyM.lift (py_hashable agent_id) in
    let* self := PyM.get in
    match remote_agents self !! key with
    | Some presence =>
        if py_eq (AgentPresence.node_id presence) node_id then
          do* PyM.put (set_remote_agents self (delete key (remote_agents self))) in
          _trigger_callbacks "agent_inactive" agent_id presence
        else PyM.ret tt
    | None => PyM.ret tt
    end.

(** [_send_agent_info]: the first peer whose id equals [target_node]. *)
Definition _send_agent_info `{PyRuntime} (presence : AgentPresence.t) (target_node : json)
    (now : Z) : M unit :=
  let* self := PyM.get in
  match gossip self, target_node with
  | Some g, JStr target =>
      match dget target (GossipProtocol.peers g) with
      | Some peer_data =>
          in_gossip
            (GossipProtocol.send_to_peer
               (GossipMessage.new (node_id self) MSG_AGENT_INFO
                  [("presence", JObj (AgentPresence.to_dict presence));
                   ("target", target_node)]
                  None GossipMessage.DEFAULT_MAX_TRANSMIT_COUNT now)
               peer_data) g
      | None => PyM.ret tt
      end
  | _, _ => PyM.ret tt
  end.

Definition _handle_agent_query `{PyRuntime} (message : GossipMessage.t) (now : Z) : M unit :=
  let agent_id := py_get "agent_id" (GossipMessage.data message) in
  let requester := py_get "requester" (GossipMessage.data message) in
  let* self := PyM.get in
  if negb (py_truthy agent_id) || negb (py_truthy requester)
     || py_eq_str requester (node_id self)
  then PyM.ret tt
  else
    let* key := PyM.lift (py_hashable agent_id) in
    match local_agents self !! key with
    | Some presence => _send_agent_info presence requester now
    | None =>
        match remote_agents self !! key with
        | Some presence => _send_agent_info presence requester now
        | None => PyM.ret tt
        end
    end.

(** What the gossip protocol emits, seen from the service: a callback
    registered by [start] runs the handler (inside the [try] of
    [GossipProtocol._trigger_callbacks]), the rest leaves as it is. *)
Definition on_effect `{PyRuntime} (now : Z) (e : GossipProtocol.effect) : M unit :=
  match e with
  | GossipProtocol.Invoke HandleAgentActive message =>
      PyM.try_ (_handle_agent_active message now)
  | GossipProtocol.Invoke HandleAgentInactive message =>
      PyM.try_ (_handle_agent_inactive message)
  | GossipProtocol.Invoke HandleAgentQuery message =>
      PyM.try_ (_handle_agent_query message now)
  | GossipProtocol.Invoke HandleAgentInfo message =>
      PyM.try_ (_handle_agent_info message now)
  | _ => PyM.emit (Gossip e)
  end.

Definition event_time (ev : GossipProtocol.event) : Z :=
  match ev with
  | GossipProtocol.Datagram _ _ now _ => now
  | GossipProtocol.UpdatePeer _ _ _ _ now => now
  | GossipProtocol.CleanupTick now => now
  | GossipProtocol.GossipTick now _ => now
  | _ => 0
  end.

(** A step of the gossip protocol object of the service. *)
Definition network `{PyRuntime} (ev : GossipProtocol.event) : M unit :=
  let* self := PyM.get in
  match gossip self with
  | None => PyM.ret tt
  | Some g =>
      match GossipProtocol.step g ev with
      | (g', out) =>
          do* PyM.put (set_gossip self (Some g')) in
          PyM.for_each out (on_effect (event_time ev))
      end
  end.

(** [start]: [bound] tells whether [create_datagram_endpoint] succeeds. *)
Definition start (bound : bool) : M unit :=
  let* self := PyM.get in
  if running self then PyM.ret tt
  else
    let g := GossipProtocol.init (node_id self) (port self) in
    if bound then
      let g1 := GossipProtocol.connection_made g in
      let register ty cb g :=
        PyM.state_of (GossipProtocol.register_callback ty cb g) in
      let g2 := register MSG_AGENT_INFO HandleAgentInfo
                  (register MSG_AGENT_QUERY HandleAgentQuery
                     (register MSG_AGENT_INACTIVE HandleAgentInactive
                        (register MSG_AGENT_ACTIVE HandleAgentActive g1))) in
      PyM.put (set_running (set_gossip self (Some g2)) true true)
    else PyM.put (set_gossip self (Some g)).

Definition stop : M unit :=
  let* self := PyM.get in
  if negb (running self) then PyM.ret tt
  else PyM.put (set_running self (transport self) false).

Definition add_peer (peer_id host : string) (port : Z) (now : Z) : M unit :=
  let* self := PyM.get in
  match gossip self with
  | Some g => in_gossip (GossipProtocol._update_peer peer_id host port GossipProtocol.ALIVE now) g
  | None => PyM.ret tt
  end.

Inductive event : Type :=
| Start (bound : bool)
| Stop
| RegisterAgent (agent_id : string) (capabilities : json) (now : Z)
| UnregisterAgent (agent_id : string) (now : Z)
| UpdateAgentCapabilities (agent_id : string) (capabilities : json) (now : Z)
| QueryAgent (agent_id : string) (now : Z)
| RegisterCallback (event_type : string) (callback : callable)
| AddPeer (peer_id host : string) (port : Z) (now : Z)
| Network (ev : GossipProtocol.event).

Definition step `{PyRuntime} (self : t) (ev : event) : t * list effect :=
  match ev with
  | Start bound => fst (start bound self)
  | Stop => fst (stop self)
  | RegisterAgent agent_id capabilities now =>
      fst (register_agent agent_id capabilities now self)
  | UnregisterAgent agent_id now => fst (unregister_agent agent_id now self)
  | UpdateAgentCapabilities agent_id capabilities now =>
      fst (update_agent_capabilities agent_id capabilities now self)
  | QueryAgent agent_id now => fst (query_agent agent_id now self)
  | RegisterCallback event_type callback => fst (register_callback event_type callback self)
  | AddPeer peer_id host port now => fst (add_peer peer_id host port now self)
  | Network ev => fst (network ev self)
  end.

Definition run `{PyRuntime} (self : t) (evs : list event) : t :=
  fold_left (fun s ev => fst (step s ev)) evs self.

(** The states of a service created with [node_id], [host] and [port]. *)
Definition reachable `{PyRuntime} (self : t) : Prop :=
  ∃ node_id host port evs, self = run (init node_id host port) evs.

End AgentPresenceService.

(** * Predicates of the verification *)

(** ** Pre- and postconditions of methods *)

Section Triples.
Context {S E : Type}.

(** From a state in [P], [m] ends in a state in [Q a] when it returns
    [a], and in a state in [X] when it raises. *)
Definition triple {A : Type} (P : S -> Prop) (m : PyM.M S E A)
    (Q : A -> S -> Prop) (X : S -> Prop) : Prop :=
  forall s, P s ->
    match m s with
    | (s', _, Ok a) => Q a s'
    | (s', _, Raise _) => X s'
    end.

(** [m] keeps the invariant [P], whether it returns or raises. *)
Definition keeps {A : Type} (P : S -> Prop) (m : PyM.M S E A) : Prop :=
  triple P m (fun _ => P) P.

(** [m] does not change the state. *)
Definition readonly {A : Type} (m : PyM.M S E A) : Prop :=
  forall s, PyM.state_of (m s) = s.

(** Every effect of [m] satisfies [R]. *)
Definition emits {A : Type} (R : E -> Prop) (m : PyM.M S E A) : Prop :=
  forall s, Forall R (PyM.output_of (m s)).

(** [m] does not change the part [f] of the state. *)
Definition unchanged {B A : Type} (f : S -> B) (m : PyM.M S E A) : Prop :=
  forall s, f (PyM.state_of (m s)) = f s.

End Triples.

Definition demo_id (b : byte) : NodeID.t := NodeID.Build (repeat x00 19 ++ [b]).
Definition demo_node (b : byte) : Node.t := Node.new (demo_id b) "10.0.0.1" 9000 0.

Definition demo_runtime : PyRuntime :=
  {| py_hash := fun s => Z.of_nat (String.length s);
     py_str := fun _ => "{}";
     sha1 := fun _ => repeat x00 20 |}.

Definition demo_protocol : DHTProtocol.t :=
  DHTProtocol.connection_made
    (DHTProtocol.init (DHT.init "10.0.0.1" 9000 (demo_id x07) 20 0)).

(** The state of a request [message_id] that waits on [future]: it is
    registered, no other id is registered with its future, and the
    future holds the first reply resolved so far. *)
Definition waiting (s : DHTProtocol.t) (message_id : string) (future : loc)
    (reply : option Message.t) : Prop :=
  DHTProtocol.pending_requests s !! message_id = Some future
  ∧ (forall m, DHTProtocol.pending_requests s !! m = Some future -> m = message_id)
  ∧ DHTProtocol.futures s !! future
    = Some (match reply with
            | Some response => DHTProtocol.Result response
            | None => DHTProtocol.Pending
            end).

(** Every registered future is an object of the store (so a future
    created later is a new one). *)
Definition futures_allocated (s : DHTProtocol.t) : Prop :=
  forall m f, DHTProtocol.pending_requests s !! m = Some f ->
              is_Some (DHTProtocol.futures s !! f).

(** The record of [peer_id] is a dictionary whose state is [DEAD] and
    whose incarnation entry is [inc]. *)
Definition dead_with (peer_id : string) (inc : option json) (s : GossipProtocol.t) : Prop :=
  exists o, dget peer_id (GossipProtocol.peers s) = Some (JObj o)
            ∧ dget "state" o = Some (JStr GossipProtocol.DEAD)
            ∧ dget "incarnation" o = inc.

(** A property of the peer table. *)
Definition on_peers (P : GossipProtocol.t -> Prop) : Prop :=
  forall s s', GossipProtocol.peers s = GossipProtocol.peers s' -> P s -> P s'.

(** [dead_with] and [absent] depend on the record of one peer only. *)
Definition on_record (peer_id : string) (P : GossipProtocol.t -> Prop) : Prop :=
  forall s s', dget peer_id (GossipProtocol.peers s') = dget peer_id (GossipProtocol.peers s) ->
               P s -> P s'.

(** Among [entries] there is one for [peer_id] whose incarnation is
    greater than [inc], the incarnation entry of the record held. *)
Definition revival_entry (peer_id : string) (inc : option json)
    (entries : list (string * json)) : Prop :=
  exists peer_data incoming,
    In (peer_id, peer_data) entries
    ∧ GossipProtocol.incarnation_of peer_data = Ok incoming
    ∧ py_gt incoming (default (JNum 0) inc) = Ok true.

(** What a [state] message must carry to revive [peer_id]. *)
Definition revival_message (peer_id : string) (inc : option json)
    (message : GossipMessage.t) : Prop :=
  GossipMessage.message_type message = GossipProtocol.MSG_STATE
  ∧ exists entries,
      dget "peers" (GossipMessage.data message) = Some (JObj entries)
      ∧ revival_entry peer_id inc entries.

Definition is_send (e : GossipProtocol.effect) : Prop :=
  match e with
  | GossipProtocol.SendTo _ _ => True
  | GossipProtocol.Invoke _ _ => False
  end.

(** The callback calls among the effects. *)
Definition invocations (out : list GossipProtocol.effect) : list (callable * GossipMessage.t) :=
  omap (fun e => match e with
                 | GossipProtocol.Invoke cb m => Some (cb, m)
                 | GossipProtocol.SendTo _ _ => None
                 end) out.

(** A property of the state that does not depend on the peer table. *)
Definition peers_frame (P : GossipProtocol.t -> Prop) : Prop :=
  forall s ps, P s -> P (GossipProtocol.set_peers s ps).

(** A record with the fields that the protocol reads: a dictionary with
    ["state"], ["ip"] and ["port"]. *)
Definition peer_ok (p : json) : Prop :=
  exists o, p = JObj o
            ∧ is_Some (dget "state" o) ∧ is_Some (dget "ip" o) ∧ is_Some (dget "port" o).

Definition peers_ok (s : GossipProtocol.t) : Prop :=
  Forall (fun kv => peer_ok (snd kv)) (GossipProtocol.peers s).

(** [(peer["ip"], peer["port"])]. *)
Definition peer_addr (peer : json) : json * json :=
  match py_getitem peer "ip", py_getitem peer "port" with
  | Ok ip, Ok port => (ip, port)
  | _, _ => (JNull, JNull)
  end.

(** [peer["state"] != NodeState.DEAD]. *)
Definition not_dead (peer : json) : bool :=
  match py_getitem peer "state" with
  | Ok state => negb (py_eq_str state GossipProtocol.DEAD)
  | Raise _ => false
  end.

(** The non-[DEAD] peers of the table, in the order of the table. *)
Definition live_peers (s : GossipProtocol.t) : list json :=
  List.filter not_dead (map snd (GossipProtocol.peers s)).

(** With well-formed records, reading a field the protocol relies on
    and writing any field of a known peer do not raise. *)
Definition known_ok (id : string) (s : GossipProtocol.t) : Prop :=
  peers_ok s ∧ GossipProtocol.in_peers s id = true.

(** The copy that [_propagate_message] forwards. *)
Definition forwarded `{PyRuntime} (message : GossipMessage.t) (now : Z) : GossipMessage.t :=
  GossipMessage.new (GossipMessage.sender_id message) (GossipMessage.message_type message)
    (GossipMessage.data message) (Some (GossipMessage.timestamp message))
    (GossipMessage.ttl message - 1) now.

Definition builtin_types : list string :=
  [GossipProtocol.MSG_PING; GossipProtocol.MSG_ACK; GossipProtocol.MSG_SYNC;
   GossipProtocol.MSG_STATE; GossipProtocol.MSG_SUSPECT; GossipProtocol.MSG_DEAD].

(** The fan-out of the specification: [max(3, ceil(sqrt(n)))], capped at [n]. *)
Definition ceil_sqrt (n : nat) : nat :=
  if Nat.eqb (Nat.sqrt n * Nat.sqrt n) n then Nat.sqrt n else S (Nat.sqrt n).

Definition spec_target_count (n : nat) : nat := Nat.min n (Nat.max 3 (ceil_sqrt n)).

(** A node that has learned of ten peers, all alive. *)
Definition demo_gossip : GossipProtocol.t :=
  @GossipProtocol.run demo_runtime
    (GossipProtocol.connection_made (GossipProtocol.init "n0" 8001))
    (map (fun i => GossipProtocol.UpdatePeer ("p" +:+ pretty i) "10.0.0.2" (9000 + i)
                     GossipProtocol.ALIVE 100)
         [1; 2; 3; 4; 5; 6; 7; 8; 9; 10]).

Definition demo_message : GossipMessage.t :=
  @GossipMessage.new demo_runtime "p1" "agent_active" [] (Some 100) 3 100.

(** A node with ten live peers and one callback for [state] messages,
    and a [state] message whose entry for an unknown peer is a string
    that contains ["ip"] and ["port"]. *)
Definition demo_listening : GossipProtocol.t :=
  @GossipProtocol.run demo_runtime demo_gossip
    [GossipProtocol.RegisterCallback "state" (External 0);
     GossipProtocol.RegisterCallback "agent_active" (External 1)].

Definition demo_state_message : GossipMessage.t :=
  @GossipMessage.new demo_runtime "p1" "state"
    [("peers", JObj [("p99", JStr "ip port")])] (Some 100) 3 100.

(** A node that holds a peer as [DEAD]. *)
Definition demo_dead : GossipProtocol.t :=
  @GossipProtocol.run demo_runtime demo_gossip
    [GossipProtocol.UpdatePeer "p3" "10.0.0.2" 9003 GossipProtocol.DEAD 110].

Definition demo_events : list GossipProtocol.event :=
  [GossipProtocol.Datagram
     (Some (GossipMessage.Wire (Some "p3") (Some "ack") (Some [("target", JStr "n0")])
              (Some 120) (Some 3)))
     ("10.0.0.2", 9003) 121 (fun _ => O);
   GossipProtocol.UpdatePeer "p3" "10.0.0.2" 9003 GossipProtocol.ALIVE 125;
   GossipProtocol.CleanupTick 130].

(** The node id of a service and its tables of local and of remote agents. *)
Definition agents_of (s : AgentPresenceService.t)
  : string * gmap pykey AgentPresence.t * gmap pykey AgentPresence.t :=
  (AgentPresenceService.node_id s, AgentPresenceService.local_agents s,
   AgentPresenceService.remote_agents s).

(** The calls of the callbacks of [event_type]. *)
Definition notifications (event_type : string) (agent_id : json)
    (presence : AgentPresence.t) (s : AgentPresenceService.t)
  : list AgentPresenceService.effect :=
  map (fun cb => AgentPresenceService.Notify event_type cb agent_id
                   (AgentPresence.to_dict presence))
      (default [] (AgentPresenceService.callbacks s !! event_type)).

(** [new] is [old], or is more recent than [old]. *)
Definition not_older (old new : AgentPresence.t) : Prop :=
  new = old
  ∨ py_gt (AgentPresence.last_updated new) (AgentPresence.last_updated old) = Ok true.

(** Every remote agent of [s] is a remote agent of [s'], with the same
    record or a more recent one. *)
Definition remote_monotone (s s' : AgentPresenceService.t) : Prop :=
  forall key old,
    AgentPresenceService.remote_agents s !! key = Some old ->
    exists new, AgentPresenceService.remote_agents s' !! key = Some new ∧ not_older old new.

(** A local record: an agent of this node, under its own id. *)
Definition local_ok (nid : string) (key : pykey) (presence : AgentPresence.t) : Prop :=
  AgentPresence.node_id presence = JStr nid
  ∧ exists agent_id, key = KStr agent_id ∧ AgentPresence.agent_id presence = JStr agent_id.

(** A remote record: an agent of another node, under its own id. *)
Definition remote_ok (nid : string) (key : pykey) (presence : AgentPresence.t) : Prop :=
  py_eq_str (AgentPresence.node_id presence) nid = false
  ∧ py_hashable (AgentPresence.agent_id presence) = Ok key.

Definition agents_ok (nid : string)
    (a : string * gmap pykey AgentPresence.t * gmap pykey AgentPresence.t) : Prop :=
  a.1.1 = nid ∧ map_Forall (local_ok nid) a.1.2 ∧ map_Forall (remote_ok nid) a.2.

Definition presence_inv (nid : string) (s : AgentPresenceService.t) : Prop :=
  agents_ok nid (agents_of s).

(** An effect of a step on message [m]: a datagram, or a call of one of
    the callbacks registered for the type of [m], with [m]. *)
Definition calls_of (g : GossipProtocol.t) (m : GossipMessage.t)
    (e : GossipProtocol.effect) : Prop :=
  match e with
  | GossipProtocol.SendTo _ _ => True
  | GossipProtocol.Invoke cb m' =>
      m' = m ∧ cb ∈ default [] (GossipProtocol.callbacks g !! GossipMessage.message_type m)
  end.

(** The callbacks registered on the gossip protocol object of the service. *)
Definition gossip_callbacks (s : AgentPresenceService.t)
  : option (gmap string (list callable)) :=
  GossipProtocol.callbacks <$> AgentPresenceService.gossip s.

(** No message type has both [_handle_agent_inactive] and one of the
    handlers that store a presence among its callbacks; [start] registers
    each handler for a type of its own. *)
Definition callbacks_apart (registered : gmap string (list callable)) : Prop :=
  forall ty cbs,
    registered !! ty = Some cbs -> HandleAgentInactive ∈ cbs ->
    (HandleAgentActive ∉ cbs) ∧ (HandleAgentInfo ∉ cbs).

Definition handlers_apart (s : AgentPresenceService.t) : Prop :=
  forall registered, gossip_callbacks s = Some registered -> callbacks_apart registered.

(** A step that registers another callable than an external one on the
    gossip protocol object; the service itself does so in [start] only. *)
Definition registers_handler (ev : AgentPresenceService.event) : Prop :=
  exists ty cb,
    ev = AgentPresenceService.Network (GossipProtocol.RegisterCallback ty cb)
    ∧ forall n, cb ≠ External n.

(** A remote agent of [s] that is a remote agent of [s'] has the same
    record there, or a more recent one. *)
Definition kept_not_older (s s' : AgentPresenceService.t) : Prop :=
  forall key old new,
    AgentPresenceService.remote_agents s !! key = Some old ->
    AgentPresenceService.remote_agents s' !! key = Some new ->
    not_older old new.

(** The table [remote] after presence [presence_data] was merged into
    [remote0] by a node [nid], once or several times. *)
Definition merged (remote0 : gmap pykey AgentPresence.t) (nid : string)
    (presence_data : json) (now : Z) (remote : gmap pykey AgentPresence.t) : Prop :=
  remote = remote0
  ∨ exists presence key,
      AgentPresence.from_dict presence_data now = Ok presence
      ∧ py_hashable (AgentPresence.agent_id presence) = Ok key
      ∧ remote = <[key := presence]> remote0
      ∧ (remote0 !! key = None
         ∨ exists existing_presence,
             remote0 !! key = Some existing_presence
             ∧ py_gt (AgentPresence.last_updated presence)
                     (AgentPresence.last_updated existing_presence) = Ok true).

(** A started service, and the datagrams by which node [sender]
    announces and withdraws an agent. *)
Definition demo_service : AgentPresenceService.t :=
  @AgentPresenceService.run demo_runtime
    (AgentPresenceService.init "n0" "127.0.0.1" 8001) [AgentPresenceService.Start true].

Definition demo_presence (sender agent_id : string) (last_updated : Z) : json :=
  JObj [("agent_id", JStr agent_id); ("node_id", JStr sender);
        ("capabilities", JList [JStr "chat"]); ("last_updated", JNum last_updated);
        ("status", JStr "active")].

Definition agent_active_datagram (sender agent_id : string) (last_updated now : Z)
  : AgentPresenceService.event :=
  AgentPresenceService.Network
    (GossipProtocol.Datagram
       (Some (GossipMessage.Wire (Some sender) (Some "agent_active")
                (Some [("presence", demo_presence sender agent_id last_updated)])
                (Some now) (Some 3)))
       ("10.0.0.2", 9001) now (fun _ => O)).

Definition agent_inactive_datagram (sender agent_id : string) (now : Z)
  : AgentPresenceService.event :=
  AgentPresenceService.Network
    (GossipProtocol.Datagram
       (Some (GossipMessage.Wire (Some sender) (Some "agent_inactive")
                (Some [("agent_id", JStr agent_id); ("node_id", JStr sender)])
                (Some now) (Some 3)))
       ("10.0.0.2", 9001) now (fun _ => O)).

(** A table whose [bits] is the width of the local id and that has one
    bucket for each bit, as [RoutingTable(local_node_id)] builds it for
    a 20-byte id. *)
Definition table_ok (rt : RoutingTable.t) : Prop :=
  RoutingTable.bits rt
  = 8 * Z.of_nat (length (NodeID.id_bytes (RoutingTable.local_node_id rt)))
  ∧ Z.of_nat (length (RoutingTable.buckets rt)) = RoutingTable.bits rt.

(** An id of the width of the local id. *)
Definition same_width (rt : RoutingTable.t) (id : NodeID.t) : Prop :=
  length (NodeID.id_bytes id) = length (NodeID.id_bytes (RoutingTable.local_node_id rt)).

(** The contacts of the buckets strictly between two indices. *)
Definition between (self : RoutingTable.t) (left_bucket right_bucket : Z) : list Node.t :=
  concat (map KBucket.get_nodes
            (take (Z.to_nat (right_bucket - left_bucket - 1))
               (drop (Z.to_nat (left_bucket + 1)) (RoutingTable.buckets self)))).

(** The node has the id [nid] and no record for it. *)
Definition not_own_peer (nid : string) (s : GossipProtocol.t) : Prop :=
  GossipProtocol.node_id s = nid ∧ dget nid (GossipProtocol.peers s) = None.

(** * Theorems *)

(** * Properties *)

(** ** Dictionaries *)

Lemma dget_dset_eq {V : Type} (k : string) (v : V) (d : list (string * V)) :
  dget k (dset k v d) = Some v.
Proof.
  induction d as [|[k' v'] d IH]; simpl.
  - by rewrite String.eqb_refl.
  - destruct (String.eqb k' k) eqn:E; simpl; rewrite E; [done | exact IH].
Qed.

Lemma dget_dset_ne {V : Type} (k k0 : string) (v : V) (d : list (string * V)) :
  k ≠ k0 -> dget k0 (dset k v d) = dget k0 d.
Proof.
  intros Hne. induction d as [|[k' v'] d IH]; simpl.
  - destruct (String.eqb k k0) eqn:E; [|done].
    apply String.eqb_eq in E. contradiction.
  - destruct (String.eqb k' k) eqn:E; simpl.
    + apply String.eqb_eq in E. subst k'.
      destruct (String.eqb k k0) eqn:E'; [|done].
      apply String.eqb_eq in E'. contradiction.
    + destruct (String.eqb k' k0); [done | exact IH].
Qed.

Lemma dget_ddel_ne {V : Type} (k k0 : string) (d : list (string * V)) :
  k ≠ k0 -> dget k0 (ddel k d) = dget k0 d.
Proof.
  intros Hne. induction d as [|[k' v'] d IH]; simpl; [done|].
  destruct (String.eqb k' k) eqn:E; simpl.
  - apply String.eqb_eq in E. subst k'.
    destruct (String.eqb k k0) eqn:E'; [|done].
    apply String.eqb_eq in E'. contradiction.
  - destruct (String.eqb k' k0); [done | exact IH].
Qed.

Lemma dget_ddel_eq {V : Type} (k : string) (d : list (string * V)) :
  dget k (ddel k d) = None.
Proof.
  induction d as [|[k' v'] d IH]; simpl; [done|].
  destruct (String.eqb k' k) eqn:E; simpl; [done|]. by rewrite E.
Qed.

(** ** KBucket *)

Lemma NodeID_eqb_eq (a b : NodeID.t) : NodeID.eqb a b = true <-> a = b.
Proof. unfold NodeID.eqb. apply bool_decide_eq_true. Qed.

Lemma pop_existing_None (id : NodeID.t) (l : list Node.t) :
  KBucket.pop_existing id l = None <-> id ∉ map Node.node_id l.
Proof.
  induction l as [|x l IH]; simpl.
  - split; [intros _; apply not_elem_of_nil | done].
  - destruct (NodeID.eqb (Node.node_id x) id) eqn:E.
    + apply NodeID_eqb_eq in E. split; [done|].
      intros H. exfalso. apply H. rewrite E. left.
    + assert (Node.node_id x ≠ id) as Hne.
      { intros H. apply NodeID_eqb_eq in H. congruence. }
      rewrite not_elem_of_cons.
      destruct (KBucket.pop_existing id l) eqn:Ep.
      * split; [done|]. intros [_ H]. apply IH in H. done.
      * split; [|done]. intros _. split; [congruence | by apply IH].
Qed.

Lemma filter_other_ids (id : NodeID.t) (l : list Node.t) :
  id ∉ map Node.node_id l -> filter (fun x => Node.node_id x ≠ id) l = l.
Proof.
  induction l as [|x l IH]; simpl; intros Hid; [done|].
  apply not_elem_of_cons in Hid as [Hx Hl].
  rewrite filter_cons_True; [|congruence]. by rewrite IH.
Qed.

Lemma pop_existing_Some (id : NodeID.t) (l rest : list Node.t) :
  NoDup (map Node.node_id l) ->
  KBucket.pop_existing id l = Some rest ->
  id ∈ map Node.node_id l
  ∧ rest = filter (fun x => Node.node_id x ≠ id) l
  ∧ length l = S (length rest).
Proof.
  revert rest. induction l as [|x l IH]; simpl; intros rest Hnd Hp; [done|].
  apply NoDup_cons in Hnd as [Hx Hnd].
  destruct (NodeID.eqb (Node.node_id x) id) eqn:E.
  - apply NodeID_eqb_eq in E. injection Hp as <-. subst id.
    split; [left|]. split; [|done].
    rewrite filter_cons_False; [|by intros H; apply H].
    symmetry. by apply filter_other_ids.
  - assert (Node.node_id x ≠ id) as Hne.
    { intros H. apply NodeID_eqb_eq in H. congruence. }
    destruct (KBucket.pop_existing id l) as [r'|] eqn:Ep; [|done].
    injection Hp as <-.
    destruct (IH r' Hnd eq_refl) as (Hin & Hr & Hlen).
    split; [by right|]. split.
    + rewrite filter_cons_True; [|done]. by rewrite <- Hr.
    + simpl. by rewrite Hlen.
Qed.

Lemma KBucket_add_node_NoDup (b : KBucket.t) (node : Node.t) :
  NoDup (KBucket.ids b) -> NoDup (KBucket.ids (fst (KBucket.add_node b node))).
Proof.
  unfold KBucket.ids, KBucket.add_node. intros Hnd.
  destruct (KBucket.pop_existing (Node.node_id node) (KBucket.nodes b)) as [rest|] eqn:Ep.
  - destruct (pop_existing_Some _ _ _ Hnd Ep) as (_ & -> & _). simpl.
    rewrite map_app. apply NoDup_app. split; [|split].
    + apply (NoDup_fmap_2_strong Node.node_id).
      * intros x y Hx Hy Hxy.
        apply list_elem_of_filter in Hx as [_ Hx]. apply list_elem_of_filter in Hy as [_ Hy].
        revert Hnd Hx Hy Hxy. generalize (KBucket.nodes b). clear.
        induction l as [|z l IH]; simpl; intros Hnd Hx Hy Hxy; [by apply elem_of_nil in Hx|].
        apply NoDup_cons in Hnd as [Hz Hnd].
        apply elem_of_cons in Hx as [->|Hx]; apply elem_of_cons in Hy as [->|Hy]; try done.
        -- exfalso. apply Hz. rewrite Hxy. by apply (list_elem_of_fmap_2 Node.node_id).
        -- exfalso. apply Hz. rewrite <- Hxy. by apply (list_elem_of_fmap_2 Node.node_id).
        -- by apply IH.
      * apply NoDup_filter.
        revert Hnd. generalize (KBucket.nodes b). clear.
        induction l as [|z l IH]; simpl; intros Hnd; [constructor|].
        apply NoDup_cons in Hnd as [Hz Hnd]. apply NoDup_cons. split; [|by apply IH].
        intros Hin. apply Hz. by apply (list_elem_of_fmap_2 Node.node_id).
    + intros x Hx. simpl. apply not_elem_of_cons. split; [|apply not_elem_of_nil].
      apply list_elem_of_fmap in Hx as (y & -> & Hy).
      by apply list_elem_of_filter in Hy as [Hy _].
    + simpl. apply NoDup_singleton.
  - apply pop_existing_None in Ep.
    destruct (Z.of_nat (length (KBucket.nodes b)) <? KBucket.k b); simpl; [|done].
    rewrite map_app. apply NoDup_app. split; [done|]. split.
    + intros x Hx. simpl. apply not_elem_of_cons. split; [|apply not_elem_of_nil].
      intros ->. done.
    + simpl. apply NoDup_singleton.
Qed.

Lemma KBucket_after_snoc (k : Z) (adds : list Node.t) (node : Node.t) :
  KBucket.after k (adds ++ [node]) = fst (KBucket.add_node (KBucket.after k adds) node).
Proof. unfold KBucket.after. by rewrite fold_left_app. Qed.

Lemma KBucket_after_NoDup (k : Z) (adds : list Node.t) :
  NoDup (KBucket.ids (KBucket.after k adds)).
Proof.
  induction adds as [|node adds IH] using rev_ind.
  - constructor.
  - rewrite KBucket_after_snoc. by apply KBucket_add_node_NoDup.
Qed.

(** C3. [KBucket.add_node] on a bucket without duplicate ids: a contact
    whose id is in the bucket replaces the old entry and goes to the tail,
    the length is unchanged and the result is "inserted"; a contact with a
    new id is appended when the bucket holds fewer than [k] contacts and
    refused, with the bucket unchanged, when it is full. No bucket built
    from [KBucket(k)] by [add_node] calls has two contacts with one id. *)
Theorem KBucket_add_node_lru :
  (forall (b : KBucket.t) (node : Node.t),
     NoDup (KBucket.ids b) ->
     let b' := fst (KBucket.add_node b node) in
     let inserted := snd (KBucket.add_node b node) in
     KBucket.k b' = KBucket.k b
     ∧ NoDup (KBucket.ids b')
     ∧ (Node.node_id node ∈ KBucket.ids b ->
        inserted = true
        ∧ KBucket.nodes b'
          = filter (fun x => Node.node_id x ≠ Node.node_id node) (KBucket.nodes b) ++ [node]
        ∧ length (KBucket.nodes b') = length (KBucket.nodes b))
     ∧ (Node.node_id node ∉ KBucket.ids b ->
        (Z.of_nat (length (KBucket.nodes b)) < KBucket.k b ->
         inserted = true ∧ KBucket.nodes b' = KBucket.nodes b ++ [node])
        ∧ (KBucket.k b <= Z.of_nat (length (KBucket.nodes b)) ->
           inserted = false ∧ b' = b)))
  ∧ (forall (k : Z) (adds : list Node.t), NoDup (KBucket.ids (KBucket.after k adds))).
Proof.
  split; [|exact KBucket_after_NoDup].
  intros b node Hnd b' inserted.
  split; [|split; [by apply KBucket_add_node_NoDup|]].
  { subst b'. unfold KBucket.add_node.
    destruct (KBucket.pop_existing _ _); [done|].
    by destruct (_ <? _). }
  subst b' inserted. unfold KBucket.add_node, KBucket.ids in *.
  destruct (KBucket.pop_existing (Node.node_id node) (KBucket.nodes b)) as [rest|] eqn:Ep.
  - destruct (pop_existing_Some _ _ _ Hnd Ep) as (Hin & -> & Hlen). split.
    + intros _. simpl. split; [done|]. split; [done|].
      rewrite length_app. simpl. lia.
    + intros Hout. done.
  - apply pop_existing_None in Ep. split; [done|]. intros _. split.
    + intros Hlt. apply Z.ltb_lt in Hlt. by rewrite Hlt.
    + intros Hge. apply Z.ltb_ge in Hge. by rewrite Hge.
Qed.

Lemma KBucket_add_node_lru_witness :
  let b := KBucket.after 2 [demo_node x01; demo_node x02] in
  (snd (KBucket.add_node b (demo_node x01)) = true
   ∧ KBucket.nodes (fst (KBucket.add_node b (demo_node x01)))
     = filter (fun x => Node.node_id x ≠ demo_id x01) (KBucket.nodes b) ++ [demo_node x01]
   ∧ length (KBucket.nodes (fst (KBucket.add_node b (demo_node x01))))
     = length (KBucket.nodes b))
  ∧ (snd (KBucket.add_node b (demo_node x03)) = false
     ∧ fst (KBucket.add_node b (demo_node x03)) = b).
Proof.
  intros b.
  assert (NoDup (KBucket.ids b)) as Hnd by apply (proj2 KBucket_add_node_lru).
  destruct (proj1 KBucket_add_node_lru b (demo_node x01) Hnd) as (_ & _ & Hre & _).
  destruct (proj1 KBucket_add_node_lru b (demo_node x03) Hnd) as (_ & _ & _ & Hnew).
  split.
  - apply Hre. vm_compute. left.
  - apply Hnew.
    + vm_compute. intros H.
      by repeat (apply elem_of_cons in H as [H|H]; [discriminate H|]); apply elem_of_nil in H.
    + vm_compute. discriminate.
Defined.

(** ** RoutingTable *)

Lemma visit_index (self : RoutingTable.t) (guard : bool) (index step : Z)
    (nodes nodes' : list Node.t) (index' : Z) :
  RoutingTable.visit self guard index step nodes = Ok (nodes', index') ->
  index' = if guard then index + step else index.
Proof.
  unfold RoutingTable.visit. destruct guard.
  - destruct (py_index _ _); [|done]. by intros [= _ <-].
  - by intros [= _ <-].
Qed.

Lemma scan_adjacent_fuel (self : RoutingTable.t) (count : Z) (fuel : nat) :
  forall (left_bucket right_bucket : Z) (nodes : list Node.t),
    Z.max (left_bucket + 1) (RoutingTable.bits self - right_bucket) <= Z.of_nat fuel ->
    RoutingTable.scan_adjacent fuel self count left_bucket right_bucket nodes ≠ None.
Proof.
  induction fuel as [|fuel IH]; intros l r nodes Hfuel; simpl.
  - destruct (Z.of_nat (length nodes) <? count); simpl; [|done].
    destruct (0 <=? l) eqn:El; simpl.
    + apply Z.leb_le in El. lia.
    + destruct (r <? RoutingTable.bits self) eqn:Er; [|done].
      apply Z.ltb_lt in Er. lia.
  - destruct (_ && _); [|done].
    destruct (RoutingTable.visit self (0 <=? l) l (-1) nodes) as [[nodes1 l1]|] eqn:E1; [|done].
    destruct (RoutingTable.visit self (r <? RoutingTable.bits self) r 1 nodes1)
      as [[nodes2 r1]|] eqn:E2; [|done].
    apply visit_index in E1. apply visit_index in E2.
    apply IH. subst l1 r1.
    destruct (0 <=? l) eqn:El; destruct (r <? RoutingTable.bits self) eqn:Er;
      try apply Z.leb_le in El; try apply Z.leb_gt in El;
      try apply Z.ltb_lt in Er; try apply Z.ltb_ge in Er; lia.
Qed.

(** [get_closest_nodes] returns (a list or an exception): the [while]
    loop terminates. *)
Lemma get_closest_nodes_terminates (self : RoutingTable.t) (target_id : NodeID.t) (count : Z) :
  RoutingTable.get_closest_nodes self target_id count ≠ None.
Proof.
  unfold RoutingTable.get_closest_nodes.
  destruct (py_index _ _) as [b|]; [|done].
  destruct (RoutingTable.scan_adjacent _ _ _ _ _ _) as [[nodes|]|] eqn:E; try done.
  exfalso. revert E. apply scan_adjacent_fuel.
  unfold RoutingTable.scan_fuel. lia.
Qed.

(** C1. A table where [get_closest_nodes] does not return the closest
    contact: the local id is 0, the contacts have the ids 2 and 1, the
    target is 4. The bucket of the target (index 157) is empty, the first
    round of the loop collects the contact 2 from bucket 158 and stops, as
    one contact was asked for; the contact 1, in bucket 159, is closer to
    the target (distance 5 against 6) and is what the scan of all
    contacts returns. *)
Theorem get_closest_nodes_misses_closer_contact :
  let rt := RoutingTable.after (demo_id x00) 20 160 [demo_node x02; demo_node x01] in
  RoutingTable.all_nodes rt = [demo_node x02; demo_node x01]
  ∧ RoutingTable.get_closest_nodes rt (demo_id x04) 1 = Some (Ok [demo_node x02])
  ∧ RoutingTable.closest_bruteforce rt (demo_id x04) 1 = [demo_node x01]
  ∧ NodeID.distance (demo_id x04) (demo_id x01) = 5%N
  ∧ NodeID.distance (demo_id x04) (demo_id x02) = 6%N.
Proof. vm_compute. repeat split; reflexivity. Qed.

(** ** DHT *)

(** C8, as it is stated, fails: [register_agent] writes the four keys
    into the caller's dictionary itself. *)
Lemma register_agent_changes_caller_metadata :
  let dht := DHT.init "10.0.0.1" 9000 (demo_id x07) 20 0 in
  let heap : gmap loc dict := {[ 1%positive := [("k", JStr "v")] ]} in
  exists heap' dht',
    DHT.register_agent heap dht "a1" 1%positive 100 = Some (heap', dht', true)
    ∧ heap !! 1%positive = Some [("k", JStr "v")]
    ∧ heap' !! 1%positive
      = Some [("k", JStr "v"); ("last_update", JNum 100);
              ("node_id", JStr "0000000000000000000000000000000000000007");
              ("node_ip", JStr "10.0.0.1"); ("node_port", JNum 9000)]
    ∧ heap' !! 1%positive ≠ heap !! 1%positive.
Proof.
  intros dht heap. eexists _, _. split; [reflexivity|].
  split; [reflexivity|]. split; [reflexivity|]. discriminate.
Qed.

(** C8, amended. [register_agent(agent_id, metadata)] writes
    [last_update], [node_id] (the hexadecimal form of the local id),
    [node_ip] and [node_port] into the caller's dictionary, in place,
    keeps its other keys, changes no other object, and stores that same
    dictionary object under ["agent:" + agent_id]; [find_agent(agent_id)]
    then returns that object. *)
Theorem register_agent_stamps_in_place
    (heap : gmap loc dict) (self : DHT.t) (agent_id : string) (metadata : loc)
    (now : Z) (m : dict) :
  heap !! metadata = Some m ->
  exists heap' self',
    DHT.register_agent heap self agent_id metadata now = Some (heap', self', true)
    ∧ DHT.data_store self'
      = <[KStr ("agent:" +:+ agent_id) := DHT.Ref metadata]> (DHT.data_store self)
    ∧ DHT.find_agent self' agent_id = Some (DHT.Ref metadata)
    ∧ heap' !! metadata = Some (DHT.stamp self now m)
    ∧ (forall l, l ≠ metadata -> heap' !! l = heap !! l)
    ∧ dget "last_update" (DHT.stamp self now m) = Some (JNum now)
    ∧ dget "node_id" (DHT.stamp self now m) = Some (JStr (NodeID.str (DHT.node_id self)))
    ∧ dget "node_ip" (DHT.stamp self now m) = Some (JStr (DHT.ip self))
    ∧ dget "node_port" (DHT.stamp self now m) = Some (JNum (DHT.port self))
    ∧ (forall k, k ∉ ["last_update"; "node_id"; "node_ip"; "node_port"] ->
         dget k (DHT.stamp self now m) = dget k m).
Proof.
  intros Hm. unfold DHT.register_agent. rewrite Hm. simpl.
  eexists _, _. split; [reflexivity|]. simpl.
  split; [reflexivity|].
  split; [unfold DHT.find_agent, DHT.lookup; simpl; apply lookup_insert_eq|].
  split; [apply lookup_insert_eq|].
  split; [intros l Hl; by apply lookup_insert_ne|].
  unfold DHT.stamp.
  split; [by rewrite !dget_dset_ne by discriminate; rewrite dget_dset_eq|].
  split; [by rewrite !dget_dset_ne by discriminate; rewrite dget_dset_eq|].
  split; [by rewrite !dget_dset_ne by discriminate; rewrite dget_dset_eq|].
  split; [by rewrite dget_dset_eq|].
  intros k Hk. rewrite !not_elem_of_cons in Hk. destruct Hk as (H1 & H2 & H3 & H4 & _).
  rewrite !dget_dset_ne; congruence.
Qed.

Lemma register_agent_stamps_in_place_witness :
  let dht := DHT.init "10.0.0.1" 9000 (demo_id x07) 20 0 in
  let heap : gmap loc dict := {[ 1%positive := [("k", JStr "v")] ]} in
  exists heap' self',
    DHT.register_agent heap dht "a1" 1%positive 100 = Some (heap', self', true)
    ∧ DHT.find_agent self' "a1" = Some (DHT.Ref 1%positive)
    ∧ heap' !! 1%positive = Some (DHT.stamp dht 100 [("k", JStr "v")]).
Proof.
  intros dht heap.
  destruct (register_agent_stamps_in_place heap dht "a1" 1%positive 100 [("k", JStr "v")])
    as (heap' & self' & H1 & _ & H3 & H4 & _).
  { reflexivity. }
  exists heap', self'. by repeat split.
Defined.

(** ** DHTProtocol *)

(** C10. With a transport, [_handle_store] on a request whose [key] is a
    non-empty string and whose [value] is not [None] writes the value
    under the key and sends one [pong] with [request_id] the id of the
    request and [status] ["success"] to the requester; on a request
    whose [key] is missing, [None] or empty, or whose [value] is missing
    or [None], it changes nothing and sends nothing. *)
Theorem handle_store_acknowledges_complete_requests `{PyRuntime}
    (self : DHTProtocol.t) (message : Message.t) (addr : string * Z) :
  DHTProtocol.transport self = true ->
  let key := py_get "key" (Message.data message) in
  let value := py_get "value" (Message.data message) in
  (forall s, key = JStr s -> s ≠ "" -> value ≠ JNull ->
     exists self',
       DHTProtocol._handle_store self message addr
       = Ok (self', [DHTProtocol.SendTo (DHTProtocol.store_ack self message) addr])
       ∧ DHT.data_store (DHTProtocol.dht self')
         = <[KStr s := DHT.Imm value]> (DHT.data_store (DHTProtocol.dht self))
       ∧ DHTProtocol.pending_requests self' = DHTProtocol.pending_requests self
       ∧ DHTProtocol.futures self' = DHTProtocol.futures self
       ∧ Message.msg_type (DHTProtocol.store_ack self message) = "pong"
       ∧ Message.data (DHTProtocol.store_ack self message)
         = [("request_id", JStr (Message.message_id message)); ("status", JStr "success")])
  ∧ (key = JNull ∨ key = JStr "" ∨ value = JNull ->
     DHTProtocol._handle_store self message addr = Ok (self, [])).
Proof.
  intros Htr key value. unfold DHTProtocol._handle_store. fold key value. split.
  - intros s -> Hs Hv. simpl.
    assert (String.eqb s "" = false) as -> by (by apply String.eqb_neq).
    simpl. destruct value; try done; simpl;
      (eexists; split;
       [unfold DHTProtocol._send_message; simpl; rewrite Htr; reflexivity
       | by repeat split]).
  - intros [-> | [-> | ->]]; simpl; [done | done |].
    by rewrite andb_false_r.
Qed.

Lemma handle_store_acknowledges_complete_requests_witness :
  let message :=
    Message.Build "store" "peer" [("key", JStr "agent:a1"); ("value", JNum 1)] "42" in
  exists self',
    @DHTProtocol._handle_store demo_runtime demo_protocol message ("10.0.0.2", 9001)
    = Ok (self', [DHTProtocol.SendTo
                    (@DHTProtocol.store_ack demo_runtime demo_protocol message)
                    ("10.0.0.2", 9001)])
    ∧ DHT.data_store (DHTProtocol.dht self') !! KStr "agent:a1" = Some (DHT.Imm (JNum 1)).
Proof.
  intros message.
  destruct (@handle_store_acknowledges_complete_requests demo_runtime demo_protocol message
              ("10.0.0.2", 9001) eq_refl) as [Hok _].
  destruct (Hok "agent:a1" eq_refl) as (self' & Hrun & Hstore & _).
  { discriminate. }
  { discriminate. }
  exists self'. split; [exact Hrun|]. rewrite Hstore. apply lookup_insert_eq.
Defined.

Lemma register_pending_waiting (self : DHTProtocol.t) (message_id : string) :
  let r := DHTProtocol.register_pending self message_id in
  (forall m, DHTProtocol.pending_requests self !! m ≠ Some (snd r)) ->
  waiting (fst r) message_id (snd r) None.
Proof.
  intros r Hfresh. unfold waiting. subst r. simpl.
  split; [apply lookup_insert_eq|]. split; [|apply lookup_insert_eq].
  intros m Hm. destruct (decide (message_id = m)) as [|Hne]; [done|].
  rewrite lookup_insert_ne in Hm by done. by apply Hfresh in Hm.
Qed.

Lemma step_dht `{PyRuntime} (s : DHTProtocol.t) (ev : DHTProtocol.event) :
  DHTProtocol.dht (DHTProtocol.step s ev) = DHTProtocol.dht s.
Proof.
  destruct ev as [m r | ty data addr | m f]; simpl.
  - unfold DHTProtocol._resolve_pending_request.
    destruct (_ !! m); [|done]. by destruct (_ !! _) as [[]|].
  - done.
  - unfold DHTProtocol.send_request_end. by destruct (_ !! f) as [[]|].
Qed.

Lemma step_waiting `{PyRuntime} (self s : DHTProtocol.t) (message_id : string)
    (future : loc) (reply : option Message.t) (ev : DHTProtocol.event) :
  DHTProtocol.dht s = DHTProtocol.dht self ->
  waiting s message_id future reply ->
  DHTProtocol.foreign self message_id future ev ->
  waiting (DHTProtocol.step s ev) message_id future
    (match reply with
     | Some response => Some response
     | None => DHTProtocol.first_reply message_id [ev]
     end).
Proof.
  intros Hdht (Hp & Huniq & Hf) Hev.
  destruct ev as [m r | ty data addr | m f]; simpl in *.
  - unfold DHTProtocol._resolve_pending_request.
    destruct (String.eqb m message_id) eqn:Em.
    + apply String.eqb_eq in Em. subst m. rewrite Hp, Hf.
      destruct reply; [done|]. unfold waiting. simpl.
      split; [done|]. split; [done|]. apply lookup_insert_eq.
    + apply String.eqb_neq in Em.
      assert (waiting s message_id future reply) as Hw by done.
      destruct (DHTProtocol.pending_requests s !! m) as [f'|] eqn:Ef';
        [|by destruct reply].
      assert (f' ≠ future) as Hne.
      { intros ->. apply Huniq in Ef'. done. }
      destruct (DHTProtocol.futures s !! f') as [[]|]; try by destruct reply.
      unfold waiting. simpl. split; [done|]. split; [done|].
      rewrite lookup_insert_ne by done. by destruct reply.
  - unfold DHTProtocol.request_id in Hev. rewrite <- Hdht in Hev.
    set (mid' := Message.message_id _) in *.
    assert (fresh (dom (DHTProtocol.futures s)) ≠ future) as Hne.
    { intros Heq. apply (is_fresh (dom (DHTProtocol.futures s))).
      rewrite Heq. apply elem_of_dom. by eexists. }
    unfold waiting. simpl. split; [by rewrite lookup_insert_ne|]. split.
    + intros m Hm. destruct (decide (mid' = m)) as [<-|Hm'].
      * rewrite lookup_insert_eq in Hm. congruence.
      * rewrite lookup_insert_ne in Hm by done. by apply Huniq.
    + rewrite lookup_insert_ne by done. by destruct reply.
  - destruct Hev as [Hm Hfut]. unfold DHTProtocol.send_request_end.
    assert (forall fs, fs !! future = DHTProtocol.futures s !! future ->
              waiting (DHTProtocol.Build (DHTProtocol.dht s) (DHTProtocol.transport s)
                         (delete m (DHTProtocol.pending_requests s)) fs)
                      message_id future reply) as Hgen.
    { intros fs Hfs. unfold waiting. simpl. split; [by rewrite lookup_delete_ne|]. split.
      - intros m' Hm'. apply Huniq. apply lookup_delete_Some in Hm'. tauto.
      - by rewrite Hfs. }
    destruct (DHTProtocol.futures s !! f) as [[]|] eqn:Ef; simpl;
      try (destruct reply; by apply Hgen).
    destruct reply; apply Hgen; by rewrite lookup_insert_ne.
Qed.

Lemma first_reply_cons (message_id : string) (ev : DHTProtocol.event)
    (evs : list DHTProtocol.event) :
  DHTProtocol.first_reply message_id (ev :: evs)
  = match DHTProtocol.first_reply message_id [ev] with
    | Some response => Some response
    | None => DHTProtocol.first_reply message_id evs
    end.
Proof.
  destruct ev as [m r| |]; simpl; try done. by destruct (String.eqb m message_id).
Qed.

Lemma run_waiting `{PyRuntime} (self : DHTProtocol.t) (message_id : string) (future : loc)
    (evs : list DHTProtocol.event) :
  forall (s : DHTProtocol.t) (reply : option Message.t),
    DHTProtocol.dht s = DHTProtocol.dht self ->
    waiting s message_id future reply ->
    Forall (DHTProtocol.foreign self message_id future) evs ->
    waiting (DHTProtocol.run s evs) message_id future
      (match reply with
       | Some response => Some response
       | None => DHTProtocol.first_reply message_id evs
       end).
Proof.
  induction evs as [|ev evs IH]; intros s reply Hdht Hw Hall.
  - simpl. by destruct reply.
  - apply Forall_cons in Hall as [Hev Hall].
    pose proof (step_waiting self s message_id future reply ev Hdht Hw Hev) as Hw'.
    change (DHTProtocol.run s (ev :: evs)) with (DHTProtocol.run (DHTProtocol.step s ev) evs).
    eapply IH in Hw'; [|by rewrite step_dht|done].
    destruct reply; [done|]. rewrite first_reply_cons.
    by destruct (DHTProtocol.first_reply message_id [ev]).
Qed.

(** C7, as it is stated, fails for two requests in flight with one
    message id (the id is derived from the data and the sender only, two
    [ping]s of one node have the same): the second registration replaces
    the first, the reply to the first request resolves the future of the
    second, and the first request times out although a response with its
    id arrived. *)
Lemma send_request_reply_lost_on_equal_ids :
  let b1 := @DHTProtocol.send_request_begin demo_runtime demo_protocol "ping" []
              ("10.0.0.2", 9001) in
  let b2 := @DHTProtocol.send_request_begin demo_runtime (fst (fst b1)) "ping" []
              ("10.0.0.3", 9001) in
  let id1 := fst (snd b1) in
  let future1 := snd (snd b1) in
  let future2 := snd (snd b2) in
  let pong := Message.Build "pong" "peer" [("request_id", JStr id1)] "7" in
  let s := DHTProtocol._resolve_pending_request (fst (fst b2)) id1 pong in
  fst (snd b2) = id1
  ∧ future1 ≠ future2
  ∧ DHTProtocol.futures s !! future1 = Some DHTProtocol.Pending
  ∧ DHTProtocol.futures s !! future2 = Some (DHTProtocol.Result pong)
  ∧ snd (DHTProtocol.send_request_end s id1 future1) = None.
Proof. vm_compute. repeat split; congruence. Qed.

(** C7, amended. A request issued through [send_request] on a protocol
    object whose registered futures exist: the future is registered under
    the id of the outgoing message in the state the datagram is sent
    from. Then, whatever replies are resolved and whatever requests with
    other ids begin and end meanwhile, [send_request] returns the first
    response resolved under its id, or [None] when there is none (the
    timeout), and its id is no longer registered; a further response
    under that id changes nothing, neither while the resolved request
    still waits nor after it returned. *)
Theorem send_request_returns_first_reply `{PyRuntime}
    (self : DHTProtocol.t) (msg_type : string) (data : dict) (addr : string * Z)
    (evs : list DHTProtocol.event) :
  let message :=
    Message.new msg_type (NodeID.str (DHT.node_id (DHTProtocol.dht self))) data None in
  let b := DHTProtocol.send_request_begin self msg_type data addr in
  let self1 := fst (fst b) in
  let message_id := fst (snd b) in
  let future := snd (snd b) in
  futures_allocated self ->
  Forall (DHTProtocol.foreign self message_id future) evs ->
  (message_id = Message.message_id message
   ∧ DHTProtocol.pending_requests self1 !! message_id = Some future
   ∧ DHTProtocol.futures self1 !! future = Some DHTProtocol.Pending
   ∧ snd (fst b) = DHTProtocol._send_message self1 message addr)
  ∧ (let e := DHTProtocol.send_request_end (DHTProtocol.run self1 evs) message_id future in
     snd e = DHTProtocol.first_reply message_id evs
     ∧ DHTProtocol.pending_requests (fst e) !! message_id = None
     ∧ forall response,
         DHTProtocol._resolve_pending_request (fst e) message_id response = fst e)
  ∧ (DHTProtocol.first_reply message_id evs ≠ None ->
     forall response,
       DHTProtocol._resolve_pending_request (DHTProtocol.run self1 evs) message_id response
       = DHTProtocol.run self1 evs).
Proof.
  intros message b self1 message_id future Hwf Hall.
  assert (waiting self1 message_id future None) as Hw.
  { apply (register_pending_waiting self (Message.message_id message)).
    intros m Hm. apply Hwf in Hm. apply elem_of_dom in Hm.
    by apply is_fresh in Hm. }
  split; [|split].
  - destruct Hw as (Hp & _ & Hf). by repeat split.
  - pose proof (run_waiting self message_id future evs self1 None eq_refl Hw Hall)
      as (Hp & _ & Hf).
    unfold DHTProtocol.send_request_end. rewrite Hf.
    destruct (DHTProtocol.first_reply message_id evs); simpl;
      (split; [done|]; split; [apply lookup_delete_eq|]; intros response;
       unfold DHTProtocol._resolve_pending_request; simpl; by rewrite lookup_delete_eq).
  - intros Hsome response.
    pose proof (run_waiting self message_id future evs self1 None eq_refl Hw Hall)
      as (Hp & _ & Hf).
    unfold DHTProtocol._resolve_pending_request. rewrite Hp, Hf.
    by destruct (DHTProtocol.first_reply message_id evs).
Qed.

Lemma send_request_returns_first_reply_witness :
  let b := @DHTProtocol.send_request_begin demo_runtime demo_protocol "ping" []
             ("10.0.0.2", 9001) in
  let pong := Message.Build "pong" "peer" [("request_id", JStr (fst (snd b)))] "7" in
  let evs := [DHTProtocol.Resolve (fst (snd b)) pong; DHTProtocol.Resolve (fst (snd b)) pong] in
  snd (DHTProtocol.send_request_end (@DHTProtocol.run demo_runtime (fst (fst b)) evs)
         (fst (snd b)) (snd (snd b)))
  = Some pong.
Proof.
  intros b pong evs.
  destruct (@send_request_returns_first_reply demo_runtime demo_protocol "ping" []
              ("10.0.0.2", 9001) evs) as (_ & (Hres & _) & _).
  - intros m f Hm. vm_compute in Hm. discriminate.
  - repeat constructor.
  - refine (eq_trans Hres _). vm_compute. reflexivity.
Defined.

(** ** Reasoning on methods: pre- and postconditions on the state *)

Section TripleRules.
Context {S E : Type}.

Local Abbreviation triple := (@triple S E _).
Local Abbreviation keeps := (@keeps S E _).
Local Abbreviation readonly := (@readonly S E _).
Local Abbreviation emits := (@emits S E _).

Lemma triple_conseq {A : Type} (P P' : S -> Prop) (m : PyM.M S E A)
    (Q Q' : A -> S -> Prop) (X X' : S -> Prop) :
  triple P' m Q' X' ->
  (forall s, P s -> P' s) -> (forall a s, Q' a s -> Q a s) -> (forall s, X' s -> X s) ->
  triple P m Q X.
Proof.
  intros Hm HP HQ HX s Hs. specialize (Hm s (HP s Hs)).
  destruct (m s) as [[s' o] [a|e]]; auto.
Qed.

Lemma triple_ret {A : Type} (a : A) (Q : A -> S -> Prop) (X : S -> Prop) :
  triple (Q a) (PyM.ret a) Q X.
Proof. intros s Hs. exact Hs. Qed.

Lemma triple_bind {A B : Type} (P : S -> Prop) (m : PyM.M S E A) (f : A -> PyM.M S E B)
    (Q : A -> S -> Prop) (R : B -> S -> Prop) (X : S -> Prop) :
  triple P m Q X -> (forall a, triple (Q a) (f a) R X) ->
  triple P (PyM.bind m f) R X.
Proof.
  intros Hm Hf s Hs. unfold PyM.bind. specialize (Hm s Hs).
  destruct (m s) as [[s1 o1] [a|e]]; [|exact Hm].
  specialize (Hf a s1 Hm). by destruct (f a s1) as [[s2 o2] [b|e]].
Qed.

Lemma triple_get (P : S -> Prop) (X : S -> Prop) :
  triple P PyM.get (fun a s => a = s ∧ P s) X.
Proof. intros s Hs. by split. Qed.

Lemma triple_put (s' : S) (Q : unit -> S -> Prop) (X : S -> Prop) :
  triple (fun _ => Q tt s') (PyM.put s') Q X.
Proof. intros s Hs. exact Hs. Qed.

Lemma triple_emit (e : E) (Q : unit -> S -> Prop) (X : S -> Prop) :
  triple (Q tt) (PyM.emit e) Q X.
Proof. intros s Hs. exact Hs. Qed.

Lemma triple_lift {A : Type} (r : res A) (P : S -> Prop) (Q : A -> S -> Prop)
    (X : S -> Prop) :
  (forall s, P s -> match r with Ok a => Q a s | Raise _ => X s end) ->
  triple P (PyM.lift r) Q X.
Proof. intros H s Hs. specialize (H s Hs). unfold PyM.lift. by destruct r. Qed.

Lemma triple_raise {A : Type} (e : pyexn) (P : S -> Prop) (Q : A -> S -> Prop)
    (X : S -> Prop) :
  (forall s, P s -> X s) -> triple P (PyM.raise e) Q X.
Proof. intros H s Hs. by apply H. Qed.

Lemma triple_try (P : S -> Prop) (m : PyM.M S E unit) (Q : unit -> S -> Prop)
    (X : S -> Prop) :
  triple P m (fun _ => Q tt) (Q tt) -> triple P (PyM.try_ m) Q X.
Proof.
  intros Hm s Hs. specialize (Hm s Hs). unfold PyM.try_.
  by destruct (m s) as [[s' o] [[]|e]].
Qed.

Lemma keeps_ret {A : Type} (P : S -> Prop) (a : A) : keeps P (PyM.ret a).
Proof. intros s Hs. exact Hs. Qed.

Lemma keeps_bind {A B : Type} (P : S -> Prop) (m : PyM.M S E A) (f : A -> PyM.M S E B) :
  keeps P m -> (forall a, keeps P (f a)) -> keeps P (PyM.bind m f).
Proof. intros Hm Hf. by eapply triple_bind. Qed.

Lemma keeps_lift {A : Type} (P : S -> Prop) (r : res A) : keeps P (PyM.lift r).
Proof. apply triple_lift. intros s Hs. by destruct r. Qed.

Lemma keeps_raise {A : Type} (P : S -> Prop) (e : pyexn) : keeps P (@PyM.raise S E A e).
Proof. by apply triple_raise. Qed.

Lemma keeps_get (P : S -> Prop) : keeps P PyM.get.
Proof. intros s Hs. exact Hs. Qed.

Lemma keeps_emit (P : S -> Prop) (e : E) : keeps P (PyM.emit e).
Proof. intros s Hs. exact Hs. Qed.

Lemma keeps_try (P : S -> Prop) (m : PyM.M S E unit) : keeps P m -> keeps P (PyM.try_ m).
Proof. intros Hm. by apply triple_try. Qed.

Lemma keeps_for_each {A : Type} (P : S -> Prop) (l : list A) (f : A -> PyM.M S E unit) :
  (forall x, x ∈ l -> keeps P (f x)) -> keeps P (PyM.for_each l f).
Proof.
  induction l as [|x l IH]; intros Hf; simpl.
  - apply keeps_ret.
  - apply keeps_bind.
    + apply Hf. left.
    + intros _. apply IH. intros y Hy. apply Hf. by right.
Qed.

Lemma keeps_state {A : Type} (P : S -> Prop) (m : PyM.M S E A) (s : S) :
  keeps P m -> P s -> P (PyM.state_of (m s)).
Proof.
  intros Hm Hs. specialize (Hm s Hs). unfold PyM.state_of.
  by destruct (m s) as [[s' o] [a|e]].
Qed.

Lemma readonly_keeps {A : Type} (P : S -> Prop) (m : PyM.M S E A) :
  readonly m -> keeps P m.
Proof.
  intros Hm s Hs. specialize (Hm s). unfold PyM.state_of in Hm.
  destruct (m s) as [[s' o] [a|e]]; simpl in Hm; by subst.
Qed.

Lemma readonly_ret {A : Type} (a : A) : readonly (@PyM.ret S E A a).
Proof. done. Qed.

Lemma readonly_bind {A B : Type} (m : PyM.M S E A) (f : A -> PyM.M S E B) :
  readonly m -> (forall a, readonly (f a)) -> readonly (PyM.bind m f).
Proof.
  intros Hm Hf s. specialize (Hm s). unfold PyM.bind, PyM.state_of in *.
  destruct (m s) as [[s1 o1] [a|e]]; simpl in *; [|done]. subst s1.
  specialize (Hf a s). by destruct (f a s) as [[s2 o2] r].
Qed.

Lemma readonly_lift {A : Type} (r : res A) : readonly (@PyM.lift S E A r).
Proof. done. Qed.

Lemma readonly_get : readonly (@PyM.get S E).
Proof. done. Qed.

Lemma readonly_emit (e : E) : readonly (@PyM.emit S E e).
Proof. done. Qed.

Lemma readonly_for_each {A : Type} (l : list A) (f : A -> PyM.M S E unit) :
  (forall x, readonly (f x)) -> readonly (PyM.for_each l f).
Proof.
  intros Hf. induction l as [|x l IH]; simpl; [done|].
  apply readonly_bind; [apply Hf | by intros _].
Qed.

Lemma emits_ret {A : Type} (R : E -> Prop) (a : A) : emits R (@PyM.ret S E A a).
Proof. intros s. constructor. Qed.

Lemma emits_bind {A B : Type} (R : E -> Prop) (m : PyM.M S E A) (f : A -> PyM.M S E B) :
  emits R m -> (forall a, emits R (f a)) -> emits R (PyM.bind m f).
Proof.
  intros Hm Hf s. specialize (Hm s). unfold PyM.bind, PyM.output_of in *.
  destruct (m s) as [[s1 o1] [a|e]]; simpl in *; [|done].
  specialize (Hf a s1). destruct (f a s1) as [[s2 o2] r]. simpl in *.
  by apply Forall_app.
Qed.

Lemma emits_lift {A : Type} (R : E -> Prop) (r : res A) : emits R (@PyM.lift S E A r).
Proof. intros s. constructor. Qed.

Lemma emits_raise {A : Type} (R : E -> Prop) (e : pyexn) : emits R (@PyM.raise S E A e).
Proof. intros s. constructor. Qed.

Lemma emits_get (R : E -> Prop) : emits R (@PyM.get S E).
Proof. intros s. constructor. Qed.

Lemma emits_put (R : E -> Prop) (s' : S) : emits R (@PyM.put S E s').
Proof. intros s. constructor. Qed.

Lemma emits_emit (R : E -> Prop) (e : E) : R e -> emits R (@PyM.emit S E e).
Proof. intros He s. by repeat constructor. Qed.

Lemma emits_try (R : E -> Prop) (m : PyM.M S E unit) : emits R m -> emits R (PyM.try_ m).
Proof.
  intros Hm s. specialize (Hm s). unfold PyM.try_, PyM.output_of in *.
  by destruct (m s) as [[s1 o1] r].
Qed.

Lemma emits_for_each {A : Type} (R : E -> Prop) (l : list A) (f : A -> PyM.M S E unit) :
  (forall x, emits R (f x)) -> emits R (PyM.for_each l f).
Proof.
  intros Hf. induction l as [|x l IH]; simpl; [apply emits_ret|].
  apply emits_bind; [apply Hf | by intros _].
Qed.

Lemma keeps_put (P : S -> Prop) (s' : S) : P s' -> keeps P (@PyM.put S E s').
Proof. intros Hs s _. exact Hs. Qed.

End TripleRules.

(** The routine steps of a proof that a method keeps an invariant or
  emits only some effects: the rule of the head combinator, and a case
  distinction on the condition of a conditional. *)
Ltac method_step :=
match goal with
| |- keeps _ (PyM.bind _ _) => apply keeps_bind; [|intros ?]
| |- keeps _ (PyM.ret _) => apply keeps_ret
| |- keeps _ (PyM.lift _) => apply keeps_lift
| |- keeps _ (PyM.raise _) => apply keeps_raise
| |- keeps _ PyM.get => apply keeps_get
| |- keeps _ (PyM.emit _) => apply keeps_emit
| |- keeps _ (PyM.try_ _) => apply keeps_try
| |- keeps _ (PyM.for_each _ _) => apply keeps_for_each; intros ? _
| |- emits _ (PyM.bind _ _) => apply emits_bind; [|intros ?]
| |- emits _ (PyM.ret _) => apply emits_ret
| |- emits _ (PyM.lift _) => apply emits_lift
| |- emits _ (PyM.raise _) => apply emits_raise
| |- emits _ PyM.get => apply emits_get
| |- emits _ (PyM.put _) => apply emits_put
| |- emits _ (PyM.try_ _) => apply emits_try
| |- emits _ (PyM.for_each _ _) => apply emits_for_each; intros ?
| |- keeps _ (if ?b then _ else _) => destruct b
| |- emits _ (if ?b then _ else _) => destruct b
| |- keeps _ (match ?x with _ => _ end) => destruct x
| |- emits _ (match ?x with _ => _ end) => destruct x
end.

(** ** GossipProtocol: the peer table *)

Lemma triple_get_bind {S E B : Type} (P : S -> Prop) (f : S -> PyM.M S E B)
    (R : B -> S -> Prop) (X : S -> Prop) :
  (forall s0, P s0 -> triple (fun s => s = s0) (f s0) R X) ->
  triple P (PyM.bind PyM.get f) R X.
Proof.
  intros H s Hs. unfold PyM.bind, PyM.get. specialize (H s Hs s eq_refl).
  by destruct (f s s) as [[s2 o2] [b|e]].
Qed.

Lemma triple_at {S E A : Type} (P : S -> Prop) (m : PyM.M S E A)
    (Q : A -> S -> Prop) (X : S -> Prop) (s0 : S) :
  P s0 -> triple P m Q X -> triple (fun s => s = s0) m Q X.
Proof. intros Hs Hm s ->. by apply Hm. Qed.

Lemma is_dead_dead_with (s : GossipProtocol.t) (peer_id : string) :
  GossipProtocol.is_dead s peer_id <-> exists inc, dead_with peer_id inc s.
Proof.
  unfold GossipProtocol.is_dead, GossipProtocol.state_of, dead_with. split.
  - destruct (dget peer_id (GossipProtocol.peers s)) as [[| | | | |o]|]; try done.
    intros H. by exists (dget "incarnation" o), o.
  - intros (inc & o & -> & H & _). exact H.
Qed.

Lemma dead_with_in_peers (peer_id : string) (inc : option json) (s : GossipProtocol.t) :
  dead_with peer_id inc s -> GossipProtocol.in_peers s peer_id = true.
Proof. intros (o & H & _). unfold GossipProtocol.in_peers. by rewrite H. Qed.

Lemma readonly_peers_lookup (id : string) : readonly (GossipProtocol.peers_lookup id).
Proof. intros s. unfold GossipProtocol.peers_lookup. by destruct (dget _ _). Qed.

Lemma readonly_peer_getitem (id field : string) :
  readonly (GossipProtocol.peer_getitem id field).
Proof.
  apply readonly_bind; [apply readonly_peers_lookup | intros a; apply readonly_lift].
Qed.

Lemma readonly_send_message (message : GossipMessage.t) (addr : json * json) :
  readonly (GossipProtocol._send_message message addr).
Proof. intros s. unfold GossipProtocol._send_message, PyM.bind, PyM.get. simpl. by destruct (GossipProtocol.transport s). Qed.

Lemma readonly_send_to_peer (message : GossipMessage.t) (peer : json) :
  readonly (GossipProtocol.send_to_peer message peer).
Proof.
  apply readonly_bind; [apply readonly_lift|]. intros ip.
  apply readonly_bind; [apply readonly_lift|]. intros port.
  apply readonly_send_message.
Qed.

Lemma readonly_propagate_to_all (message : GossipMessage.t) :
  readonly (GossipProtocol._propagate_to_all message).
Proof.
  apply readonly_bind; [apply readonly_get|]. intros self.
  apply readonly_for_each. intros peer.
  apply readonly_bind; [apply readonly_lift|]. intros current.
  destruct (negb _); [apply readonly_send_to_peer | apply readonly_ret].
Qed.

Lemma readonly_propagate_message `{PyRuntime} (message : GossipMessage.t) (now : Z)
    (rnd : nat -> nat) :
  readonly (GossipProtocol._propagate_message message now rnd).
Proof.
  unfold GossipProtocol._propagate_message.
  destruct (_ <=? 1); [apply readonly_ret|].
  apply readonly_bind; [apply readonly_get|]. intros self.
  apply readonly_bind; [apply readonly_lift|]. intros live.
  destruct (map snd live); [apply readonly_ret|].
  apply readonly_for_each. intros peer. apply readonly_send_to_peer.
Qed.

Lemma readonly_trigger_callbacks (message : GossipMessage.t) :
  readonly (GossipProtocol._trigger_callbacks message).
Proof.
  apply readonly_bind; [apply readonly_get|]. intros self.
  destruct (_ !! _); [|apply readonly_ret].
  apply readonly_for_each. intros cb. apply readonly_emit.
Qed.

Lemma readonly_handle_ping `{PyRuntime} (message : GossipMessage.t) (addr : string * Z)
    (now : Z) :
  readonly (GossipProtocol._handle_ping message addr now).
Proof.
  apply readonly_bind; [apply readonly_get|]. intros self. apply readonly_send_message.
Qed.

Lemma readonly_handle_sync `{PyRuntime} (message : GossipMessage.t) (addr : string * Z)
    (now : Z) :
  readonly (GossipProtocol._handle_sync message addr now).
Proof.
  apply readonly_bind; [apply readonly_get|]. intros self.
  apply readonly_bind; [apply readonly_lift|]. intros copy. apply readonly_send_message.
Qed.

Lemma dead_with_on_peers (peer_id : string) (inc : option json) :
  on_peers (dead_with peer_id inc).
Proof. intros s s' Hp (o & H). exists o. by rewrite <- Hp. Qed.

Lemma absent_on_peers (peer_id : string) :
  on_peers (fun s => GossipProtocol.absent s peer_id).
Proof. intros s s' Hp H. unfold GossipProtocol.absent in *. by rewrite <- Hp. Qed.

Lemma keeps_peers_assign_other (P : GossipProtocol.t -> Prop) (peer_id id : string)
    (v : json) :
  (forall s s', dget peer_id (GossipProtocol.peers s') = dget peer_id (GossipProtocol.peers s) ->
                P s -> P s') ->
  id ≠ peer_id -> keeps P (GossipProtocol.peers_assign id v).
Proof.
  intros HP Hne s Hs. unfold GossipProtocol.peers_assign. simpl.
  eapply HP; [|exact Hs]. simpl. by apply dget_dset_ne.
Qed.

Lemma dead_with_on_record (peer_id : string) (inc : option json) :
  on_record peer_id (dead_with peer_id inc).
Proof. intros s s' Hp (o & H). exists o. by rewrite Hp. Qed.

Lemma absent_on_record (peer_id : string) :
  on_record peer_id (fun s => GossipProtocol.absent s peer_id).
Proof. intros s s' Hp H. unfold GossipProtocol.absent in *. by rewrite Hp. Qed.

Lemma on_record_or (peer_id : string) (P Q : GossipProtocol.t -> Prop) :
  on_record peer_id P -> on_record peer_id Q -> on_record peer_id (fun s => P s ∨ Q s).
Proof. intros HP HQ s s' Hp [H|H]; [left; by eapply HP | right; by eapply HQ]. Qed.

Lemma keeps_peer_setitem_other (P : GossipProtocol.t -> Prop) (peer_id id field : string)
    (v : json) :
  on_record peer_id P -> id ≠ peer_id -> keeps P (GossipProtocol.peer_setitem id field v).
Proof.
  intros HP Hne. apply keeps_bind; [apply readonly_keeps, readonly_peers_lookup|].
  intros p. apply keeps_bind; [apply keeps_lift|]. intros p'.
  by apply (keeps_peers_assign_other P peer_id).
Qed.

Lemma keeps_peers_del_other (P : GossipProtocol.t -> Prop) (peer_id id : string) :
  on_record peer_id P -> id ≠ peer_id -> keeps P (GossipProtocol.peers_del id).
Proof.
  intros HP Hne s Hs. unfold GossipProtocol.peers_del.
  destruct (dget id (GossipProtocol.peers s)); [|done].
  eapply HP; [|exact Hs]. simpl. by apply dget_ddel_ne.
Qed.

(** Writing a field other than the state and the incarnation, or the
    state [DEAD], keeps a dead record dead. *)
Lemma keeps_peer_setitem_dead (peer_id : string) (inc : option json) (id field : string)
    (v : json) :
  id ≠ peer_id
  ∨ (field ≠ "state" ∧ field ≠ "incarnation")
  ∨ (field = "state" ∧ v = JStr GossipProtocol.DEAD) ->
  keeps (dead_with peer_id inc) (GossipProtocol.peer_setitem id field v).
Proof.
  intros Hcase. destruct (decide (id = peer_id)) as [->|Hne];
    [|by apply (keeps_peer_setitem_other _ peer_id); [apply dead_with_on_record|]].
  destruct Hcase as [Hne | Hcase]; [done|].
  intros s (o & Hp & Hst & Hinc).
  unfold GossipProtocol.peer_setitem, GossipProtocol.peers_lookup, GossipProtocol.peers_assign,
    PyM.bind, PyM.lift.
  rewrite Hp. simpl. exists (dset field v o). simpl. rewrite dget_dset_eq.
  split; [done|]. destruct Hcase as [[H1 H2] | [-> ->]].
  - by rewrite !dget_dset_ne.
  - rewrite dget_dset_eq. by rewrite dget_dset_ne.
Qed.

Lemma peer_getitem_state_dead (peer_id : string) (inc : option json) :
  triple (dead_with peer_id inc) (GossipProtocol.peer_getitem peer_id "state")
    (fun a s => a = JStr GossipProtocol.DEAD ∧ dead_with peer_id inc s)
    (dead_with peer_id inc).
Proof.
  intros s (o & Hp & Hst & Hinc).
  unfold GossipProtocol.peer_getitem, GossipProtocol.peers_lookup, PyM.bind, PyM.lift.
  rewrite Hp. simpl. rewrite Hst. split; [done|]. by exists o.
Qed.

Lemma keeps_update_peer (peer_id : string) (inc : option json)
    (id ip : string) (port : Z) (state : string) (now : Z) :
  keeps (dead_with peer_id inc) (GossipProtocol._update_peer id ip port state now).
Proof.
  unfold GossipProtocol._update_peer. apply triple_get_bind. intros self Hself.
  apply (triple_at _ _ _ _ _ Hself).
  destruct (String.eqb id (GossipProtocol.node_id self)); [apply keeps_ret|].
  destruct (GossipProtocol.in_peers self id) eqn:Ein.
  - apply keeps_bind; [apply keeps_peer_setitem_dead; right; left; by split|]. intros _.
    eapply triple_bind with
      (Q := fun b s => dead_with peer_id inc s
                       ∧ (b = true -> id = peer_id -> state = GossipProtocol.DEAD)).
    { destruct (String.eqb state GossipProtocol.DEAD) eqn:Es.
      - apply String.eqb_eq in Es. intros s Hs. by split.
      - destruct (String.eqb state GossipProtocol.SUSPECT).
        + destruct (decide (id = peer_id)) as [->|Hne].
          * eapply triple_bind; [apply peer_getitem_state_dead|].
            intros a s [-> Hs]. simpl. split; [done|]. discriminate.
          * eapply triple_bind; [apply (readonly_keeps _ _ (readonly_peer_getitem _ _))|].
            intros a s Hs. simpl. split; [done|]. intros _ ?. done.
        + intros s Hs. split; [done|]. discriminate. }
    intros b. apply triple_bind with (Q := fun _ => dead_with peer_id inc).
    { destruct b.
      - intros s [Hs Hb]. revert s Hs. apply keeps_peer_setitem_dead.
        destruct (decide (id = peer_id)) as [Heq|Hne]; [|by left].
        right. right. split; [done|]. by rewrite Hb.
      - intros s [Hs _]. exact Hs. }
    intros _. apply keeps_bind; [apply readonly_keeps, readonly_peer_getitem|]. intros old_ip.
    apply keeps_bind.
    { destruct (negb _); [apply keeps_ret|].
      apply keeps_bind; [apply readonly_keeps, readonly_peer_getitem|]. intros ?. apply keeps_ret. }
    intros [].
    + apply keeps_bind; [apply keeps_peer_setitem_dead; right; left; by split|]. intros _.
      apply keeps_peer_setitem_dead; right; left; by split.
    + apply keeps_ret.
  - apply (keeps_peers_assign_other _ peer_id); [apply dead_with_on_record|].
    intros ->. apply dead_with_in_peers in Hself. congruence.
Qed.

Lemma keeps_handle_ack (peer_id : string) (inc : option json) (message : GossipMessage.t) :
  keeps (dead_with peer_id inc) (GossipProtocol._handle_ack message).
Proof.
  unfold GossipProtocol._handle_ack. apply triple_get_bind. intros self Hself.
  apply (triple_at _ _ _ _ _ Hself).
  destruct (_ && _); [|apply keeps_ret].
  destruct (decide (GossipMessage.sender_id message = peer_id)) as [->|Hne].
  - eapply triple_bind; [apply peer_getitem_state_dead|].
    intros a s [-> Hs]. exact Hs.
  - apply keeps_bind; [apply readonly_keeps, readonly_peer_getitem|]. intros current.
    destruct (py_eq_str current _); [|apply keeps_ret].
    apply keeps_peer_setitem_dead. by left.
Qed.

Lemma keeps_handle_suspect (peer_id : string) (inc : option json)
    (message : GossipMessage.t) (now : Z) :
  keeps (dead_with peer_id inc) (GossipProtocol._handle_suspect message now).
Proof.
  unfold GossipProtocol._handle_suspect. apply triple_get_bind. intros self Hself.
  apply (triple_at _ _ _ _ _ Hself).
  destruct (_ || _); [apply keeps_ret|].
  destruct (py_get "peer_id" (GossipMessage.data message)) as [| | |id| |];
    try apply keeps_ret; try apply keeps_raise.
  destruct (GossipProtocol.in_peers self id); [|apply keeps_ret].
  destruct (decide (id = peer_id)) as [->|Hne].
  - eapply triple_bind; [apply peer_getitem_state_dead|].
    intros a s [-> Hs]. exact Hs.
  - apply keeps_bind; [apply readonly_keeps, readonly_peer_getitem|]. intros current.
    destruct (negb _); [|apply keeps_ret].
    apply keeps_bind; [apply keeps_peer_setitem_dead; by left|]. intros _.
    apply keeps_peer_setitem_dead. by left.
Qed.

Lemma keeps_handle_dead (peer_id : string) (inc : option json) (message : GossipMessage.t) :
  keeps (dead_with peer_id inc) (GossipProtocol._handle_dead message).
Proof.
  unfold GossipProtocol._handle_dead. apply triple_get_bind. intros self Hself.
  apply (triple_at _ _ _ _ _ Hself).
  destruct (_ || _); [apply keeps_ret|].
  destruct (py_get "peer_id" (GossipMessage.data message)) as [| | |id| |];
    try apply keeps_ret; try apply keeps_raise.
  destruct (GossipProtocol.in_peers self id); [|apply keeps_ret].
  apply keeps_peer_setitem_dead. right. right. by split.
Qed.

Lemma keeps_or_const {S E A : Type} (P : S -> Prop) (C : Prop) (m : PyM.M S E A) :
  triple P m (fun _ s => P s ∨ C) (fun s => P s ∨ C) ->
  keeps (fun s => P s ∨ C) m.
Proof.
  intros Hm s [Hs|Hc]; [by apply Hm|].
  destruct (m s) as [[s' o] [a|e]]; by right.
Qed.

Lemma keeps_weaken_or {S E A : Type} (P : S -> Prop) (C : Prop) (m : PyM.M S E A) :
  keeps P m -> keeps (fun s => P s ∨ C) m.
Proof.
  intros Hm. apply keeps_or_const.
  eapply triple_conseq; [exact Hm | done | by left | by left].
Qed.

Lemma keeps_state_entry (peer_id : string) (inc : option json)
    (entries : list (string * json)) (now : Z) (id : string) (peer_data : json) :
  In (id, peer_data) entries ->
  keeps (fun s => dead_with peer_id inc s ∨ revival_entry peer_id inc entries)
        (GossipProtocol.state_entry now id peer_data).
Proof.
  intros Hin. destruct (decide (id = peer_id)) as [->|Hne].
  - apply keeps_or_const. intros s Hs.
    pose proof Hs as (o & Hp & Hst & Hinc).
    unfold GossipProtocol.state_entry, PyM.bind, PyM.get, PyM.lift, PyM.ret. simpl.
    destruct (String.eqb peer_id (GossipProtocol.node_id s)); [by left|].
    rewrite Hp.
    destruct (py_get_default peer_data "incarnation" (JNum 0)) as [incoming|] eqn:Ei;
      simpl; [|by left].
    rewrite Hinc.
    destruct (py_gt incoming (default (JNum 0) inc)) as [[]|] eqn:Eg;
      [| destruct inc; simpl in *; rewrite Eg; by left
       | destruct inc; simpl in *; rewrite Eg; by left].
    assert (revival_entry peer_id inc entries) as Hrev by (by exists peer_data, incoming).
    destruct inc; simpl in *; rewrite Eg; simpl;
      repeat match goal with
             | |- context [match ?x with _ => _ end] => destruct x
             end; by right.
  - apply keeps_weaken_or.
    unfold GossipProtocol.state_entry. apply triple_get_bind. intros self Hself.
    apply (triple_at _ _ _ _ _ Hself).
    destruct (String.eqb id _); [apply keeps_ret|].
    destruct (dget id (GossipProtocol.peers self)) as [local|].
    + apply keeps_bind; [apply keeps_lift|]. intros incoming.
      apply keeps_bind; [apply keeps_lift|]. intros known.
      apply keeps_bind; [apply keeps_lift|]. intros [|]; [|apply keeps_ret].
      apply keeps_bind; [apply keeps_lift|]. intros local'.
      apply keeps_bind; [|intros _; apply keeps_ret].
      by apply (keeps_peers_assign_other _ peer_id); [apply dead_with_on_record|].
    + apply keeps_bind; [apply keeps_lift|]. intros has_ip.
      apply keeps_bind; [destruct has_ip; [apply keeps_lift | apply keeps_ret]|].
      intros [|]; [|apply keeps_ret].
      apply keeps_bind;
        [by apply (keeps_peers_assign_other _ peer_id); [apply dead_with_on_record|]|].
      intros _. apply keeps_bind; [apply keeps_lift|]. intros peer_data'.
      apply keeps_bind; [|intros _; apply keeps_ret].
      by apply (keeps_peers_assign_other _ peer_id); [apply dead_with_on_record|].
Qed.

Lemma keeps_state_loop (peer_id : string) (inc : option json)
    (entries : list (string * json)) (now : Z) (sub : list (string * json)) :
  (forall e, In e sub -> In e entries) ->
  keeps (fun s => dead_with peer_id inc s ∨ revival_entry peer_id inc entries)
        (GossipProtocol.state_loop now sub).
Proof.
  induction sub as [|[id peer_data] sub IH]; intros Hsub; simpl.
  - apply keeps_ret.
  - apply keeps_bind; [apply keeps_state_entry, Hsub; by left|]. intros peer_data'.
    apply keeps_bind; [apply IH; intros e He; apply Hsub; by right|].
    intros r'. apply keeps_ret.
Qed.

Lemma handle_state_dead (peer_id : string) (inc : option json)
    (message : GossipMessage.t) (now : Z) :
  GossipMessage.message_type message = GossipProtocol.MSG_STATE ->
  triple (dead_with peer_id inc) (GossipProtocol._handle_state message now)
    (fun _ s => dead_with peer_id inc s ∨ revival_message peer_id inc message)
    (fun s => dead_with peer_id inc s ∨ revival_message peer_id inc message).
Proof.
  intros Hty. unfold GossipProtocol._handle_state.
  destruct (dget "peers" (GossipMessage.data message)) as [[| | | | |entries]|] eqn:Ed;
    try (intros st Hst; by left).
  eapply triple_conseq with
    (P' := fun s => dead_with peer_id inc s ∨ revival_entry peer_id inc entries)
    (Q' := fun _ s => dead_with peer_id inc s ∨ revival_entry peer_id inc entries)
    (X' := fun s => dead_with peer_id inc s ∨ revival_entry peer_id inc entries).
  - apply keeps_bind; [by apply keeps_state_loop|]. intros e. apply keeps_ret.
  - intros s Hs. by left.
  - intros _ s [Hs|Hrev]; [by left|]. right. split; [done|]. by exists entries.
  - intros s [Hs|Hrev]; [by left|]. right. split; [done|]. by exists entries.
Qed.

Lemma dispatch_dead `{PyRuntime} (peer_id : string) (inc : option json)
    (message : GossipMessage.t) (addr : string * Z) (now : Z) :
  triple (dead_with peer_id inc) (GossipProtocol.dispatch message addr now)
    (fun _ s => dead_with peer_id inc s ∨ revival_message peer_id inc message)
    (fun s => dead_with peer_id inc s ∨ revival_message peer_id inc message).
Proof.
  assert (forall m : GossipProtocol.M unit,
            keeps (dead_with peer_id inc) m ->
            triple (dead_with peer_id inc)
              (PyM.bind m (fun _ => PyM.ret (GossipMessage.data message)))
              (fun _ s => dead_with peer_id inc s ∨ revival_message peer_id inc message)
              (fun s => dead_with peer_id inc s ∨ revival_message peer_id inc message))
    as Hunit.
  { intros m Hm. eapply triple_conseq with
      (P' := dead_with peer_id inc) (Q' := fun _ => dead_with peer_id inc)
      (X' := dead_with peer_id inc).
    - apply keeps_bind; [exact Hm|]. intros _. apply keeps_ret.
    - done.
    - intros _ s Hs. by left.
    - intros s Hs. by left. }
  unfold GossipProtocol.dispatch.
  destruct (String.eqb _ GossipProtocol.MSG_PING);
    [apply Hunit, readonly_keeps, readonly_handle_ping|].
  destruct (String.eqb _ GossipProtocol.MSG_ACK); [apply Hunit, keeps_handle_ack|].
  destruct (String.eqb _ GossipProtocol.MSG_SYNC);
    [apply Hunit, readonly_keeps, readonly_handle_sync|].
  destruct (String.eqb _ GossipProtocol.MSG_STATE) eqn:Es.
  { apply String.eqb_eq in Es. by apply handle_state_dead. }
  destruct (String.eqb _ GossipProtocol.MSG_SUSPECT); [apply Hunit, keeps_handle_suspect|].
  destruct (String.eqb _ GossipProtocol.MSG_DEAD); [apply Hunit, keeps_handle_dead|].
  intros s Hs. by left.
Qed.

Lemma process_message_dead `{PyRuntime} (peer_id : string) (inc : option json)
    (message : GossipMessage.t) (addr : string * Z) (now : Z) (rnd : nat -> nat) :
  triple (dead_with peer_id inc) (GossipProtocol._process_message message addr now rnd)
    (fun _ s => dead_with peer_id inc s ∨ revival_message peer_id inc message)
    (fun s => dead_with peer_id inc s ∨ revival_message peer_id inc message).
Proof.
  unfold GossipProtocol._process_message.
  eapply triple_bind with (Q := fun _ => dead_with peer_id inc).
  { eapply triple_conseq with
      (P' := dead_with peer_id inc) (Q' := fun _ => dead_with peer_id inc)
      (X' := dead_with peer_id inc); [apply keeps_update_peer | done | done |].
    intros s Hs. by left. }
  intros _. eapply triple_bind; [apply dispatch_dead|]. intros data'.
  apply keeps_bind.
  { apply readonly_keeps, readonly_trigger_callbacks. }
  intros _. apply readonly_keeps, readonly_propagate_message.
Qed.

Lemma should_process_peers (message : GossipMessage.t) (now : Z) (s : GossipProtocol.t) :
  GossipProtocol.peers (PyM.state_of (GossipProtocol._should_process_message message now s))
  = GossipProtocol.peers s.
Proof.
  unfold GossipProtocol._should_process_message, PyM.bind, PyM.get, PyM.put, PyM.ret,
    PyM.state_of. simpl.
  destruct (String.eqb _ _); [done|]. destruct (_ !! _); [done|].
  by destruct (_ <=? 0).
Qed.

Lemma deliver_dead `{PyRuntime} (peer_id : string) (inc : option json)
    (message : GossipMessage.t) (addr : string * Z) (now : Z) (rnd : nat -> nat)
    (s : GossipProtocol.t) :
  dead_with peer_id inc s ->
  dead_with peer_id inc (PyM.state_of (GossipProtocol.deliver message addr now rnd s))
  ∨ (PyM.result_of (GossipProtocol._should_process_message message now s) = Ok true
     ∧ revival_message peer_id inc message).
Proof.
  intros Hs. unfold GossipProtocol.deliver, PyM.try_, PyM.bind.
  pose proof (should_process_peers message now s) as Hpeers.
  destruct (GossipProtocol._should_process_message message now s) as [[s1 o1] [ok|e]] eqn:E;
    unfold PyM.state_of in *; simpl in *.
  - assert (dead_with peer_id inc s1) as Hs1.
    { eapply dead_with_on_record; [|exact Hs]. by rewrite Hpeers. }
    destruct ok; [|by left].
    pose proof (process_message_dead peer_id inc message addr now rnd s1 Hs1) as Hp.
    destruct (GossipProtocol._process_message message addr now rnd s1) as [[s2 o2] [[]|e]];
      simpl; (destruct Hp as [Hp|Hp]; [by left | right; by split]).
  - left. eapply dead_with_on_record; [|exact Hs]. by rewrite Hpeers.
Qed.

Lemma keeps_check_peer `{PyRuntime} (peer_id : string) (inc : option json) (now : Z)
    (id : string) :
  keeps (fun s => dead_with peer_id inc s ∨ GossipProtocol.absent s peer_id)
        (GossipProtocol.check_peer now id).
Proof.
  assert (on_record peer_id
            (fun s => dead_with peer_id inc s ∨ GossipProtocol.absent s peer_id)) as Hrec.
  { apply on_record_or; [apply dead_with_on_record | apply absent_on_record]. }
  destruct (decide (id = peer_id)) as [->|Hne].
  - unfold GossipProtocol.check_peer. apply triple_get_bind. intros self Hself.
    apply (triple_at (fun s => dead_with peer_id inc s ∨ GossipProtocol.absent s peer_id)
             _ _ _ _ Hself).
    eapply triple_bind with
      (Q := fun a s => a = JStr GossipProtocol.DEAD ∧ dead_with peer_id inc s).
    { intros s [Hs|Hs].
      - pose proof (peer_getitem_state_dead peer_id inc s Hs) as Hg.
        destruct (GossipProtocol.peer_getitem peer_id "state" s) as [[s' o'] [a|e]];
          [exact Hg | by left].
      - unfold GossipProtocol.peer_getitem, GossipProtocol.peers_lookup, PyM.bind.
        unfold GossipProtocol.absent in Hs. rewrite Hs. by right. }
    intros current.
    apply triple_conseq with
      (P' := fun s => current = JStr GossipProtocol.DEAD ∧ dead_with peer_id inc s)
      (Q' := fun _ s => dead_with peer_id inc s ∨ GossipProtocol.absent s peer_id)
      (X' := fun s => dead_with peer_id inc s ∨ GossipProtocol.absent s peer_id);
      try done.
    intros s [-> Hs]. revert s Hs. simpl.
    eapply triple_bind with (Q := fun _ => dead_with peer_id inc).
    { eapply triple_conseq with
        (P' := dead_with peer_id inc) (Q' := fun _ => dead_with peer_id inc)
        (X' := dead_with peer_id inc);
        [apply readonly_keeps, readonly_peer_getitem | done | done | by left]. }
    intros seen. eapply triple_bind with (Q := fun _ => dead_with peer_id inc).
    { eapply triple_conseq with
        (P' := dead_with peer_id inc) (Q' := fun _ => dead_with peer_id inc)
        (X' := dead_with peer_id inc); [apply keeps_lift | done | done | by left]. }
    intros seen_at. destruct (_ <? _).
    + intros s Hs. unfold GossipProtocol.peers_del.
      destruct (dget peer_id (GossipProtocol.peers s)); [|by left].
      right. unfold GossipProtocol.absent. simpl. apply dget_ddel_eq.
    + intros s Hs. by left.
  - assert (forall f v, keeps (fun s => dead_with peer_id inc s ∨ GossipProtocol.absent s peer_id)
                          (GossipProtocol.peer_setitem id f v)) as Hset.
    { intros f v. by apply (keeps_peer_setitem_other _ peer_id). }
    unfold GossipProtocol.check_peer. apply triple_get_bind. intros self Hself.
    apply (triple_at (fun s => dead_with peer_id inc s ∨ GossipProtocol.absent s peer_id)
             _ _ _ _ Hself).
    apply keeps_bind; [apply readonly_keeps, readonly_peer_getitem|]. intros current.
    destruct (py_eq_str current GossipProtocol.DEAD).
    { apply keeps_bind; [apply readonly_keeps, readonly_peer_getitem|]. intros seen.
      apply keeps_bind; [apply keeps_lift|]. intros seen_at.
      destruct (_ <? _); [|apply keeps_ret].
      by apply (keeps_peers_del_other _ peer_id). }
    destruct (py_eq_str current GossipProtocol.SUSPECT).
    { apply keeps_bind; [apply readonly_keeps, readonly_peers_lookup|]. intros peer.
      apply keeps_bind; [apply keeps_lift|]. intros timed.
      apply keeps_bind.
      { destruct timed; [|apply keeps_ret].
        apply keeps_bind; [apply readonly_keeps, readonly_peer_getitem|]. intros since.
        apply keeps_bind; [apply keeps_lift|]. intros since_at. apply keeps_ret. }
      intros [|]; [|apply keeps_ret].
      apply keeps_bind; [apply Hset|]. intros _.
      apply readonly_keeps, readonly_propagate_to_all. }
    destruct (py_eq_str current GossipProtocol.ALIVE); [|apply keeps_ret].
    apply keeps_bind; [apply readonly_keeps, readonly_peer_getitem|]. intros seen.
    apply keeps_bind; [apply keeps_lift|]. intros seen_at.
    destruct (_ <? _); [|apply keeps_ret].
    apply keeps_bind; [apply Hset|]. intros _.
    apply keeps_bind; [apply Hset|]. intros _.
    apply keeps_bind; [apply readonly_keeps, readonly_peers_lookup|]. intros peer.
    apply keeps_bind; [apply readonly_keeps, readonly_send_to_peer|]. intros _.
    apply readonly_keeps, readonly_propagate_to_all.
Qed.

Lemma keeps_cleanup_tick `{PyRuntime} (peer_id : string) (inc : option json) (now : Z) :
  keeps (fun s => dead_with peer_id inc s ∨ GossipProtocol.absent s peer_id)
        (GossipProtocol.cleanup_tick now).
Proof.
  apply keeps_try. apply keeps_bind.
  - unfold GossipProtocol._check_peers. apply triple_get_bind. intros self Hself.
    apply (triple_at (fun s => dead_with peer_id inc s ∨ GossipProtocol.absent s peer_id)
             _ _ _ _ Hself).
    apply keeps_for_each. intros id _. apply keeps_check_peer.
  - intros _ s Hs. unfold GossipProtocol._clean_message_cache, PyM.bind, PyM.get, PyM.put.
    simpl.
    exact (on_record_or peer_id _ _ (dead_with_on_record peer_id inc)
             (absent_on_record peer_id) s _ eq_refl Hs).
Qed.

(** One step of a node with a dead peer: the peer stays dead, or the
    step removes it, or the step is a [state] message that revives it. *)
Lemma step_dead `{PyRuntime} (s : GossipProtocol.t) (ev : GossipProtocol.event)
    (peer_id : string) :
  GossipProtocol.is_dead s peer_id ->
  GossipProtocol.is_dead (fst (GossipProtocol.step s ev)) peer_id
  ∨ GossipProtocol.absent (fst (GossipProtocol.step s ev)) peer_id
  ∨ GossipProtocol.revives s ev peer_id.
Proof.
  intros Hdead. apply is_dead_dead_with in Hdead as [inc Hs].
  assert (forall (A : Type) (m : GossipProtocol.M A),
            keeps (dead_with peer_id inc) m ->
            GossipProtocol.is_dead (fst (fst (m s))) peer_id) as Hkeep.
  { intros A m Hm. apply is_dead_dead_with. exists inc.
    exact (keeps_state _ m s Hm Hs). }
  destruct ev as [datagram addr now rnd | id ip port state now | now | now rnd | ty cb | ];
    simpl.
  - destruct (deliver_dead peer_id inc (GossipMessage.decode datagram now) addr now rnd s Hs)
      as [Hd | [Hok (Hty & entries & Hentries & peer_data & incoming & Hin & Hinc & Hgt)]].
    + left. apply is_dead_dead_with. by exists inc.
    + right. right. split; [done|]. split; [done|].
      destruct Hs as (o & Hp & Hst & Hi).
      exists entries, peer_data, (JObj o), incoming, (default (JNum 0) inc).
      repeat split; try done.
      unfold GossipProtocol.incarnation_of. simpl. rewrite Hi. by destruct inc.
  - left. apply Hkeep. apply keeps_try, keeps_update_peer.
  - pose proof (keeps_state _ _ s (keeps_cleanup_tick peer_id inc now) (or_introl Hs))
      as [Hd|Ha].
    + left. apply is_dead_dead_with. by exists inc.
    + right. by left.
  - left. apply Hkeep. apply keeps_try.
    unfold GossipProtocol._gossip.
    apply readonly_keeps, readonly_bind; [apply readonly_get|]. intros self.
    apply readonly_bind; [apply readonly_lift|]. intros live.
    destruct (sample _ _ _); [apply readonly_ret | apply readonly_send_to_peer].
  - left. apply is_dead_dead_with. by exists inc.
  - left. apply is_dead_dead_with. by exists inc.
Qed.

Lemma gossip_run_snoc `{PyRuntime} (s : GossipProtocol.t) (evs : list GossipProtocol.event)
    (ev : GossipProtocol.event) :
  GossipProtocol.run s (evs ++ [ev])
  = fst (GossipProtocol.step (GossipProtocol.run s evs) ev).
Proof. unfold GossipProtocol.run. by rewrite fold_left_app. Qed.

(** C2. At a node that records a peer as [DEAD], after any sequence of
    steps (datagrams received, peer updates, cleanup and gossip ticks, ...)
    the peer is still recorded as [DEAD], unless at some step, the peer
    being [DEAD] before it, either the step removed the peer from the
    table or the step was a [state] message, processed by the node, with
    an entry for the peer whose incarnation is greater than the one of
    the record held. *)
Theorem dead_peer_stays_dead `{PyRuntime} (s : GossipProtocol.t)
    (evs : list GossipProtocol.event) (peer_id : string) :
  GossipProtocol.is_dead s peer_id ->
  GossipProtocol.is_dead (GossipProtocol.run s evs) peer_id
  ∨ exists evs1 ev evs2,
      evs = evs1 ++ ev :: evs2
      ∧ GossipProtocol.is_dead (GossipProtocol.run s evs1) peer_id
      ∧ (GossipProtocol.absent (fst (GossipProtocol.step (GossipProtocol.run s evs1) ev)) peer_id
         ∨ GossipProtocol.revives (GossipProtocol.run s evs1) ev peer_id).
Proof.
  intros Hdead. induction evs as [|ev evs IH] using rev_ind.
  - by left.
  - destruct IH as [Hd | (evs1 & ev' & evs2 & -> & Hd & Hcase)].
    + rewrite gossip_run_snoc.
      destruct (step_dead (GossipProtocol.run s evs) ev peer_id Hd) as [H1 | H2]; [by left|].
      right. exists evs, ev, []. by repeat split.
    + right. exists evs1, ev', (evs2 ++ [ev]). split; [|done].
      by rewrite <- app_assoc.
Qed.

(** ** GossipProtocol: what processing a message leaves alone and emits *)

Lemma invocations_sends (out : list GossipProtocol.effect) :
  Forall is_send out -> invocations out = [].
Proof.
  induction 1 as [|e out He _ IH]; [done|].
  destruct e; [exact IH | done].
Qed.

Lemma invocations_app (out1 out2 : list GossipProtocol.effect) :
  invocations (out1 ++ out2) = invocations out1 ++ invocations out2.
Proof. apply omap_app. Qed.

Lemma keeps_peers_assign_frame (P : GossipProtocol.t -> Prop) (id : string) (v : json) :
  peers_frame P -> keeps P (GossipProtocol.peers_assign id v).
Proof. intros HP s Hs. by apply HP. Qed.

Lemma keeps_peers_del_frame (P : GossipProtocol.t -> Prop) (id : string) :
  peers_frame P -> keeps P (GossipProtocol.peers_del id).
Proof.
  intros HP s Hs. unfold GossipProtocol.peers_del.
  destruct (dget _ _); [by apply HP | done].
Qed.

Lemma emits_peers_lookup (R : GossipProtocol.effect -> Prop) (id : string) :
  emits R (GossipProtocol.peers_lookup id).
Proof. intros s. unfold GossipProtocol.peers_lookup. destruct (dget _ _); constructor. Qed.

Lemma emits_peers_assign (R : GossipProtocol.effect -> Prop) (id : string) (v : json) :
  emits R (GossipProtocol.peers_assign id v).
Proof. intros s. constructor. Qed.

Lemma emits_peers_del (R : GossipProtocol.effect -> Prop) (id : string) :
  emits R (GossipProtocol.peers_del id).
Proof. intros s. unfold GossipProtocol.peers_del. destruct (dget _ _); constructor. Qed.

Lemma emits_send_message (message : GossipMessage.t) (addr : json * json) :
  emits is_send (GossipProtocol._send_message message addr).
Proof.
  intros s. unfold GossipProtocol._send_message, PyM.bind, PyM.get, PyM.output_of. simpl.
  destruct (GossipProtocol.transport s); simpl; by repeat constructor.
Qed.

Ltac gossip_step :=
  first
    [ method_step
    | apply readonly_keeps, readonly_peers_lookup
    | apply readonly_keeps, readonly_send_message
    | apply keeps_peers_assign_frame; assumption
    | apply keeps_peers_del_frame; assumption
    | apply emits_peers_lookup
    | apply emits_peers_assign
    | apply emits_peers_del
    | apply emits_send_message ].

Ltac gossip_unfold :=
  unfold GossipProtocol._update_peer, GossipProtocol._handle_ping,
    GossipProtocol._handle_ack, GossipProtocol._handle_sync, GossipProtocol._handle_suspect,
    GossipProtocol._handle_dead, GossipProtocol._propagate_message,
    GossipProtocol._propagate_to_all, GossipProtocol.state_entry,
    GossipProtocol.send_to_peer, GossipProtocol.peer_getitem, GossipProtocol.peer_setitem.

Lemma keeps_state_loop_frame (P : GossipProtocol.t -> Prop) (now : Z)
    (entries : list (string * json)) :
  peers_frame P -> keeps P (GossipProtocol.state_loop now entries).
Proof.
  intros HP. induction entries as [|[id peer_data] entries IH]; simpl.
  - apply keeps_ret.
  - apply keeps_bind; [|intros ?; apply keeps_bind; [exact IH | intros ?; apply keeps_ret]].
    gossip_unfold. repeat gossip_step.
Qed.

Lemma emits_state_loop (now : Z) (entries : list (string * json)) :
  emits is_send (GossipProtocol.state_loop now entries).
Proof.
  induction entries as [|[id peer_data] entries IH]; simpl.
  - apply emits_ret.
  - apply emits_bind; [|intros ?; apply emits_bind; [exact IH | intros ?; apply emits_ret]].
    gossip_unfold. repeat gossip_step.
Qed.

Lemma keeps_dispatch_frame `{PyRuntime} (P : GossipProtocol.t -> Prop)
    (message : GossipMessage.t) (addr : string * Z) (now : Z) :
  peers_frame P -> keeps P (GossipProtocol.dispatch message addr now).
Proof.
  intros HP. unfold GossipProtocol.dispatch, GossipProtocol._handle_state. gossip_unfold.
  repeat first [apply keeps_state_loop_frame; assumption | gossip_step].
Qed.

Lemma emits_dispatch `{PyRuntime} (message : GossipMessage.t) (addr : string * Z) (now : Z) :
  emits is_send (GossipProtocol.dispatch message addr now).
Proof.
  unfold GossipProtocol.dispatch, GossipProtocol._handle_state. gossip_unfold.
  repeat first [apply emits_state_loop | gossip_step].
Qed.

Lemma keeps_update_peer_frame (P : GossipProtocol.t -> Prop) (id ip : string) (port : Z)
    (state : string) (now : Z) :
  peers_frame P -> keeps P (GossipProtocol._update_peer id ip port state now).
Proof. intros HP. gossip_unfold. repeat gossip_step. Qed.

Lemma emits_update_peer (R : GossipProtocol.effect -> Prop) (id ip : string) (port : Z)
    (state : string) (now : Z) :
  emits R (GossipProtocol._update_peer id ip port state now).
Proof. gossip_unfold. repeat gossip_step. Qed.

Lemma emits_propagate_message `{PyRuntime} (message : GossipMessage.t) (now : Z)
    (rnd : nat -> nat) :
  emits is_send (GossipProtocol._propagate_message message now rnd).
Proof. gossip_unfold. repeat gossip_step. Qed.

Lemma keeps_process_message_frame `{PyRuntime} (P : GossipProtocol.t -> Prop)
    (message : GossipMessage.t) (addr : string * Z) (now : Z) (rnd : nat -> nat) :
  peers_frame P -> keeps P (GossipProtocol._process_message message addr now rnd).
Proof.
  intros HP. unfold GossipProtocol._process_message.
  apply keeps_bind; [by apply keeps_update_peer_frame|]. intros _.
  apply keeps_bind; [by apply keeps_dispatch_frame|]. intros data'.
  apply keeps_bind; [apply readonly_keeps, readonly_trigger_callbacks|]. intros _.
  apply readonly_keeps, readonly_propagate_message.
Qed.

(** ** GossipProtocol: well-formed peer records *)

Lemma dget_In {V : Type} (k : string) (d : list (string * V)) (v : V) :
  dget k d = Some v -> In (k, v) d.
Proof.
  induction d as [|[k' v'] d IH]; simpl; [done|].
  destruct (String.eqb k' k) eqn:E.
  - apply String.eqb_eq in E. intros [= ->]. left. by subst.
  - intros Hd. right. by apply IH.
Qed.

Lemma Forall_dset {V : Type} (Q : string * V -> Prop) (k : string) (v : V)
    (d : list (string * V)) :
  Forall Q d -> Q (k, v) -> Forall Q (dset k v d).
Proof.
  intros Hd Hv. induction Hd as [|[k' v'] d Hx Hd IH]; simpl.
  - by repeat constructor.
  - destruct (String.eqb k' k) eqn:E; constructor; try done.
    apply String.eqb_eq in E. by subst.
Qed.

Lemma is_Some_dget_dset {V : Type} (k f : string) (v : V) (d : list (string * V)) :
  is_Some (dget k d) -> is_Some (dget k (dset f v d)).
Proof.
  intros Hk. destruct (decide (f = k)) as [->|Hne].
  - rewrite dget_dset_eq. by eexists.
  - by rewrite dget_dset_ne.
Qed.

Lemma peers_ok_lookup (s : GossipProtocol.t) (id : string) (p : json) :
  peers_ok s -> dget id (GossipProtocol.peers s) = Some p -> peer_ok p.
Proof.
  intros Hok Hd. apply dget_In in Hd. unfold peers_ok in Hok.
  rewrite List.Forall_forall in Hok. exact (Hok _ Hd).
Qed.

Lemma peers_ok_assign (s : GossipProtocol.t) (id : string) (p : json) :
  peers_ok s -> peer_ok p ->
  peers_ok (GossipProtocol.set_peers s (dset id p (GossipProtocol.peers s))).
Proof. intros Hok Hp. unfold peers_ok. simpl. by apply Forall_dset. Qed.

Lemma peer_getitem_ok (id field : string) :
  field ∈ ["state"; "ip"; "port"] ->
  triple (known_ok id) (GossipProtocol.peer_getitem id field)
         (fun _ => known_ok id) (fun _ => False).
Proof.
  intros Hf s [Hok Hin]. unfold GossipProtocol.in_peers in Hin.
  unfold GossipProtocol.peer_getitem, GossipProtocol.peers_lookup, PyM.bind, PyM.lift.
  destruct (dget id (GossipProtocol.peers s)) as [p|] eqn:Ep; [|done].
  destruct (peers_ok_lookup s id p Hok Ep) as (o & -> & [? H1] & [? H2] & [? H3]).
  simpl. rewrite !elem_of_cons in Hf.
  destruct Hf as [-> | [-> | [-> | Hf]]]; [rewrite H1 | rewrite H2 | rewrite H3 |
    by apply elem_of_nil in Hf]; (split; [done|]); unfold GossipProtocol.in_peers;
    by rewrite Ep.
Qed.

Lemma peer_setitem_ok (id field : string) (v : json) :
  triple (known_ok id) (GossipProtocol.peer_setitem id field v)
         (fun _ => known_ok id) (fun _ => False).
Proof.
  intros s [Hok Hin]. unfold GossipProtocol.in_peers in Hin.
  unfold GossipProtocol.peer_setitem, GossipProtocol.peers_lookup, GossipProtocol.peers_assign,
    PyM.bind, PyM.lift.
  destruct (dget id (GossipProtocol.peers s)) as [p|] eqn:Ep; [|done].
  destruct (peers_ok_lookup s id p Hok Ep) as (o & -> & H1 & H2 & H3).
  simpl. split.
  - apply peers_ok_assign; [done|]. exists (dset field v o).
    split; [done|]. by repeat split; apply is_Some_dget_dset.
  - unfold GossipProtocol.in_peers. simpl. by rewrite dget_dset_eq.
Qed.

Lemma update_peer_ok (id ip : string) (port : Z) (state : string) (now : Z) :
  triple peers_ok (GossipProtocol._update_peer id ip port state now)
         (fun _ => peers_ok) (fun _ => False).
Proof.
  assert (forall A (m : GossipProtocol.M A),
            triple (known_ok id) m (fun _ => known_ok id) (fun _ => False) ->
            forall B (f : A -> GossipProtocol.M B) (Q : B -> GossipProtocol.t -> Prop),
              (forall a, triple (known_ok id) (f a) Q (fun _ => False)) ->
              triple (known_ok id) (PyM.bind m f) Q (fun _ => False)) as Hseq.
  { intros A m Hm B f Q Hf. eapply triple_bind; [exact Hm|]. exact Hf. }
  assert (forall A (a : A), triple (known_ok id) (@PyM.ret _ GossipProtocol.effect A a)
                              (fun _ => known_ok id) (fun _ => False)) as Hret.
  { intros A a s Hs. exact Hs. }
  unfold GossipProtocol._update_peer. apply triple_get_bind. intros self Hself s ->.
  destruct (String.eqb id (GossipProtocol.node_id self)); [exact Hself|].
  destruct (GossipProtocol.in_peers self id) eqn:Ein.
  - assert (known_ok id self) as Hk by done. clear Hself Ein. revert self Hk.
    eapply triple_conseq with (Q' := fun _ => known_ok id) (X' := fun _ => False);
      [|done|by intros _ ? []|done].
    apply Hseq; [apply peer_setitem_ok|]. intros _.
    apply Hseq.
    { destruct (String.eqb state _); [apply Hret|].
      destruct (String.eqb state _); [|apply Hret].
      apply Hseq; [apply peer_getitem_ok; set_solver|]. intros ?. apply Hret. }
    intros b. apply Hseq.
    { destruct b; [apply peer_setitem_ok | apply Hret]. }
    intros _. apply Hseq; [apply peer_getitem_ok; set_solver|]. intros old_ip.
    apply Hseq.
    { destruct (negb _); [apply Hret|].
      apply Hseq; [apply peer_getitem_ok; set_solver|]. intros ?. apply Hret. }
    intros [].
    + apply Hseq; [apply peer_setitem_ok|]. intros _. apply peer_setitem_ok.
    + apply Hret.
  - unfold GossipProtocol.peers_assign. apply peers_ok_assign; [done|].
    eexists. split; [done|]. simpl. by repeat split; eexists.
Qed.

Lemma no_effects {A : Type} (m : GossipProtocol.M A) (s : GossipProtocol.t) :
  emits (fun _ => False) m -> PyM.output_of (m s) = [].
Proof.
  intros Hm. specialize (Hm s). destruct (PyM.output_of (m s)) as [|e out]; [done|].
  by apply Forall_cons in Hm as [[] _].
Qed.

(** ** GossipProtocol: propagation *)

Lemma sample_length {A : Type} (rnd : nat -> nat) (k : nat) :
  forall population : list A,
    length (sample rnd population k) = Nat.min k (length population).
Proof.
  induction k as [|k IH]; intros population; simpl; [done|].
  destruct population as [|x0 population]; [done|].
  set (l := x0 :: population).
  assert (rnd k mod length l < length l)%nat as Hlt.
  { apply Nat.mod_upper_bound. done. }
  destruct (lookup_lt_is_Some_2 l _ Hlt) as [x Hx]. rewrite Hx. simpl.
  rewrite IH, length_delete by (by eexists). simpl length in *. lia.
Qed.

Lemma sample_submseteq {A : Type} (rnd : nat -> nat) (k : nat) :
  forall population : list A, sample rnd population k ⊆+ population.
Proof.
  induction k as [|k IH]; intros population; simpl; [apply submseteq_nil_l|].
  destruct (population !! (rnd k mod length population)%nat) as [x|] eqn:Hx;
    [|apply submseteq_nil_l].
  trans (x :: delete (rnd k mod length population)%nat population).
  - apply submseteq_skip, IH.
  - apply Permutation_submseteq. symmetry. by apply delete_Permutation.
Qed.

Lemma live_of_ok (ps : list (string * json)) :
  Forall (fun kv => peer_ok (snd kv)) ps ->
  exists l, GossipProtocol.live_of ps = Ok l
            ∧ map snd l = List.filter not_dead (map snd ps).
Proof.
  induction 1 as [|[id p] ps (o & Hp & [st Hst] & _) _ (l & Hl & Hmap)]; simpl in *.
  - by exists [].
  - subst p. unfold not_dead. simpl. rewrite Hst, Hl.
    destruct (py_eq_str st GossipProtocol.DEAD); simpl.
    + by exists l.
    + exists ((id, JObj o) :: l). split; [done|]. simpl. by rewrite Hmap.
Qed.

Lemma send_to_peer_ok (s : GossipProtocol.t) (message : GossipMessage.t) (peer : json) :
  GossipProtocol.transport s = true -> peer_ok peer ->
  GossipProtocol.send_to_peer message peer s
  = (s, [GossipProtocol.SendTo message (peer_addr peer)], Ok tt).
Proof.
  intros Htr (o & -> & _ & [ip Hip] & [port Hport]).
  unfold GossipProtocol.send_to_peer, peer_addr, PyM.bind, PyM.lift. simpl.
  rewrite Hip, Hport. unfold GossipProtocol._send_message, PyM.bind, PyM.get.
  by rewrite Htr.
Qed.

Lemma send_to_peers (s : GossipProtocol.t) (message : GossipMessage.t)
    (targets : list json) :
  GossipProtocol.transport s = true -> Forall peer_ok targets ->
  PyM.for_each targets (GossipProtocol.send_to_peer message) s
  = (s, map (fun peer => GossipProtocol.SendTo message (peer_addr peer)) targets, Ok tt).
Proof.
  intros Htr. induction 1 as [|p targets Hp _ IH]; simpl; [done|].
  unfold PyM.bind. rewrite send_to_peer_ok by done. by rewrite IH.
Qed.

Lemma propagate_message_sends `{PyRuntime} (s : GossipProtocol.t)
    (message : GossipMessage.t) (now : Z) (rnd : nat -> nat) :
  GossipProtocol.transport s = true -> peers_ok s -> 1 < GossipMessage.ttl message ->
  GossipProtocol._propagate_message message now rnd s
  = (s,
     map (fun peer => GossipProtocol.SendTo (forwarded message now) (peer_addr peer))
         (sample rnd (live_peers s) (GossipProtocol.target_count (length (live_peers s)))),
     Ok tt).
Proof.
  intros Htr Hok Httl. unfold GossipProtocol._propagate_message.
  assert ((GossipMessage.ttl message <=? 1) = false) as -> by (apply Z.leb_gt; lia).
  destruct (live_of_ok _ Hok) as (l & Hl & Hmap).
  unfold PyM.bind at 1. unfold PyM.get at 1. unfold PyM.bind at 1. unfold PyM.lift at 1.
  rewrite Hl. fold (live_peers s) in Hmap. rewrite Hmap.
  destruct (live_peers s) as [|p lp] eqn:Elive; [done|].
  rewrite send_to_peers; [done | done |].
  assert (Forall peer_ok (live_peers s)) as Hlive.
  { unfold live_peers. apply List.Forall_forall. intros x Hx.
    apply List.filter_In in Hx as [Hx _]. apply List.in_map_iff in Hx as ([id p'] & <- & Hin).
    unfold peers_ok in Hok. rewrite List.Forall_forall in Hok. exact (Hok _ Hin). }
  rewrite Elive in Hlive. apply List.Forall_forall. intros x Hx.
  rewrite List.Forall_forall in Hlive. apply Hlive.
  apply list_elem_of_In. apply list_elem_of_In in Hx.
  eapply elem_of_submseteq; [exact Hx | apply sample_submseteq].
Qed.

Lemma deliver_dropped `{PyRuntime} (s : GossipProtocol.t) (message : GossipMessage.t)
    (addr : string * Z) (now : Z) (rnd : nat -> nat) :
  GossipMessage.sender_id message = GossipProtocol.node_id s
  ∨ GossipMessage.ttl message <= 0
  ∨ is_Some (GossipProtocol.message_cache s !! GossipMessage.message_id message) ->
  GossipProtocol._should_process_message message now s = (s, [], Ok false)
  ∧ GossipProtocol.deliver message addr now rnd s = (s, [], Ok tt).
Proof.
  intros Hcase.
  assert (GossipProtocol._should_process_message message now s = (s, [], Ok false)) as Hsp.
  { unfold GossipProtocol._should_process_message, PyM.bind, PyM.get. simpl.
    destruct (String.eqb _ _) eqn:Es; [done|].
    destruct (_ !! _) eqn:Ec; [done|].
    destruct (_ <=? 0) eqn:Et; [done|].
    exfalso. destruct Hcase as [Hc | [Hc | [? Hc]]].
    - apply String.eqb_neq in Es. done.
    - apply Z.leb_gt in Et. lia.
    - congruence. }
  split; [done|]. unfold GossipProtocol.deliver, PyM.try_, PyM.bind. by rewrite Hsp.
Qed.

(** ** GossipProtocol: the dedup cache *)

Lemma should_process_accepted (s : GossipProtocol.t) (message : GossipMessage.t) (now : Z) :
  PyM.result_of (GossipProtocol._should_process_message message now s) = Ok true ->
  GossipProtocol._should_process_message message now s
  = (GossipProtocol.set_message_cache s
       (<[GossipMessage.message_id message := now]> (GossipProtocol.message_cache s)),
     [], Ok true)
  ∧ GossipMessage.sender_id message ≠ GossipProtocol.node_id s
  ∧ GossipProtocol.message_cache s !! GossipMessage.message_id message = None
  ∧ 0 < GossipMessage.ttl message.
Proof.
  unfold GossipProtocol._should_process_message, PyM.bind, PyM.get, PyM.put, PyM.ret,
    PyM.result_of. simpl.
  destruct (String.eqb _ _) eqn:Es; [done|].
  destruct (_ !! _) eqn:Ec; [done|].
  destruct (_ <=? 0) eqn:Et; [done|]. intros _.
  apply String.eqb_neq in Es. apply Z.leb_gt in Et. by repeat split.
Qed.

Lemma for_each_emit {S E A : Type} (f : A -> E) (l : list A) (s : S) :
  PyM.for_each l (fun x => PyM.emit (f x)) s = (s, map f l, Ok tt).
Proof.
  induction l as [|x l IH]; simpl; [done|].
  unfold PyM.bind. unfold PyM.emit at 1. by rewrite IH.
Qed.

Lemma trigger_callbacks_output (s : GossipProtocol.t) (message : GossipMessage.t) :
  GossipProtocol._trigger_callbacks message s
  = (s,
     map (fun cb => GossipProtocol.Invoke cb message)
         (default [] (GossipProtocol.callbacks s !! GossipMessage.message_type message)),
     Ok tt).
Proof.
  unfold GossipProtocol._trigger_callbacks, PyM.bind, PyM.get.
  destruct (_ !! _) as [cbs|]; simpl; [|done].
  by rewrite (for_each_emit (fun cb => GossipProtocol.Invoke cb message)).
Qed.

Lemma invocations_invoke (message : GossipMessage.t) (cbs : list callable) :
  invocations (map (fun cb => GossipProtocol.Invoke cb message) cbs)
  = map (fun cb => (cb, message)) cbs.
Proof.
  induction cbs as [|cb cbs IH]; [done|].
  change (invocations (map (fun cb => GossipProtocol.Invoke cb message) (cb :: cbs)))
    with ((cb, message) :: invocations (map (fun cb => GossipProtocol.Invoke cb message) cbs)).
  by rewrite IH.
Qed.

Lemma dispatch_application `{PyRuntime} (message : GossipMessage.t) (addr : string * Z)
    (now : Z) :
  GossipMessage.message_type message ∉ builtin_types ->
  GossipProtocol.dispatch message addr now = PyM.ret (GossipMessage.data message).
Proof.
  intros Hty. unfold builtin_types in Hty. rewrite !not_elem_of_cons in Hty.
  destruct Hty as (H1 & H2 & H3 & H4 & H5 & H6 & _).
  unfold GossipProtocol.dispatch.
  by rewrite !(proj2 (String.eqb_neq _ _)).
Qed.

Lemma with_data_same (message : GossipMessage.t) :
  GossipMessage.with_data message (GossipMessage.data message) = message.
Proof. by destruct message. Qed.

(** The effects of processing an accepted message, stage by stage. *)
Lemma process_message_output `{PyRuntime} (s : GossipProtocol.t)
    (message : GossipMessage.t) (addr : string * Z) (now : Z) (rnd : nat -> nat) :
  let cbs := default [] (GossipProtocol.callbacks s !! GossipMessage.message_type message) in
  let r := GossipProtocol._process_message message addr now rnd s in
  (invocations (PyM.output_of r) = []
   ∧ (peers_ok s -> GossipMessage.message_type message ∉ builtin_types -> False))
  ∨ exists s2 data' sends1 sends2,
      PyM.state_of (GossipProtocol._update_peer (GossipMessage.sender_id message)
                      (fst addr) (snd addr) GossipProtocol.ALIVE now s) = s2
      ∧ (peers_ok s -> peers_ok s2)
      ∧ (GossipMessage.message_type message ∉ builtin_types ->
         data' = GossipMessage.data message ∧ sends1 = []
         ∧ PyM.state_of r = s2
         ∧ sends2 = PyM.output_of
                      (GossipProtocol._propagate_message message now rnd s2))
      ∧ Forall is_send sends1 ∧ Forall is_send sends2
      ∧ PyM.output_of r
        = sends1
          ++ map (fun cb => GossipProtocol.Invoke cb (GossipMessage.with_data message data')) cbs
          ++ sends2.
Proof.
  intros cbs r.
  pose proof (eq_refl : r = GossipProtocol._process_message message addr now rnd s) as Er.
  clearbody r. unfold GossipProtocol._process_message in Er.
  set (up := GossipProtocol._update_peer _ _ _ _ _) in *.
  pose proof (no_effects up s (emits_update_peer _ _ _ _ _ _)) as Ho2.
  pose proof (update_peer_ok (GossipMessage.sender_id message) (fst addr) (snd addr)
                GossipProtocol.ALIVE now s) as Hok2.
  pose proof (keeps_state (fun s' => GossipProtocol.callbacks s' = GossipProtocol.callbacks s)
                up s) as Hcb2.
  unfold PyM.bind at 1 in Er. fold up in Hok2.
  destruct (up s) as [[s2 o2] [[]|e]] eqn:E2; unfold PyM.output_of, PyM.state_of in *;
    simpl in *; subst o2.
  2:{ subst r. left. split; [done|]. intros Hok _. exact (Hok2 Hok). }
  assert (GossipProtocol.callbacks s2 = GossipProtocol.callbacks s) as Hc2.
  { apply Hcb2; [|done]. apply keeps_update_peer_frame. by intros ? ?. }
  pose proof (emits_dispatch message addr now s2) as Ho3.
  pose proof (keeps_state (fun s' => GossipProtocol.callbacks s' = GossipProtocol.callbacks s)
                (GossipProtocol.dispatch message addr now) s2) as Hcb3.
  destruct (decide (GossipMessage.message_type message ∈ builtin_types)) as [Hty|Hty].
  - unfold PyM.bind at 1 in Er.
    destruct (GossipProtocol.dispatch message addr now s2) as [[s3 o3] [data'|e]] eqn:E3;
      unfold PyM.output_of, PyM.state_of in *; simpl in *.
    2:{ subst r. left. split; [by apply invocations_sends|]. intros _ Hn. done. }
    assert (GossipProtocol.callbacks s3 = GossipProtocol.callbacks s) as Hc3.
    { apply Hcb3; [|done]. apply keeps_dispatch_frame. by intros ? ?. }
    unfold PyM.bind in Er. rewrite trigger_callbacks_output in Er. simpl in Er.
    rewrite Hc3 in Er. fold cbs in Er.
    pose proof (emits_propagate_message (GossipMessage.with_data message data') now rnd s3)
      as Ho4.
    destruct (GossipProtocol._propagate_message _ now rnd s3) as [[s4 o4] r4];
      unfold PyM.output_of in *; simpl in *. subst r.
    right. exists s2, data', o3, o4. split; [done|]. split; [tauto|].
    split; [intros Hn; contradiction|]. by repeat split.
  - rewrite (dispatch_application message addr now Hty) in Er. unfold PyM.bind in Er.
    simpl in Er.
    rewrite with_data_same, trigger_callbacks_output in Er. simpl in Er.
    rewrite Hc2 in Er. fold cbs in Er.
    pose proof (emits_propagate_message message now rnd s2) as Ho4.
    pose proof (readonly_propagate_message message now rnd s2) as Hr4.
    destruct (GossipProtocol._propagate_message message now rnd s2) as [[s4 o4] r4] eqn:E4;
      unfold PyM.output_of, PyM.state_of in *; simpl in *. subst r s4.
    right. exists s2, (GossipMessage.data message), [], o4. split; [done|].
    split; [tauto|]. rewrite with_data_same, E4. by repeat split.
Qed.

(** What [datagram_received] does with a message that
    [_should_process_message] accepts: the id is cached, then the peer
    update and the handler of a protocol message run; when they return,
    the callbacks of the type are called and [_propagate_message] runs;
    when they raise, the exception is caught and nothing more happens. *)
Lemma deliver_accepted `{PyRuntime} (s : GossipProtocol.t) (message : GossipMessage.t)
    (addr : string * Z) (now : Z) (rnd : nat -> nat) :
  PyM.result_of (GossipProtocol._should_process_message message now s) = Ok true ->
  let s0 := GossipProtocol.set_message_cache s
              (<[GossipMessage.message_id message := now]> (GossipProtocol.message_cache s)) in
  let pre := PyM.bind (GossipProtocol._update_peer (GossipMessage.sender_id message)
                         (fst addr) (snd addr) GossipProtocol.ALIVE now)
               (fun _ => GossipProtocol.dispatch message addr now) s0 in
  let cbs := default [] (GossipProtocol.callbacks s !! GossipMessage.message_type message) in
  Forall is_send (PyM.output_of pre)
  ∧ GossipProtocol.transport (PyM.state_of pre) = GossipProtocol.transport s
  ∧ GossipProtocol.message_cache (PyM.state_of pre) = GossipProtocol.message_cache s0
  ∧ GossipProtocol.deliver message addr now rnd s
    = match PyM.result_of pre with
      | Ok data' =>
          (PyM.state_of pre,
           PyM.output_of pre
           ++ map (fun cb => GossipProtocol.Invoke cb (GossipMessage.with_data message data')) cbs
           ++ PyM.output_of
                (GossipProtocol._propagate_message (GossipMessage.with_data message data')
                   now rnd (PyM.state_of pre)),
           Ok tt)
      | Raise _ => (PyM.state_of pre, PyM.output_of pre, Ok tt)
      end.
Proof.
  intros Hacc s0 pre cbs.
  destruct (should_process_accepted s message now Hacc) as (Hsp & _ & _ & _).
  fold s0 in Hsp.
  set (up := GossipProtocol._update_peer (GossipMessage.sender_id message)
               (fst addr) (snd addr) GossipProtocol.ALIVE now) in *.
  assert (forall (P : GossipProtocol.t -> Prop), peers_frame P -> P s0 -> P (PyM.state_of pre))
    as Hframe.
  { intros P HP Hs0. apply (keeps_state P); [|done].
    apply keeps_bind; [by apply keeps_update_peer_frame|]. intros _.
    by apply keeps_dispatch_frame. }
  assert (Forall is_send (PyM.output_of pre)) as Hsends.
  { apply (emits_bind is_send); [apply emits_update_peer|]. intros _. apply emits_dispatch. }
  split; [exact Hsends|].
  split.
  { apply (Hframe (fun s' => GossipProtocol.transport s' = GossipProtocol.transport s)).
    - intros ? ? HP. exact HP.
    - reflexivity. }
  split.
  { apply (Hframe (fun s' => GossipProtocol.message_cache s'
                             = GossipProtocol.message_cache s0)).
    - intros ? ? HP. exact HP.
    - reflexivity. }
  assert (GossipProtocol.callbacks (PyM.state_of pre) = GossipProtocol.callbacks s) as Hcb.
  { apply (Hframe (fun s' => GossipProtocol.callbacks s' = GossipProtocol.callbacks s)).
    - intros ? ? HP. exact HP.
    - reflexivity. }
  clear Hframe Hsends.
  unfold GossipProtocol.deliver, PyM.try_. unfold PyM.bind at 1. rewrite Hsp.
  unfold GossipProtocol._process_message. fold up.
  subst pre. unfold PyM.bind, PyM.state_of, PyM.output_of, PyM.result_of in *.
  destruct (up s0) as [[s2 o2] [[]|e]]; simpl in *; [|done].
  destruct (GossipProtocol.dispatch message addr now s2) as [[s3 o3] [data'|e]];
    simpl in *; [|done].
  rewrite trigger_callbacks_output. rewrite Hcb. fold cbs.
  pose proof (readonly_propagate_message (GossipMessage.with_data message data') now rnd s3)
    as Hro. unfold PyM.state_of in Hro.
  destruct (GossipProtocol._propagate_message _ now rnd s3) as [[s5 o5] r5]. simpl in *.
  subst s5. by rewrite <- !app_assoc.
Qed.

Lemma keeps_check_peers_frame `{PyRuntime} (P : GossipProtocol.t -> Prop) (now : Z) :
  peers_frame P -> keeps P (GossipProtocol._check_peers now).
Proof.
  intros HP. unfold GossipProtocol._check_peers, GossipProtocol.check_peer. gossip_unfold.
  repeat gossip_step.
Qed.

Lemma keeps_should_process_cached (id : string) (received : Z) (ci : Z)
    (message : GossipMessage.t) (now : Z) :
  keeps (fun s => GossipProtocol.message_cache s !! id = Some received
                  ∧ GossipProtocol.cleanup_interval s = ci)
        (GossipProtocol._should_process_message message now).
Proof.
  intros s [Hs Hci]. unfold GossipProtocol._should_process_message, PyM.bind, PyM.get,
    PyM.put, PyM.ret. simpl.
  destruct (String.eqb _ _); [done|].
  destruct (GossipProtocol.message_cache s !! GossipMessage.message_id message) eqn:Ec;
    [done|].
  destruct (_ <=? 0); [done|]. simpl. split; [|done].
  rewrite lookup_insert_ne; [done|]. intros Heq. congruence.
Qed.

(** A step of the node deletes an entry of the cache only in
    [_clean_message_cache], [2 * cleanup_interval] after it was received. *)
Lemma step_cache `{PyRuntime} (s : GossipProtocol.t) (ev : GossipProtocol.event)
    (id : string) (received : Z) :
  GossipProtocol.message_cache s !! id = Some received ->
  GossipProtocol.message_cache (fst (GossipProtocol.step s ev)) !! id = Some received
  ∨ exists now,
      ev = GossipProtocol.CleanupTick now
      ∧ GossipProtocol.cleanup_interval s * 2 < now - received
      ∧ GossipProtocol.message_cache (fst (GossipProtocol.step s ev)) !! id = None.
Proof.
  intros Hs.
  set (P := fun s' => GossipProtocol.message_cache s' !! id = Some received
                      ∧ GossipProtocol.cleanup_interval s' = GossipProtocol.cleanup_interval s).
  assert (P s) as HP by done.
  assert (peers_frame P) as Hframe by (by intros ? ?).
  assert (forall (A : Type) (m : GossipProtocol.M A),
            keeps P m -> GossipProtocol.message_cache (fst (fst (m s))) !! id = Some received)
    as Hkeep.
  { intros A m Hm. exact (proj1 (keeps_state P m s Hm HP)). }
  destruct ev as [datagram addr now rnd | pid ip port state now | now | now rnd | ty cb | ];
    simpl.
  - left. apply Hkeep. unfold GossipProtocol.datagram_received, GossipProtocol.deliver.
    apply keeps_try, keeps_bind; [apply keeps_should_process_cached|].
    intros [|]; [by apply keeps_process_message_frame | apply keeps_ret].
  - left. apply Hkeep. by apply keeps_try, keeps_update_peer_frame.
  - unfold GossipProtocol.cleanup_tick, PyM.try_, PyM.bind.
    pose proof (keeps_state P _ s (keeps_check_peers_frame P now Hframe) HP) as Hcp.
    unfold PyM.state_of in Hcp.
    destruct (GossipProtocol._check_peers now s) as [[s1 o1] [[]|e]]; simpl in *;
      [|left; apply Hcp].
    destruct Hcp as [Hc1 Hci]. unfold GossipProtocol.expired. rewrite Hci.
    destruct (GossipProtocol.cleanup_interval s * 2 <? now - received) eqn:Ee.
    + right. exists now. split; [done|]. split; [by apply Z.ltb_lt|].
      apply map_lookup_filter_None. right. intros x Hx. simpl.
      assert (x = received) as -> by congruence. by rewrite Ee.
    + left. apply map_lookup_filter_Some. split; [done|]. simpl. exact Ee.
  - left. apply Hkeep. apply keeps_try. unfold GossipProtocol._gossip.
    apply readonly_keeps, readonly_bind; [apply readonly_get|]. intros self.
    apply readonly_bind; [apply readonly_lift|]. intros live.
    destruct (sample _ _ _); [apply readonly_ret | apply readonly_send_to_peer].
  - by left.
  - by left.
Qed.

(** C4, amended. A message that the node accepts is entered in the dedup
    cache before it is processed and stays there through the processing;
    while its id is cached, a message with that id is refused by
    [_should_process_message] and its delivery changes nothing and calls
    nothing. So the callbacks registered for the type of a message are
    called by its first delivery only, and there once each, in the order
    of registration, when the peer update and the handler of a protocol
    message return, and not at all when they raise; for an application
    message on a table of well-formed peer records they return. No step
    of the node removes a cache entry except the cleanup, and only when
    the entry is older than [2 * cleanup_interval]. *)
Theorem duplicate_message_processed_once `{PyRuntime} :
  (forall (s : GossipProtocol.t) (message : GossipMessage.t) (addr : string * Z) (now : Z)
          (rnd : nat -> nat),
     PyM.result_of (GossipProtocol._should_process_message message now s) = Ok true ->
     let r := GossipProtocol.deliver message addr now rnd s in
     let s1 := PyM.state_of r in
     let cbs :=
       default [] (GossipProtocol.callbacks s !! GossipMessage.message_type message) in
     let handled :=
       PyM.result_of
         (PyM.bind (GossipProtocol._update_peer (GossipMessage.sender_id message)
                      (fst addr) (snd addr) GossipProtocol.ALIVE now)
            (fun _ => GossipProtocol.dispatch message addr now)
            (GossipProtocol.set_message_cache s
               (<[GossipMessage.message_id message := now]>
                  (GossipProtocol.message_cache s)))) in
     GossipProtocol.message_cache s1 !! GossipMessage.message_id message = Some now
     ∧ (forall message' addr' now' rnd',
          GossipMessage.message_id message' = GossipMessage.message_id message ->
          GossipProtocol._should_process_message message' now' s1 = (s1, [], Ok false)
          ∧ GossipProtocol.deliver message' addr' now' rnd' s1 = (s1, [], Ok tt))
     ∧ invocations (PyM.output_of r)
       = match handled with
         | Ok data' => map (fun cb => (cb, GossipMessage.with_data message data')) cbs
         | Raise _ => []
         end
     ∧ (peers_ok s -> GossipMessage.message_type message ∉ builtin_types ->
        handled = Ok (GossipMessage.data message)
        ∧ invocations (PyM.output_of r) = map (fun cb => (cb, message)) cbs))
  ∧ (forall (s : GossipProtocol.t) (ev : GossipProtocol.event) (id : string) (received : Z),
       GossipProtocol.message_cache s !! id = Some received ->
       GossipProtocol.message_cache (fst (GossipProtocol.step s ev)) !! id = Some received
       ∨ exists now,
           ev = GossipProtocol.CleanupTick now
           ∧ GossipProtocol.cleanup_interval s * 2 < now - received
           ∧ GossipProtocol.message_cache (fst (GossipProtocol.step s ev)) !! id = None).
Proof.
  split; [|intros s ev id received; apply step_cache].
  intros s message addr now rnd Hacc r s1 cbs handled.
  destruct (deliver_accepted s message addr now rnd Hacc) as (Hsends & _ & Hcache & Hr).
  set (s0 := GossipProtocol.set_message_cache s _) in *.
  set (pre := PyM.bind _ _ s0) in *.
  change handled with (PyM.result_of pre). clear handled.
  fold cbs in Hr. fold r in Hr.
  assert (s1 = PyM.state_of pre) as Hs1.
  { subst s1. rewrite Hr. by destruct (PyM.result_of pre). }
  assert (GossipProtocol.message_cache s1 !! GossipMessage.message_id message = Some now)
    as Hcached.
  { rewrite Hs1, Hcache. subst s0. simpl. apply lookup_insert_eq. }
  assert (invocations (PyM.output_of r)
          = match PyM.result_of pre with
            | Ok data' => map (fun cb => (cb, GossipMessage.with_data message data')) cbs
            | Raise _ => []
            end) as Hinv.
  { destruct (PyM.result_of pre) as [data'|e].
    - assert (PyM.output_of r
              = PyM.output_of pre
                ++ map (fun cb => GossipProtocol.Invoke cb
                                    (GossipMessage.with_data message data')) cbs
                ++ PyM.output_of
                     (GossipProtocol._propagate_message
                        (GossipMessage.with_data message data') now rnd (PyM.state_of pre)))
        as -> by (by rewrite Hr).
      rewrite !invocations_app, invocations_invoke.
      rewrite (invocations_sends _ Hsends).
      rewrite (invocations_sends _ (emits_propagate_message _ now rnd (PyM.state_of pre))).
      simpl. apply app_nil_r.
    - assert (PyM.output_of r = PyM.output_of pre) as -> by (by rewrite Hr).
      apply (invocations_sends _ Hsends). }
  split; [exact Hcached|]. split.
  { intros message' addr' now' rnd' Hid. apply deliver_dropped. right. right.
    rewrite Hid. by eexists. }
  split; [exact Hinv|].
  intros Hok Hty.
  assert (peers_ok s0) as Hok0 by exact Hok.
  assert (PyM.result_of pre = Ok (GossipMessage.data message)) as Hpre.
  { subst pre. clear Hr Hinv Hs1 Hcache Hsends.
    pose proof (update_peer_ok (GossipMessage.sender_id message) (fst addr) (snd addr)
                  GossipProtocol.ALIVE now s0) as Hup.
    unfold PyM.bind, PyM.result_of.
    destruct (GossipProtocol._update_peer _ _ _ _ _ s0) as [[s2 o2] [[]|e]] eqn:E2.
    2:{ destruct (Hup Hok0). }
    by rewrite (dispatch_application message addr now Hty). }
  split; [exact Hpre|]. rewrite Hinv, Hpre. by rewrite with_data_same.
Qed.

(** C6, as it is stated, fails: with ten live peers a message is
    forwarded to [max(3, int(sqrt(10))) = 3] of them, where
    [max(3, ceil(sqrt(10))) = 4]. *)
Lemma propagate_message_rounds_down :
  length (live_peers demo_gossip) = 10%nat
  ∧ length (PyM.output_of
              (@GossipProtocol._propagate_message demo_runtime demo_message 101
                 (fun _ => O) demo_gossip)) = 3%nat
  ∧ spec_target_count 10 = 4%nat.
Proof. vm_compute. done. Qed.

(** C6, amended. [_propagate_message] sends nothing for [ttl <= 1]; for
    [ttl > 1], on a node with a transport and well-formed peer records,
    it sends a copy with the same sender, type and data, and [ttl - 1],
    to a sample without repetition of [min(N, max(3, floor(sqrt(N))))]
    of the [N] non-[DEAD] peers. A message from the node itself, or with
    [ttl <= 0], or whose id is in the dedup cache, is dropped on every
    node: nothing changes and nothing is sent. A message of any type that
    is accepted is processed in this way: the peer update and the handler
    of a protocol message run; when they return, the callbacks of the
    type are called and the message, with the data as the handler left
    it, is forwarded by [_propagate_message] from the peer table as it
    is then; when they raise, nothing is forwarded. For an application
    message on well-formed peer records they return, send nothing, and
    leave the records well formed. *)
Theorem epidemic_propagation `{PyRuntime} :
  (forall (s : GossipProtocol.t) (message : GossipMessage.t) (now : Z) (rnd : nat -> nat),
     (GossipMessage.ttl message <= 1 ->
      GossipProtocol._propagate_message message now rnd s = (s, [], Ok tt))
     ∧ (1 < GossipMessage.ttl message ->
        GossipProtocol.transport s = true -> peers_ok s ->
        let n := length (live_peers s) in
        let targets := sample rnd (live_peers s) (GossipProtocol.target_count n) in
        GossipProtocol._propagate_message message now rnd s
        = (s,
           map (fun peer => GossipProtocol.SendTo (forwarded message now) (peer_addr peer))
               targets,
           Ok tt)
        ∧ length targets = Nat.min n (Nat.max 3 (Nat.sqrt n))
        ∧ targets ⊆+ live_peers s
        ∧ GossipMessage.ttl (forwarded message now) = GossipMessage.ttl message - 1
        ∧ GossipMessage.sender_id (forwarded message now) = GossipMessage.sender_id message
        ∧ GossipMessage.message_type (forwarded message now)
          = GossipMessage.message_type message
        ∧ GossipMessage.data (forwarded message now) = GossipMessage.data message))
  ∧ (forall (s : GossipProtocol.t) (message : GossipMessage.t) (addr : string * Z) (now : Z)
            (rnd : nat -> nat),
       GossipMessage.sender_id message = GossipProtocol.node_id s
       ∨ GossipMessage.ttl message <= 0
       ∨ is_Some (GossipProtocol.message_cache s !! GossipMessage.message_id message) ->
       GossipProtocol._should_process_message message now s = (s, [], Ok false)
       ∧ GossipProtocol.deliver message addr now rnd s = (s, [], Ok tt))
  ∧ (forall (s : GossipProtocol.t) (message : GossipMessage.t) (addr : string * Z) (now : Z)
            (rnd : nat -> nat),
       PyM.result_of (GossipProtocol._should_process_message message now s) = Ok true ->
       let handled :=
         PyM.bind (GossipProtocol._update_peer (GossipMessage.sender_id message)
                     (fst addr) (snd addr) GossipProtocol.ALIVE now)
           (fun _ => GossipProtocol.dispatch message addr now)
           (GossipProtocol.set_message_cache s
              (<[GossipMessage.message_id message := now]>
                 (GossipProtocol.message_cache s))) in
       let s3 := PyM.state_of handled in
       let cbs :=
         default [] (GossipProtocol.callbacks s !! GossipMessage.message_type message) in
       GossipProtocol.deliver message addr now rnd s
       = match PyM.result_of handled with
         | Ok data' =>
             (s3,
              PyM.output_of handled
              ++ map (fun cb => GossipProtocol.Invoke cb
                                  (GossipMessage.with_data message data')) cbs
              ++ PyM.output_of
                   (GossipProtocol._propagate_message
                      (GossipMessage.with_data message data') now rnd s3),
              Ok tt)
         | Raise _ => (s3, PyM.output_of handled, Ok tt)
         end
       ∧ Forall is_send (PyM.output_of handled)
       ∧ GossipProtocol.transport s3 = GossipProtocol.transport s
       ∧ (forall data',
            PyM.result_of handled = Ok data' ->
            1 < GossipMessage.ttl message ->
            GossipProtocol.transport s = true -> peers_ok s3 ->
            let message' := GossipMessage.with_data message data' in
            let n := length (live_peers s3) in
            let targets := sample rnd (live_peers s3) (GossipProtocol.target_count n) in
            PyM.output_of (GossipProtocol.deliver message addr now rnd s)
            = PyM.output_of handled
              ++ map (fun cb => GossipProtocol.Invoke cb message') cbs
              ++ map (fun peer => GossipProtocol.SendTo (forwarded message' now)
                                    (peer_addr peer)) targets
            ∧ length targets = Nat.min n (Nat.max 3 (Nat.sqrt n))
            ∧ targets ⊆+ live_peers s3)
       ∧ (GossipMessage.message_type message ∉ builtin_types -> peers_ok s ->
          PyM.result_of handled = Ok (GossipMessage.data message)
          ∧ PyM.output_of handled = []
          ∧ peers_ok s3)).
Proof.
  split; [|split].
  - intros s message now rnd. split.
    + intros Httl. unfold GossipProtocol._propagate_message.
      by assert ((GossipMessage.ttl message <=? 1) = true) as -> by (apply Z.leb_le; lia).
    + intros Httl Htr Hok n targets. split; [by apply propagate_message_sends|].
      split; [|split; [apply sample_submseteq | done]].
      subst targets. rewrite sample_length. unfold GossipProtocol.target_count. lia.
  - intros s message addr now rnd. apply deliver_dropped.
  - intros s message addr now rnd Hacc handled s3 cbs.
    destruct (deliver_accepted s message addr now rnd Hacc) as (Hsends & Htr & _ & Hr).
    fold handled in Hsends, Htr, Hr. fold s3 in Htr, Hr. fold cbs in Hr.
    split; [exact Hr|]. split; [exact Hsends|]. split; [exact Htr|]. split.
    + intros data' Hdata Httl Htr0 Hok3 message' n targets.
      rewrite Hr, Hdata. fold message'.
      assert (1 < GossipMessage.ttl message') as Httl' by (by destruct message).
      assert (GossipProtocol.transport s3 = true) as Htr3 by congruence.
      rewrite (propagate_message_sends s3 message' now rnd Htr3 Hok3 Httl').
      split; [done|]. split; [|apply sample_submseteq].
      subst targets. rewrite sample_length. unfold GossipProtocol.target_count. lia.
    + intros Hty Hok. subst s3 handled.
      set (s0 := GossipProtocol.set_message_cache s _) in *.
      assert (peers_ok s0) as Hok0 by exact Hok.
      pose proof (update_peer_ok (GossipMessage.sender_id message) (fst addr) (snd addr)
                    GossipProtocol.ALIVE now s0) as Hup.
      pose proof (no_effects (GossipProtocol._update_peer (GossipMessage.sender_id message)
                                (fst addr) (snd addr) GossipProtocol.ALIVE now) s0
                    (emits_update_peer _ _ _ _ _ _)) as Hno.
      unfold PyM.bind, PyM.result_of, PyM.output_of, PyM.state_of in *.
      destruct (GossipProtocol._update_peer _ _ _ _ _ s0) as [[s2 o2] [[]|e]] eqn:E2.
      2:{ destruct (Hup Hok0). }
      rewrite (dispatch_application message addr now Hty). simpl in *. subst o2.
      split; [done|]. split; [done|]. by apply Hup.
Qed.

Lemma epidemic_propagation_witness :
  let message := @GossipMessage.new demo_runtime "p1" "agent_active" [] (Some 100) 3 100 in
  let r := @GossipProtocol.deliver demo_runtime message ("10.0.0.2", 9001) 101
             (fun _ => O) demo_listening in
  exists targets,
    PyM.output_of r
    = GossipProtocol.Invoke (External 1) message
      :: map (fun peer => GossipProtocol.SendTo (@forwarded demo_runtime message 101)
                            (peer_addr peer)) targets
    ∧ length targets = 3%nat
    ∧ targets ⊆+ live_peers (PyM.state_of r).
Proof.
  intros message r.
  destruct (proj2 (proj2 (@epidemic_propagation demo_runtime)) demo_listening message
              ("10.0.0.2", 9001) 101 (fun _ => O)) as (Hr & _ & _ & Hfwd & _).
  { vm_compute. reflexivity. }
  destruct (Hfwd []) as (Hout & Hlen & Hsub).
  { vm_compute. reflexivity. }
  { vm_compute. reflexivity. }
  { vm_compute. reflexivity. }
  { unfold peers_ok. vm_compute.
    repeat (constructor; [eexists; split; [reflexivity|]; by repeat split; eexists|]).
    constructor. }
  eexists. split; [exact Hout|]. split.
  - rewrite Hlen. vm_compute. reflexivity.
  - assert (PyM.state_of r
            = PyM.state_of
                (PyM.bind (GossipProtocol._update_peer (GossipMessage.sender_id message)
                             "10.0.0.2" 9001 GossipProtocol.ALIVE 101)
                   (fun _ => @GossipProtocol.dispatch demo_runtime message
                               ("10.0.0.2", 9001) 101)
                   (GossipProtocol.set_message_cache demo_listening
                      (<[GossipMessage.message_id message := 101]>
                         (GossipProtocol.message_cache demo_listening))))) as ->
      by (vm_compute; reflexivity).
    exact Hsub.
Defined.

(** C4, as it is stated, fails: the id of an accepted message is cached
    before the message is processed, and an exception in the processing
    is caught, so a message whose handler raises calls no callback, and
    its second delivery is dropped: the callback registered for its type
    is called zero times for this id. Here [_handle_state] stores the
    string as the record of peer [p99] and raises on the assignment of
    its [last_seen]. *)
Lemma accepted_message_calls_no_callback :
  let r := @GossipProtocol.deliver demo_runtime demo_state_message ("10.0.0.2", 9001) 101
             (fun _ => O) demo_listening in
  GossipProtocol.callbacks demo_listening !! "state" = Some [External 0]
  ∧ PyM.result_of (GossipProtocol._should_process_message demo_state_message 101
                     demo_listening) = Ok true
  ∧ invocations (PyM.output_of r) = []
  ∧ GossipProtocol.message_cache (PyM.state_of r)
    !! GossipMessage.message_id demo_state_message = Some 101
  ∧ invocations
      (PyM.output_of
         (@GossipProtocol.deliver demo_runtime demo_state_message ("10.0.0.2", 9001) 102
            (fun _ => O) (PyM.state_of r))) = [].
Proof. vm_compute. done. Qed.

Lemma duplicate_message_processed_once_witness :
  let message := @GossipMessage.new demo_runtime "p1" "agent_active" [] (Some 100) 3 100 in
  let r := @GossipProtocol.deliver demo_runtime message ("10.0.0.2", 9001) 101
             (fun _ => O) demo_listening in
  invocations (PyM.output_of r) = [(External 1, message)]
  ∧ GossipProtocol.message_cache (PyM.state_of r) !! GossipMessage.message_id message
    = Some 101
  ∧ @GossipProtocol.deliver demo_runtime message ("10.0.0.2", 9001) 102
      (fun _ => O) (PyM.state_of r)
    = (PyM.state_of r, [], Ok tt).
Proof.
  intros message r.
  destruct (proj1 (@duplicate_message_processed_once demo_runtime) demo_listening message
              ("10.0.0.2", 9001) 101 (fun _ => O)) as (Hc & Hdup & Hinv & _).
  { vm_compute. reflexivity. }
  split; [|split; [exact Hc | by apply Hdup]].
  fold r in Hinv. rewrite Hinv. vm_compute. reflexivity.
Defined.

Lemma dead_peer_stays_dead_witness :
  GossipProtocol.is_dead (@GossipProtocol.run demo_runtime demo_dead demo_events) "p3"
  ∨ exists evs1 ev evs2,
      demo_events = evs1 ++ ev :: evs2
      ∧ GossipProtocol.is_dead (@GossipProtocol.run demo_runtime demo_dead evs1) "p3"
      ∧ (GossipProtocol.absent
           (fst (@GossipProtocol.step demo_runtime
                   (@GossipProtocol.run demo_runtime demo_dead evs1) ev)) "p3"
         ∨ @GossipProtocol.revives demo_runtime
             (@GossipProtocol.run demo_runtime demo_dead evs1) ev "p3").
Proof.
  apply (@dead_peer_stays_dead demo_runtime demo_dead demo_events "p3").
  vm_compute. reflexivity.
Defined.

(** ** Methods that leave a part of the state alone *)

Section Unchanged.
Context {S E B : Type} (f : S -> B).

Local Abbreviation unchanged := (@unchanged S E B _ f).
Local Abbreviation keeps := (@keeps S E _).

Lemma unchanged_ret {A : Type} (a : A) : unchanged (@PyM.ret S E A a).
Proof. done. Qed.

Lemma unchanged_bind {A C : Type} (m : PyM.M S E A) (k : A -> PyM.M S E C) :
  unchanged m -> (forall a, unchanged (k a)) -> unchanged (PyM.bind m k).
Proof.
  intros Hm Hk s. specialize (Hm s). unfold PyM.bind, PyM.state_of in *.
  destruct (m s) as [[s1 o1] [a|e]]; simpl in *; [|done].
  pose proof (Hk a s1) as Hk'. unfold PyM.state_of in Hk'.
  destruct (k a s1) as [[s2 o2] r]. simpl in *. by rewrite Hk'.
Qed.

Lemma unchanged_lift {A : Type} (r : res A) : unchanged (@PyM.lift S E A r).
Proof. done. Qed.

Lemma unchanged_get : unchanged (@PyM.get S E).
Proof. done. Qed.

Lemma unchanged_emit (e : E) : unchanged (@PyM.emit S E e).
Proof. done. Qed.

Lemma unchanged_try (m : PyM.M S E unit) : unchanged m -> unchanged (PyM.try_ m).
Proof.
  intros Hm s. specialize (Hm s). unfold PyM.try_, PyM.state_of in *.
  by destruct (m s) as [[s1 o1] r].
Qed.

Lemma unchanged_for_each {A : Type} (l : list A) (k : A -> PyM.M S E unit) :
  (forall x, unchanged (k x)) -> unchanged (PyM.for_each l k).
Proof.
  intros Hk. induction l as [|x l IH]; simpl; [done|].
  apply unchanged_bind; [apply Hk | by intros _].
Qed.

Lemma unchanged_keeps {A : Type} (P : B -> Prop) (m : PyM.M S E A) :
  unchanged m -> keeps (fun s => P (f s)) m.
Proof.
  intros Hm s Hs. specialize (Hm s). unfold PyM.state_of in Hm.
  destruct (m s) as [[s' o] [a|e]]; simpl in Hm; by rewrite Hm.
Qed.

End Unchanged.

(** ** AgentPresenceService: the two tables of agents *)

Ltac presence_step :=
  match goal with
  | |- unchanged _ (PyM.bind _ _) => apply unchanged_bind; [|intros ?]
  | |- unchanged _ (PyM.ret _) => apply unchanged_ret
  | |- unchanged _ (PyM.lift _) => apply unchanged_lift
  | |- unchanged _ PyM.get => apply unchanged_get
  | |- unchanged _ (PyM.emit _) => apply unchanged_emit
  | |- unchanged _ (PyM.try_ _) => apply unchanged_try
  | |- unchanged _ (PyM.for_each _ _) => apply unchanged_for_each; intros ?
  | |- unchanged _ (if ?b then _ else _) => destruct b
  | |- unchanged _ (match ?x with _ => _ end) => destruct x
  end.

Lemma unchanged_in_gossip {A : Type} (m : GossipProtocol.M A) (g : GossipProtocol.t) :
  unchanged agents_of (AgentPresenceService.in_gossip m g).
Proof.
  intros s. unfold AgentPresenceService.in_gossip, PyM.state_of.
  by destruct (m g) as [[g' out] r].
Qed.

Lemma unchanged_broadcast (message : GossipMessage.t) :
  unchanged agents_of (AgentPresenceService.broadcast message).
Proof.
  unfold AgentPresenceService.broadcast.
  repeat first [apply unchanged_in_gossip | presence_step].
Qed.

Lemma unchanged_propagate_agent_active `{PyRuntime} (presence : AgentPresence.t) (now : Z) :
  unchanged agents_of (AgentPresenceService._propagate_agent_active presence now).
Proof.
  unfold AgentPresenceService._propagate_agent_active.
  repeat first [apply unchanged_broadcast | presence_step].
Qed.

Lemma unchanged_propagate_agent_inactive `{PyRuntime} (presence : AgentPresence.t) (now : Z) :
  unchanged agents_of (AgentPresenceService._propagate_agent_inactive presence now).
Proof.
  unfold AgentPresenceService._propagate_agent_inactive.
  repeat first [apply unchanged_broadcast | presence_step].
Qed.

Lemma unchanged_propagate_agent_query `{PyRuntime} (agent_id : string) (now : Z) :
  unchanged agents_of (AgentPresenceService._propagate_agent_query agent_id now).
Proof.
  unfold AgentPresenceService._propagate_agent_query.
  repeat first [apply unchanged_broadcast | presence_step].
Qed.

Lemma unchanged_send_agent_info `{PyRuntime} (presence : AgentPresence.t) (target : json)
    (now : Z) :
  unchanged agents_of (AgentPresenceService._send_agent_info presence target now).
Proof.
  unfold AgentPresenceService._send_agent_info.
  repeat first [apply unchanged_in_gossip | presence_step].
Qed.

Lemma unchanged_handle_agent_query `{PyRuntime} (message : GossipMessage.t) (now : Z) :
  unchanged agents_of (AgentPresenceService._handle_agent_query message now).
Proof.
  unfold AgentPresenceService._handle_agent_query.
  repeat first [apply unchanged_send_agent_info | presence_step].
Qed.

Lemma unchanged_query_agent `{PyRuntime} (agent_id : string) (now : Z) :
  unchanged agents_of (AgentPresenceService.query_agent agent_id now).
Proof.
  unfold AgentPresenceService.query_agent.
  repeat first [apply unchanged_propagate_agent_query | presence_step].
Qed.

Lemma unchanged_register_callback (event_type : string) (callback : callable) :
  unchanged agents_of (AgentPresenceService.register_callback event_type callback).
Proof.
  intros s. unfold AgentPresenceService.register_callback, PyM.bind, PyM.get.
  by destruct (_ !! _).
Qed.

Lemma unchanged_start (bound : bool) : unchanged agents_of (AgentPresenceService.start bound).
Proof.
  intros s. unfold AgentPresenceService.start, PyM.bind, PyM.get.
  by destruct (AgentPresenceService.running s), bound.
Qed.

Lemma unchanged_stop : unchanged agents_of AgentPresenceService.stop.
Proof.
  intros s. unfold AgentPresenceService.stop, PyM.bind, PyM.get.
  by destruct (AgentPresenceService.running s).
Qed.

Lemma unchanged_add_peer (peer_id host : string) (port now : Z) :
  unchanged agents_of (AgentPresenceService.add_peer peer_id host port now).
Proof.
  unfold AgentPresenceService.add_peer.
  repeat first [apply unchanged_in_gossip | presence_step].
Qed.

Lemma presence_trigger_callbacks (event_type : string) (agent_id : json)
    (presence : AgentPresence.t) (s : AgentPresenceService.t) :
  AgentPresenceService._trigger_callbacks event_type agent_id presence s
  = (s, notifications event_type agent_id presence s, Ok tt).
Proof.
  unfold AgentPresenceService._trigger_callbacks, notifications, PyM.bind, PyM.get.
  destruct (_ !! _) as [cbs|]; simpl; [|done].
  by rewrite (for_each_emit
                (fun cb => AgentPresenceService.Notify event_type cb agent_id
                             (AgentPresence.to_dict presence))).
Qed.

(** What [merge_presence] does with the presence of an agent of another
    node whose id is hashable. *)
Lemma merge_presence_result (s : AgentPresenceService.t) (presence_data : json) (now : Z)
    (presence : AgentPresence.t) (key : pykey) :
  AgentPresence.from_dict presence_data now = Ok presence ->
  py_eq_str (AgentPresence.node_id presence) (AgentPresenceService.node_id s) = false ->
  py_hashable (AgentPresence.agent_id presence) = Ok key ->
  AgentPresenceService.merge_presence presence_data now s
  = match AgentPresenceService.remote_agents s !! key with
    | None =>
        (AgentPresenceService.set_remote_agents s
           (<[key := presence]> (AgentPresenceService.remote_agents s)),
         notifications "agent_discovered" (AgentPresence.agent_id presence) presence s,
         Ok tt)
    | Some existing_presence =>
        match py_gt (AgentPresence.last_updated presence)
                    (AgentPresence.last_updated existing_presence) with
        | Ok true =>
            (AgentPresenceService.set_remote_agents s
               (<[key := presence]> (AgentPresenceService.remote_agents s)),
             notifications "agent_updated" (AgentPresence.agent_id presence) presence s,
             Ok tt)
        | Ok false => (s, [], Ok tt)
        | Raise e => (s, [], Raise e)
        end
    end.
Proof.
  intros Hfrom Hnode Hkey.
  unfold AgentPresenceService.merge_presence, PyM.bind at 1, PyM.lift at 1.
  rewrite Hfrom. unfold PyM.bind at 1, PyM.get. rewrite Hnode.
  unfold PyM.bind at 1, PyM.lift at 1. rewrite Hkey.
  destruct (AgentPresenceService.remote_agents s !! key) as [existing|].
  - unfold PyM.bind at 1, PyM.lift at 1.
    destruct (py_gt _ _) as [[]|e]; try done.
    unfold PyM.bind, PyM.put. by rewrite presence_trigger_callbacks.
  - unfold PyM.bind, PyM.put. by rewrite presence_trigger_callbacks.
Qed.

(** [merge_presence] leaves the state as it is, or stores the presence
    of an agent of another node, under a key that is free or holds an
    older record. *)
Lemma merge_presence_cases (s : AgentPresenceService.t) (presence_data : json) (now : Z) :
  let s' := PyM.state_of (AgentPresenceService.merge_presence presence_data now s) in
  s' = s
  ∨ exists presence key,
      AgentPresence.from_dict presence_data now = Ok presence
      ∧ py_eq_str (AgentPresence.node_id presence) (AgentPresenceService.node_id s) = false
      ∧ py_hashable (AgentPresence.agent_id presence) = Ok key
      ∧ s' = AgentPresenceService.set_remote_agents s
               (<[key := presence]> (AgentPresenceService.remote_agents s))
      ∧ (AgentPresenceService.remote_agents s !! key = None
         ∨ exists existing_presence,
             AgentPresenceService.remote_agents s !! key = Some existing_presence
             ∧ py_gt (AgentPresence.last_updated presence)
                     (AgentPresence.last_updated existing_presence) = Ok true).
Proof.
  intros s'.
  destruct (AgentPresence.from_dict presence_data now) as [presence|e] eqn:Hfrom.
  2:{ left. subst s'. unfold AgentPresenceService.merge_presence, PyM.bind, PyM.lift.
      by rewrite Hfrom. }
  destruct (py_eq_str (AgentPresence.node_id presence) (AgentPresenceService.node_id s))
    eqn:Hnode.
  { left. subst s'. unfold AgentPresenceService.merge_presence, PyM.bind, PyM.lift, PyM.get.
    by rewrite Hfrom, Hnode. }
  destruct (py_hashable (AgentPresence.agent_id presence)) as [key|e] eqn:Hkey.
  2:{ left. subst s'. unfold AgentPresenceService.merge_presence, PyM.bind, PyM.lift, PyM.get.
      by rewrite Hfrom, Hnode, Hkey. }
  subst s'. rewrite (merge_presence_result s presence_data now presence key Hfrom Hnode Hkey).
  destruct (AgentPresenceService.remote_agents s !! key) as [existing|] eqn:Hold.
  - destruct (py_gt _ _) as [[]|e] eqn:Hgt; [|by left|by left].
    right. exists presence, key. repeat split; try done. right. by exists existing.
  - right. exists presence, key. repeat split; try done. by left.
Qed.

Lemma handle_agent_active_cases (s : AgentPresenceService.t) (message : GossipMessage.t)
    (now : Z) :
  AgentPresenceService._handle_agent_active message now s = (s, [], Ok tt)
  ∨ AgentPresenceService._handle_agent_active message now s
    = AgentPresenceService.merge_presence (AgentPresenceService.presence_data_of message) now s.
Proof.
  unfold AgentPresenceService._handle_agent_active.
  destruct (py_truthy _); [by right | by left].
Qed.

Lemma handle_agent_info_cases (s : AgentPresenceService.t) (message : GossipMessage.t)
    (now : Z) :
  AgentPresenceService._handle_agent_info message now s = (s, [], Ok tt)
  ∨ AgentPresenceService._handle_agent_info message now s
    = AgentPresenceService.merge_presence (AgentPresenceService.presence_data_of message) now s.
Proof.
  unfold AgentPresenceService._handle_agent_info, PyM.bind, PyM.get.
  destruct (negb _ || negb _).
  - by left.
  - right. by destruct (AgentPresenceService.merge_presence _ _ _) as [[s2 o2] r].
Qed.

Lemma or_false_state (body : AgentPresenceService.M bool) (s : AgentPresenceService.t) :
  PyM.state_of (AgentPresenceService.or_false body s) = PyM.state_of (body s).
Proof.
  unfold AgentPresenceService.or_false, PyM.state_of.
  by destruct (body s) as [[s1 o1] [b|e]].
Qed.

Lemma bind_put_state {S E A : Type} (s1 : S) (m : PyM.M S E A) (s : S) :
  PyM.state_of (PyM.bind (PyM.put s1) (fun _ => m) s) = PyM.state_of (m s1).
Proof. unfold PyM.bind, PyM.put, PyM.state_of. by destruct (m s1) as [[s2 o2] r]. Qed.

Lemma bind_ret_state {S E A B : Type} (m : PyM.M S E A) (b : B) (s : S) :
  PyM.state_of (PyM.bind m (fun _ => PyM.ret b) s) = PyM.state_of (m s).
Proof. unfold PyM.bind, PyM.ret, PyM.state_of. by destruct (m s) as [[s2 o2] [a|e]]. Qed.

Lemma bind_lift_state {S E A B : Type} (a : A) (k : A -> PyM.M S E B) (s : S) :
  PyM.state_of (PyM.bind (PyM.lift (Ok a)) k s) = PyM.state_of (k a s).
Proof. unfold PyM.bind, PyM.lift, PyM.state_of. by destruct (k a s) as [[s2 o2] r]. Qed.

Lemma bind_get_state {S E A : Type} (k : S -> PyM.M S E A) (s : S) :
  PyM.state_of (PyM.bind PyM.get k s) = PyM.state_of (k s s).
Proof. unfold PyM.bind, PyM.get, PyM.state_of. by destruct (k s s) as [[s2 o2] r]. Qed.

(** [_handle_agent_inactive] leaves the state as it is or removes one
    remote agent. *)
Lemma handle_agent_inactive_cases (s : AgentPresenceService.t) (message : GossipMessage.t) :
  let s' := PyM.state_of (AgentPresenceService._handle_agent_inactive message s) in
  s' = s
  ∨ exists key, s' = AgentPresenceService.set_remote_agents s
                       (delete key (AgentPresenceService.remote_agents s)).
Proof.
  intros s'. subst s'. unfold AgentPresenceService._handle_agent_inactive.
  destruct (negb _ || negb _); [by left|].
  destruct (py_hashable _) as [key|e]; [|by left].
  rewrite bind_lift_state, bind_get_state.
  destruct (AgentPresenceService.remote_agents s !! key) as [presence|]; [|by left].
  destruct (py_eq _ _); [|by left].
  right. exists key. rewrite bind_put_state. by rewrite presence_trigger_callbacks.
Qed.

(** The methods on local agents change the table of local agents at the
    key [agent_id] only, to a presence of this node for that id. *)
Lemma register_agent_agents `{PyRuntime} (s : AgentPresenceService.t) (agent_id : string)
    (capabilities : json) (now : Z) :
  agents_of (PyM.state_of (AgentPresenceService.register_agent agent_id capabilities now s))
  = if AgentPresenceService.running s
    then (AgentPresenceService.node_id s,
          <[KStr agent_id :=
              AgentPresence.new (JStr agent_id) (JStr (AgentPresenceService.node_id s))
                capabilities JNull now]> (AgentPresenceService.local_agents s),
          AgentPresenceService.remote_agents s)
    else agents_of s.
Proof.
  unfold AgentPresenceService.register_agent. rewrite bind_get_state.
  destruct (AgentPresenceService.running s); [|done]. simpl.
  rewrite or_false_state, bind_put_state, bind_ret_state.
  by rewrite unchanged_propagate_agent_active.
Qed.

Lemma unregister_agent_agents `{PyRuntime} (s : AgentPresenceService.t) (agent_id : string)
    (now : Z) :
  agents_of (PyM.state_of (AgentPresenceService.unregister_agent agent_id now s))
  = if AgentPresenceService.running s
    then (AgentPresenceService.node_id s,
          delete (KStr agent_id) (AgentPresenceService.local_agents s),
          AgentPresenceService.remote_agents s)
    else agents_of s.
Proof.
  unfold AgentPresenceService.unregister_agent. rewrite bind_get_state.
  destruct (AgentPresenceService.running s); [|done]. simpl. rewrite or_false_state.
  destruct (AgentPresenceService.local_agents s !! KStr agent_id) as [presence|] eqn:Hl.
  - rewrite bind_put_state, bind_ret_state.
    by rewrite unchanged_propagate_agent_inactive.
  - unfold agents_of. simpl. by rewrite delete_id.
Qed.

Lemma update_agent_capabilities_agents `{PyRuntime} (s : AgentPresenceService.t)
    (agent_id : string) (capabilities : json) (now : Z) :
  agents_of (PyM.state_of
               (AgentPresenceService.update_agent_capabilities agent_id capabilities now s))
  = match AgentPresenceService.running s,
          AgentPresenceService.local_agents s !! KStr agent_id with
    | true, Some presence =>
        (AgentPresenceService.node_id s,
         <[KStr agent_id :=
             AgentPresence.Build (AgentPresence.agent_id presence)
               (AgentPresence.node_id presence) capabilities (JNum now)
               (AgentPresence.status presence)]> (AgentPresenceService.local_agents s),
         AgentPresenceService.remote_agents s)
    | _, _ => agents_of s
    end.
Proof.
  unfold AgentPresenceService.update_agent_capabilities. rewrite bind_get_state.
  destruct (AgentPresenceService.running s); [|done]. simpl. rewrite or_false_state.
  destruct (AgentPresenceService.local_agents s !! KStr agent_id) as [presence|] eqn:Hl;
    [|done].
  rewrite bind_put_state, bind_ret_state.
  by rewrite unchanged_propagate_agent_active.
Qed.

(** ** AgentPresenceService: whose agents the two tables hold *)

Lemma keeps_of_state {S E A : Type} (P : S -> Prop) (m : PyM.M S E A) :
  (forall s, P s -> P (PyM.state_of (m s))) -> keeps P m.
Proof.
  intros Hm s Hs. specialize (Hm s Hs). unfold PyM.state_of in Hm.
  by destruct (m s) as [[s' o] [a|e]].
Qed.

Lemma remote_monotone_refl (s : AgentPresenceService.t) : remote_monotone s s.
Proof. intros key old Hold. exists old. split; [done | by left]. Qed.

Lemma keeps_merge_presence (nid : string) (presence_data : json) (now : Z) :
  keeps (presence_inv nid) (AgentPresenceService.merge_presence presence_data now).
Proof.
  apply keeps_of_state. intros s Hs.
  destruct (merge_presence_cases s presence_data now)
    as [-> | (presence & key & _ & Hnode & Hkey & -> & _)]; [done|].
  destruct Hs as (Hid & Hl & Hr). simpl in Hid. split; [done|]. split; [done|].
  apply map_Forall_insert_2; [|done]. split; [by rewrite <- Hid | done].
Qed.

Lemma monotone_merge_presence (s : AgentPresenceService.t) (presence_data : json) (now : Z) :
  remote_monotone s (PyM.state_of (AgentPresenceService.merge_presence presence_data now s)).
Proof.
  destruct (merge_presence_cases s presence_data now)
    as [-> | (presence & key & _ & _ & _ & -> & Hnew)]; [apply remote_monotone_refl|].
  intros key' old Hold. simpl. destruct (decide (key = key')) as [<-|Hne].
  - rewrite lookup_insert_eq. exists presence. split; [done|].
    destruct Hnew as [Hnone | (existing & Hex & Hgt)]; [congruence|].
    right. congruence.
  - rewrite lookup_insert_ne by done. exists old. split; [done | by left].
Qed.

Lemma keeps_handle_agent_active (nid : string) (message : GossipMessage.t) (now : Z) :
  keeps (presence_inv nid) (AgentPresenceService._handle_agent_active message now).
Proof.
  unfold AgentPresenceService._handle_agent_active.
  destruct (negb _); [apply keeps_ret | apply keeps_merge_presence].
Qed.

Lemma keeps_handle_agent_info (nid : string) (message : GossipMessage.t) (now : Z) :
  keeps (presence_inv nid) (AgentPresenceService._handle_agent_info message now).
Proof.
  unfold AgentPresenceService._handle_agent_info.
  apply keeps_bind; [apply keeps_get|]. intros self.
  destruct (negb _ || negb _); [apply keeps_ret | apply keeps_merge_presence].
Qed.

Lemma keeps_handle_agent_inactive (nid : string) (message : GossipMessage.t) :
  keeps (presence_inv nid) (AgentPresenceService._handle_agent_inactive message).
Proof.
  apply keeps_of_state. intros s Hs.
  destruct (handle_agent_inactive_cases s message) as [-> | [key ->]]; [done|].
  destruct Hs as (Hid & Hl & Hr). split; [done|]. split; [done|].
  by apply map_Forall_delete.
Qed.

Lemma keeps_on_effect `{PyRuntime} (nid : string) (now : Z) (e : GossipProtocol.effect) :
  keeps (presence_inv nid) (AgentPresenceService.on_effect now e).
Proof.
  destruct e as [message addr | [] message]; simpl;
    try apply keeps_emit; apply keeps_try.
  - apply keeps_handle_agent_active.
  - apply keeps_handle_agent_inactive.
  - apply (unchanged_keeps agents_of (agents_ok nid)), unchanged_handle_agent_query.
  - apply keeps_handle_agent_info.
Qed.

Lemma keeps_network `{PyRuntime} (nid : string) (ev : GossipProtocol.event) :
  keeps (presence_inv nid) (AgentPresenceService.network ev).
Proof.
  unfold AgentPresenceService.network. apply triple_get_bind. intros s0 Hs0.
  destruct (AgentPresenceService.gossip s0) as [g|].
  2:{ intros s ->. exact Hs0. }
  destruct (GossipProtocol.step g ev) as [g' out].
  apply (triple_bind _ _ _ (fun _ => presence_inv nid)).
  - intros s _. exact Hs0.
  - intros _. apply keeps_for_each. intros e _. apply keeps_on_effect.
Qed.

(** Every step of the service keeps the two tables well formed. *)
Lemma step_presence_inv `{PyRuntime} (nid : string) (s : AgentPresenceService.t)
    (ev : AgentPresenceService.event) :
  presence_inv nid s -> presence_inv nid (fst (AgentPresenceService.step s ev)).
Proof.
  intros Hs.
  assert (forall (A : Type) (m : AgentPresenceService.M A),
            unchanged agents_of m -> presence_inv nid (fst (fst (m s)))) as Hun.
  { intros A m Hm. unfold presence_inv.
    change (fst (fst (m s))) with (PyM.state_of (m s)). by rewrite Hm. }
  destruct ev as [bound | | agent_id caps now | agent_id now | agent_id caps now
                 | agent_id now | ty cb | peer_id host port now | gev]; simpl.
  - apply Hun, unchanged_start.
  - apply Hun, unchanged_stop.
  - unfold presence_inv.
    change (fst (fst (AgentPresenceService.register_agent agent_id caps now s)))
      with (PyM.state_of (AgentPresenceService.register_agent agent_id caps now s)).
    rewrite register_agent_agents. destruct (AgentPresenceService.running s); [|done].
    destruct Hs as (Hid & Hl & Hr). simpl in Hid. split; [done|]. split; [|done]. simpl.
    apply map_Forall_insert_2; [|done].
    split; [by rewrite <- Hid | by exists agent_id].
  - unfold presence_inv.
    change (fst (fst (AgentPresenceService.unregister_agent agent_id now s)))
      with (PyM.state_of (AgentPresenceService.unregister_agent agent_id now s)).
    rewrite unregister_agent_agents. destruct (AgentPresenceService.running s); [|done].
    destruct Hs as (Hid & Hl & Hr). split; [done|]. split; [|done]. simpl.
    by apply map_Forall_delete.
  - unfold presence_inv.
    change (fst (fst (AgentPresenceService.update_agent_capabilities agent_id caps now s)))
      with (PyM.state_of
              (AgentPresenceService.update_agent_capabilities agent_id caps now s)).
    rewrite update_agent_capabilities_agents.
    destruct (AgentPresenceService.running s); [|done].
    destruct (AgentPresenceService.local_agents s !! KStr agent_id) as [presence|] eqn:Hp;
      [|done].
    destruct Hs as (Hid & Hl & Hr). split; [done|]. split; [|done]. simpl.
    apply map_Forall_insert_2; [|done]. exact (Hl _ _ Hp).
  - apply Hun, unchanged_query_agent.
  - apply Hun, unchanged_register_callback.
  - apply Hun, unchanged_add_peer.
  - exact (keeps_state _ _ s (keeps_network nid gev) Hs).
Qed.

Lemma presence_run_snoc `{PyRuntime} (s : AgentPresenceService.t)
    (evs : list AgentPresenceService.event) (ev : AgentPresenceService.event) :
  AgentPresenceService.run s (evs ++ [ev])
  = fst (AgentPresenceService.step (AgentPresenceService.run s evs) ev).
Proof. unfold AgentPresenceService.run. by rewrite fold_left_app. Qed.

Lemma reachable_presence_inv `{PyRuntime} (s : AgentPresenceService.t) :
  AgentPresenceService.reachable s -> presence_inv (AgentPresenceService.node_id s) s.
Proof.
  intros (nid & host & port & evs & ->).
  assert (presence_inv nid (AgentPresenceService.run (AgentPresenceService.init nid host port) evs))
    as Hinv.
  { induction evs as [|ev evs IH] using rev_ind.
    - split; [done|]. split; apply map_Forall_empty.
    - rewrite presence_run_snoc. by apply step_presence_inv. }
  pose proof (proj1 Hinv) as Hid. simpl in Hid. by rewrite Hid.
Qed.

(** ** GossipProtocol: what a step calls *)

Lemma calls_of_send (g : GossipProtocol.t) (m : GossipMessage.t)
    (out : list GossipProtocol.effect) :
  Forall is_send out -> Forall (calls_of g m) out.
Proof. intros Hout. eapply Forall_impl; [exact Hout|]. by intros [] ?. Qed.

Lemma should_process_cases (s : GossipProtocol.t) (message : GossipMessage.t) (now : Z) :
  GossipProtocol._should_process_message message now s = (s, [], Ok false)
  ∨ PyM.result_of (GossipProtocol._should_process_message message now s) = Ok true.
Proof.
  unfold GossipProtocol._should_process_message, PyM.bind, PyM.get, PyM.put, PyM.ret,
    PyM.result_of. simpl.
  destruct (String.eqb _ _); [by left|].
  destruct (_ !! _); [by left|].
  destruct (_ <=? 0); [by left | by right].
Qed.

Lemma emits_cleanup_tick `{PyRuntime} (now : Z) :
  emits is_send (GossipProtocol.cleanup_tick now).
Proof.
  unfold GossipProtocol.cleanup_tick, GossipProtocol._check_peers, GossipProtocol.check_peer,
    GossipProtocol._clean_message_cache.
  gossip_unfold. repeat gossip_step.
Qed.

Lemma emits_gossip_tick `{PyRuntime} (now : Z) (rnd : nat -> nat) :
  emits is_send (GossipProtocol.gossip_tick now rnd).
Proof.
  unfold GossipProtocol.gossip_tick, GossipProtocol._gossip.
  gossip_unfold. repeat gossip_step.
Qed.

(** The callbacks a step calls are callbacks registered for the type of
    one message, called with that message. *)
Lemma step_output_calls `{PyRuntime} (g : GossipProtocol.t) (ev : GossipProtocol.event) :
  exists m, Forall (calls_of g m) (snd (GossipProtocol.step g ev)).
Proof.
  set (m0 := GossipMessage.decode None 0).
  destruct ev as [datagram addr now rnd | id ip port state now | now | now rnd | ty cb | ];
    simpl.
  - unfold GossipProtocol.datagram_received.
    set (message := GossipMessage.decode datagram now).
    destruct (should_process_cases g message now) as [Hdrop | Hacc].
    { exists m0. unfold GossipProtocol.deliver, PyM.try_, PyM.bind. rewrite Hdrop.
      simpl. constructor. }
    destruct (deliver_accepted g message addr now rnd Hacc) as (Hsends & _ & _ & Hr).
    set (pre := PyM.bind _ _ _) in Hsends, Hr. rewrite Hr. clear Hr.
    destruct (PyM.result_of pre) as [data'|e]; simpl.
    + exists (GossipMessage.with_data message data').
      apply Forall_app. split; [by apply calls_of_send|].
      apply Forall_app. split; [|apply calls_of_send, emits_propagate_message].
      apply Forall_forall. intros e He. apply list_elem_of_fmap_1 in He as (cb & -> & Hcb).
      split; [done|]. by destruct message.
    + exists m0. by apply calls_of_send.
  - exists m0. apply calls_of_send.
    pose proof (no_effects (PyM.try_ (GossipProtocol._update_peer id ip port state now)) g)
      as Hno.
    unfold PyM.output_of in Hno. rewrite Hno; [constructor|].
    apply emits_try, emits_update_peer.
  - exists m0. apply calls_of_send. apply (emits_cleanup_tick now g).
  - exists m0. apply calls_of_send. apply (emits_gossip_tick now rnd g).
  - exists m0. constructor.
  - exists m0. constructor.
Qed.

(** No step changes the registered callbacks, except [register_callback]. *)
Lemma step_callbacks `{PyRuntime} (g : GossipProtocol.t) (ev : GossipProtocol.event) :
  GossipProtocol.callbacks (fst (GossipProtocol.step g ev))
  = match ev with
    | GossipProtocol.RegisterCallback ty cb =>
        <[ty := default [] (GossipProtocol.callbacks g !! ty) ++ [cb]]>
          (GossipProtocol.callbacks g)
    | _ => GossipProtocol.callbacks g
    end.
Proof.
  set (P := fun g' => GossipProtocol.callbacks g' = GossipProtocol.callbacks g).
  assert (peers_frame P) as Hframe by (by intros ? ?).
  assert (forall (A : Type) (m : GossipProtocol.M A),
            keeps P m -> GossipProtocol.callbacks (fst (fst (m g)))
                         = GossipProtocol.callbacks g) as Hkeep.
  { intros A m Hm. exact (keeps_state P m g Hm eq_refl). }
  destruct ev as [datagram addr now rnd | id ip port state now | now | now rnd | ty cb | ];
    simpl.
  - apply Hkeep. unfold GossipProtocol.datagram_received, GossipProtocol.deliver.
    apply keeps_try, keeps_bind.
    + apply keeps_of_state. intros s Hs. unfold P in *.
      destruct (should_process_cases s (GossipMessage.decode datagram now) now) as [-> | Hacc];
        [done|].
      by rewrite (proj1 (should_process_accepted s _ now Hacc)).
    + intros [|]; [by apply keeps_process_message_frame | apply keeps_ret].
  - apply Hkeep. by apply keeps_try, keeps_update_peer_frame.
  - apply Hkeep. unfold GossipProtocol.cleanup_tick.
    apply keeps_try, keeps_bind; [by apply keeps_check_peers_frame|]. intros _.
    apply keeps_of_state. by intros s Hs.
  - apply Hkeep. apply keeps_try. unfold GossipProtocol._gossip.
    apply readonly_keeps, readonly_bind; [apply readonly_get|]. intros self.
    apply readonly_bind; [apply readonly_lift|]. intros live.
    destruct (sample _ _ _); [apply readonly_ret | apply readonly_send_to_peer].
  - done.
  - done.
Qed.

(** ** AgentPresenceService: the records held for remote agents *)

Lemma callable_eq_dec (a b : callable) : {a = b} + {a <> b}.
Proof. decide equality. apply Nat.eq_dec. Defined.

Lemma callable_registered (cb : callable) (cbs : list callable) : cb ∈ cbs ∨ cb ∉ cbs.
Proof.
  induction cbs as [|x cbs IH]; [right; apply not_elem_of_nil|].
  destruct (callable_eq_dec cb x) as [->|Hne]; [left; left|].
  destruct IH as [Hin|Hout]; [left; by right|].
  right. intros Hin. apply elem_of_cons in Hin as [?|?]; done.
Qed.

Lemma remote_monotone_kept (s s' : AgentPresenceService.t) :
  remote_monotone s s' -> kept_not_older s s'.
Proof.
  intros Hm key old new Hold Hnew. destruct (Hm key old Hold) as (new' & Hnew' & Hno).
  congruence.
Qed.

Lemma merged_kept (s s' : AgentPresenceService.t) (presence_data : json) (now : Z) :
  merged (AgentPresenceService.remote_agents s) (AgentPresenceService.node_id s)
    presence_data now (AgentPresenceService.remote_agents s') ->
  remote_monotone s s'.
Proof.
  intros [Heq | (presence & key & _ & _ & Heq & Hnew)] key' old Hold; rewrite Heq.
  - exists old. split; [done | by left].
  - destruct (decide (key = key')) as [<-|Hne].
    + rewrite lookup_insert_eq. exists presence. split; [done|].
      destruct Hnew as [Hnone | (existing & Hex & Hgt)]; [congruence|].
      right. congruence.
    + rewrite lookup_insert_ne by done. exists old. split; [done | by left].
Qed.

Lemma subseteq_kept (s s' : AgentPresenceService.t) :
  AgentPresenceService.remote_agents s' ⊆ AgentPresenceService.remote_agents s ->
  kept_not_older s s'.
Proof.
  intros Hsub key old new Hold Hnew. left.
  pose proof (lookup_weaken _ _ _ _ Hnew Hsub) as Hnew'. congruence.
Qed.

(** Merging the same presence again changes nothing more. *)
Lemma keeps_merged_merge (remote0 : gmap pykey AgentPresence.t) (nid : string)
    (presence_data : json) (now : Z) :
  keeps (fun s => AgentPresenceService.node_id s = nid
                  ∧ merged remote0 nid presence_data now
                      (AgentPresenceService.remote_agents s))
        (AgentPresenceService.merge_presence presence_data now).
Proof.
  apply keeps_of_state. intros s [Hid Hm].
  destruct (merge_presence_cases s presence_data now)
    as [-> | (presence & key & Hfrom & _ & Hkey & -> & Hnew)]; [done|].
  split; [done|]. simpl.
  destruct Hm as [Heq | (presence' & key' & Hfrom' & Hkey' & Heq & Hnew')].
  - right. exists presence, key. rewrite Heq in *. by repeat split.
  - assert (presence' = presence) as -> by congruence.
    assert (key' = key) as -> by congruence.
    right. exists presence, key. rewrite Heq, insert_insert_eq. by repeat split.
Qed.

Lemma keeps_agents_handle_agent_query `{PyRuntime}
    (P : string * gmap pykey AgentPresence.t * gmap pykey AgentPresence.t -> Prop)
    (message : GossipMessage.t) (now : Z) :
  keeps (fun s => P (agents_of s)) (AgentPresenceService._handle_agent_query message now).
Proof. apply (unchanged_keeps agents_of P), unchanged_handle_agent_query. Qed.

(** The effects of a step on a message whose callbacks do not include
    [_handle_agent_inactive]: its presence is merged, or nothing is. *)
Lemma keeps_merged_on_effect `{PyRuntime} (remote0 : gmap pykey AgentPresence.t)
    (nid : string) (g : GossipProtocol.t) (m : GossipMessage.t) (now : Z)
    (e : GossipProtocol.effect) :
  calls_of g m e ->
  HandleAgentInactive
    ∉ default [] (GossipProtocol.callbacks g !! GossipMessage.message_type m) ->
  keeps (fun s => AgentPresenceService.node_id s = nid
                  ∧ merged remote0 nid (AgentPresenceService.presence_data_of m) now
                      (AgentPresenceService.remote_agents s))
        (AgentPresenceService.on_effect now e).
Proof.
  intros Hcall Hno.
  destruct e as [message addr | [] message]; simpl in *;
    try apply keeps_emit; destruct Hcall as [-> Hcb]; apply keeps_try.
  - unfold AgentPresenceService._handle_agent_active.
    destruct (negb _); [apply keeps_ret | apply keeps_merged_merge].
  - done.
  - apply (keeps_agents_handle_agent_query
             (fun a => a.1.1 = nid
                       ∧ merged remote0 nid (AgentPresenceService.presence_data_of m) now a.2)).
  - unfold AgentPresenceService._handle_agent_info.
    apply keeps_bind; [apply keeps_get|]. intros self.
    destruct (negb _ || negb _); [apply keeps_ret | apply keeps_merged_merge].
Qed.

(** The effects of a step on a message whose callbacks include neither
    handler that stores a presence: entries are removed, or nothing is. *)
Lemma keeps_subseteq_on_effect `{PyRuntime} (remote0 : gmap pykey AgentPresence.t)
    (g : GossipProtocol.t) (m : GossipMessage.t) (now : Z) (e : GossipProtocol.effect) :
  calls_of g m e ->
  HandleAgentActive
    ∉ default [] (GossipProtocol.callbacks g !! GossipMessage.message_type m) ->
  HandleAgentInfo
    ∉ default [] (GossipProtocol.callbacks g !! GossipMessage.message_type m) ->
  keeps (fun s => AgentPresenceService.remote_agents s ⊆ remote0)
        (AgentPresenceService.on_effect now e).
Proof.
  intros Hcall Hna Hni.
  destruct e as [message addr | [] message]; simpl in *;
    try apply keeps_emit; destruct Hcall as [-> Hcb]; apply keeps_try.
  - done.
  - apply keeps_of_state. intros s Hs.
    destruct (handle_agent_inactive_cases s m) as [-> | [key ->]]; [done|].
    simpl. etrans; [apply delete_subseteq | exact Hs].
  - apply (keeps_agents_handle_agent_query (fun a => a.2 ⊆ remote0)).
  - done.
Qed.

(** What a step of the gossip protocol object does to the table of
    remote agents. *)
Lemma network_remote_agents `{PyRuntime} (s : AgentPresenceService.t)
    (ev : GossipProtocol.event) :
  handlers_apart s ->
  let s' := PyM.state_of (AgentPresenceService.network ev s) in
  (exists presence_data now,
     merged (AgentPresenceService.remote_agents s) (AgentPresenceService.node_id s)
       presence_data now (AgentPresenceService.remote_agents s'))
  ∨ AgentPresenceService.remote_agents s' ⊆ AgentPresenceService.remote_agents s.
Proof.
  intros Hapart s'. subst s'. unfold AgentPresenceService.network.
  rewrite bind_get_state.
  destruct (AgentPresenceService.gossip s) as [g|] eqn:Hg; [|by right].
  pose proof (step_output_calls g ev) as [m Hcalls].
  destruct (GossipProtocol.step g ev) as [g' out]. simpl in Hcalls.
  rewrite bind_put_state.
  set (s1 := AgentPresenceService.set_gossip s (Some g')).
  set (cbs := default [] (GossipProtocol.callbacks g !! GossipMessage.message_type m)) in *.
  destruct (callable_registered HandleAgentInactive cbs) as [Hin | Hout].
  - right.
    assert ((HandleAgentActive ∉ cbs) ∧ (HandleAgentInfo ∉ cbs)) as [Hna Hni].
    { subst cbs.
      destruct (GossipProtocol.callbacks g !! GossipMessage.message_type m) as [l|] eqn:Hl;
        simpl in *; [|by apply elem_of_nil in Hin].
      apply (Hapart (GossipProtocol.callbacks g)) with (GossipMessage.message_type m);
        [|done|done].
      unfold gossip_callbacks. by rewrite Hg. }
    apply (keeps_state
             (fun s2 => AgentPresenceService.remote_agents s2
                        ⊆ AgentPresenceService.remote_agents s)); [|done].
    apply keeps_for_each. intros e He.
    apply (keeps_subseteq_on_effect _ g m); [|done|done].
    by apply (proj1 (Forall_forall _ _) Hcalls).
  - left. exists (AgentPresenceService.presence_data_of m),
      (AgentPresenceService.event_time ev).
    apply (keeps_state
             (fun s2 => AgentPresenceService.node_id s2 = AgentPresenceService.node_id s
                        ∧ merged (AgentPresenceService.remote_agents s)
                            (AgentPresenceService.node_id s)
                            (AgentPresenceService.presence_data_of m)
                            (AgentPresenceService.event_time ev)
                            (AgentPresenceService.remote_agents s2))); [|by split; [|left]].
    apply keeps_for_each. intros e He.
    apply (keeps_merged_on_effect _ _ g m); [|done].
    by apply (proj1 (Forall_forall _ _) Hcalls).
Qed.

(** The steps other than those of the gossip protocol object leave the
    table of remote agents alone. *)
Lemma local_step_remote_agents `{PyRuntime} (s : AgentPresenceService.t)
    (ev : AgentPresenceService.event) :
  (forall network_event, ev ≠ AgentPresenceService.Network network_event) ->
  AgentPresenceService.remote_agents (fst (AgentPresenceService.step s ev))
  = AgentPresenceService.remote_agents s.
Proof.
  intros Hne.
  assert (forall (A : Type) (m : AgentPresenceService.M A),
            unchanged agents_of m ->
            AgentPresenceService.remote_agents (fst (fst (m s)))
            = AgentPresenceService.remote_agents s) as Hun.
  { intros A m Hm. specialize (Hm s). unfold agents_of, PyM.state_of in Hm.
    by injection Hm as _ _ ->. }
  assert (forall (A : Type) (m : AgentPresenceService.M A) a,
            agents_of (PyM.state_of (m s)) = a ->
            a.2 = AgentPresenceService.remote_agents s ->
            AgentPresenceService.remote_agents (fst (fst (m s)))
            = AgentPresenceService.remote_agents s) as Hloc.
  { intros A m a Hm <-. by rewrite <- Hm. }
  destruct ev as [bound | | agent_id caps now | agent_id now | agent_id caps now
                 | agent_id now | ty cb | peer_id host port now | gev]; simpl.
  - apply Hun, unchanged_start.
  - apply Hun, unchanged_stop.
  - eapply Hloc; [apply register_agent_agents|].
    by destruct (AgentPresenceService.running s).
  - eapply Hloc; [apply unregister_agent_agents|].
    by destruct (AgentPresenceService.running s).
  - eapply Hloc; [apply update_agent_capabilities_agents|].
    by destruct (AgentPresenceService.running s),
      (AgentPresenceService.local_agents s !! KStr agent_id).
  - apply Hun, unchanged_query_agent.
  - apply Hun, unchanged_register_callback.
  - apply Hun, unchanged_add_peer.
  - destruct (Hne gev eq_refl).
Qed.

(** A step removes remote agents, or keeps each of them with its record
    or a more recent one. *)
Lemma step_kept_not_older `{PyRuntime} (s : AgentPresenceService.t)
    (ev : AgentPresenceService.event) :
  handlers_apart s -> kept_not_older s (fst (AgentPresenceService.step s ev)).
Proof.
  intros Hapart.
  destruct ev as [bound | | agent_id caps now | agent_id now | agent_id caps now
                 | agent_id now | ty cb | peer_id host port now | gev];
    try (intros key old new Hold;
         rewrite local_step_remote_agents by (intros ?; discriminate);
         intros Hnew; left; congruence).
  simpl.
  destruct (network_remote_agents s gev Hapart) as [(presence_data & now & Hm) | Hsub].
  - exact (remote_monotone_kept _ _ (merged_kept _ _ _ _ Hm)).
  - exact (subseteq_kept _ _ Hsub).
Qed.

(** ** AgentPresenceService: the callbacks of its gossip protocol object *)

Lemma keeps_in_gossip_callbacks {A : Type} (m : GossipProtocol.M A) (g : GossipProtocol.t) :
  (forall g0, GossipProtocol.callbacks (PyM.state_of (m g0)) = GossipProtocol.callbacks g0) ->
  keeps (fun s => gossip_callbacks s = Some (GossipProtocol.callbacks g))
        (AgentPresenceService.in_gossip m g).
Proof.
  intros Hm s _. unfold AgentPresenceService.in_gossip.
  specialize (Hm g). unfold PyM.state_of in Hm.
  destruct (m g) as [[g' out] [a|e]]; unfold gossip_callbacks; simpl in *; by rewrite Hm.
Qed.

Lemma send_to_peer_callbacks (message : GossipMessage.t) (peer : json) (g : GossipProtocol.t) :
  GossipProtocol.callbacks (PyM.state_of (GossipProtocol.send_to_peer message peer g))
  = GossipProtocol.callbacks g.
Proof. by rewrite readonly_send_to_peer. Qed.

Lemma unchanged_callbacks_broadcast (message : GossipMessage.t) :
  unchanged gossip_callbacks (AgentPresenceService.broadcast message).
Proof.
  intros s. unfold AgentPresenceService.broadcast. rewrite bind_get_state.
  destruct (AgentPresenceService.gossip s) as [g|] eqn:Hg; [|done].
  assert (gossip_callbacks s = Some (GossipProtocol.callbacks g)) as Hs
    by (unfold gossip_callbacks; by rewrite Hg).
  rewrite Hs.
  apply (keeps_state (fun s' => gossip_callbacks s' = Some (GossipProtocol.callbacks g)));
    [|done].
  apply keeps_bind; [apply keeps_lift|]. intros live.
  apply keeps_for_each. intros peer _.
  apply keeps_in_gossip_callbacks. intros g0. apply send_to_peer_callbacks.
Qed.

Lemma unchanged_callbacks_propagate_agent_active `{PyRuntime} (presence : AgentPresence.t)
    (now : Z) :
  unchanged gossip_callbacks (AgentPresenceService._propagate_agent_active presence now).
Proof.
  unfold AgentPresenceService._propagate_agent_active.
  repeat first [apply unchanged_callbacks_broadcast | presence_step].
Qed.

Lemma unchanged_callbacks_propagate_agent_inactive `{PyRuntime} (presence : AgentPresence.t)
    (now : Z) :
  unchanged gossip_callbacks (AgentPresenceService._propagate_agent_inactive presence now).
Proof.
  unfold AgentPresenceService._propagate_agent_inactive.
  repeat first [apply unchanged_callbacks_broadcast | presence_step].
Qed.

Lemma unchanged_callbacks_propagate_agent_query `{PyRuntime} (agent_id : string) (now : Z) :
  unchanged gossip_callbacks (AgentPresenceService._propagate_agent_query agent_id now).
Proof.
  unfold AgentPresenceService._propagate_agent_query.
  repeat first [apply unchanged_callbacks_broadcast | presence_step].
Qed.

Lemma unchanged_callbacks_send_agent_info `{PyRuntime} (presence : AgentPresence.t)
    (target : json) (now : Z) :
  unchanged gossip_callbacks (AgentPresenceService._send_agent_info presence target now).
Proof.
  intros s. unfold AgentPresenceService._send_agent_info. rewrite bind_get_state.
  destruct (AgentPresenceService.gossip s) as [g|] eqn:Hg; [|done].
  destruct target; try done.
  destruct (dget _ _) as [peer_data|]; [|done].
  assert (gossip_callbacks s = Some (GossipProtocol.callbacks g)) as Hs
    by (unfold gossip_callbacks; by rewrite Hg).
  rewrite Hs.
  apply (keeps_state (fun s' => gossip_callbacks s' = Some (GossipProtocol.callbacks g)));
    [|done].
  apply keeps_in_gossip_callbacks. intros g0. apply send_to_peer_callbacks.
Qed.

Lemma unchanged_callbacks_handle_agent_query `{PyRuntime} (message : GossipMessage.t)
    (now : Z) :
  unchanged gossip_callbacks (AgentPresenceService._handle_agent_query message now).
Proof.
  unfold AgentPresenceService._handle_agent_query.
  repeat first [apply unchanged_callbacks_send_agent_info | presence_step].
Qed.

Lemma unchanged_callbacks_query_agent `{PyRuntime} (agent_id : string) (now : Z) :
  unchanged gossip_callbacks (AgentPresenceService.query_agent agent_id now).
Proof.
  unfold AgentPresenceService.query_agent.
  repeat first [apply unchanged_callbacks_propagate_agent_query | presence_step].
Qed.

Lemma unchanged_callbacks_add_peer (peer_id host : string) (port now : Z) :
  unchanged gossip_callbacks (AgentPresenceService.add_peer peer_id host port now).
Proof.
  intros s. unfold AgentPresenceService.add_peer. rewrite bind_get_state.
  destruct (AgentPresenceService.gossip s) as [g|] eqn:Hg; [|done].
  assert (gossip_callbacks s = Some (GossipProtocol.callbacks g)) as Hs
    by (unfold gossip_callbacks; by rewrite Hg).
  rewrite Hs.
  apply (keeps_state (fun s' => gossip_callbacks s' = Some (GossipProtocol.callbacks g)));
    [|done].
  apply keeps_in_gossip_callbacks. intros g0.
  apply (keeps_state (fun g' => GossipProtocol.callbacks g' = GossipProtocol.callbacks g0));
    [|done].
  apply keeps_update_peer_frame. by intros ? ?.
Qed.

Lemma unchanged_callbacks_merge_presence (presence_data : json) (now : Z) :
  unchanged gossip_callbacks (AgentPresenceService.merge_presence presence_data now).
Proof.
  intros s.
  by destruct (merge_presence_cases s presence_data now)
    as [-> | (presence & key & _ & _ & _ & -> & _)].
Qed.

Lemma unchanged_callbacks_on_effect `{PyRuntime} (now : Z) (e : GossipProtocol.effect) :
  unchanged gossip_callbacks (AgentPresenceService.on_effect now e).
Proof.
  destruct e as [message addr | [] message]; simpl;
    try apply unchanged_emit; apply unchanged_try.
  - unfold AgentPresenceService._handle_agent_active.
    destruct (negb _); [apply unchanged_ret | apply unchanged_callbacks_merge_presence].
  - intros s. by destruct (handle_agent_inactive_cases s message) as [-> | [key ->]].
  - apply unchanged_callbacks_handle_agent_query.
  - unfold AgentPresenceService._handle_agent_info.
    apply unchanged_bind; [apply unchanged_get|]. intros self.
    destruct (negb _ || negb _); [apply unchanged_ret | apply unchanged_callbacks_merge_presence].
Qed.

(** Registering a callable keeps the handlers apart when it is an
    external one or [_handle_agent_query], or the first of its type. *)
Lemma callbacks_apart_register (registered : gmap string (list callable))
    (ty : string) (cb : callable) :
  callbacks_apart registered ->
  (exists n, cb = External n) ∨ cb = HandleAgentQuery ∨ registered !! ty = None ->
  callbacks_apart (<[ty := default [] (registered !! ty) ++ [cb]]> registered).
Proof.
  intros Hreg Hcb ty' cbs Hl Hin.
  apply lookup_insert_Some in Hl as [[<- <-] | [Hne Hl]]; [|by apply (Hreg ty')].
  destruct (registered !! ty) as [l|] eqn:Hty; simpl in *.
  - assert (cb ≠ HandleAgentInactive ∧ cb ≠ HandleAgentActive ∧ cb ≠ HandleAgentInfo)
      as (Hc1 & Hc2 & Hc3).
    { destruct Hcb as [[n ->] | [-> | ?]]; [by repeat split | by repeat split | done]. }
    apply elem_of_app in Hin as [Hin | Hin]; [|apply list_elem_of_singleton in Hin; done].
    destruct (Hreg ty l Hty Hin) as [Hna Hni].
    split; intros Hx; apply elem_of_app in Hx as [Hx | Hx]; try done;
      apply list_elem_of_singleton in Hx; done.
  - apply list_elem_of_singleton in Hin as <-.
    split; intros Hx; apply list_elem_of_singleton in Hx; done.
Qed.

(** The handlers are apart on the protocol object that [start] creates. *)
Lemma start_handlers_apart (bound : bool) (s : AgentPresenceService.t) :
  handlers_apart s ->
  handlers_apart (PyM.state_of (AgentPresenceService.start bound s)).
Proof.
  intros Hs. unfold AgentPresenceService.start. rewrite bind_get_state.
  destruct (AgentPresenceService.running s); [done|].
  destruct bound.
  - intros registered [= <-].
    apply callbacks_apart_register; [|right; right; reflexivity].
    apply callbacks_apart_register; [|right; right; reflexivity].
    apply callbacks_apart_register; [|right; right; reflexivity].
    apply callbacks_apart_register; [|right; right; reflexivity].
    intros ty cbs Hl. by rewrite lookup_empty in Hl.
  - intros registered [= <-]. intros ty cbs Hl. by rewrite lookup_empty in Hl.
Qed.

Lemma network_gossip_callbacks `{PyRuntime} (s : AgentPresenceService.t)
    (ev : GossipProtocol.event) :
  gossip_callbacks (PyM.state_of (AgentPresenceService.network ev s))
  = match ev with
    | GossipProtocol.RegisterCallback ty cb =>
        (fun registered => <[ty := default [] (registered !! ty) ++ [cb]]> registered)
        <$> gossip_callbacks s
    | _ => gossip_callbacks s
    end.
Proof.
  unfold AgentPresenceService.network. rewrite bind_get_state.
  destruct (AgentPresenceService.gossip s) as [g|] eqn:Hg.
  2:{ unfold gossip_callbacks, PyM.state_of, PyM.ret. simpl. rewrite Hg. by destruct ev. }
  pose proof (step_callbacks g ev) as Hcb.
  destruct (GossipProtocol.step g ev) as [g' out]. simpl in Hcb.
  rewrite bind_put_state.
  rewrite (unchanged_for_each gossip_callbacks out _
             (unchanged_callbacks_on_effect (AgentPresenceService.event_time ev))).
  unfold gossip_callbacks. rewrite Hg. simpl. rewrite Hcb. by destruct ev.
Qed.

(** Every step keeps the handlers apart, unless it registers one of
    them on the gossip protocol object. *)
Lemma step_handlers_apart `{PyRuntime} (s : AgentPresenceService.t)
    (ev : AgentPresenceService.event) :
  handlers_apart s -> ¬ registers_handler ev ->
  handlers_apart (fst (AgentPresenceService.step s ev)).
Proof.
  intros Hs Hev.
  assert (forall (A : Type) (m : AgentPresenceService.M A),
            gossip_callbacks (PyM.state_of (m s)) = gossip_callbacks s ->
            handlers_apart (fst (fst (m s)))) as Hun.
  { intros A m Hm registered Hreg. apply Hs. by rewrite <- Hm. }
  destruct ev as [bound | | agent_id caps now | agent_id now | agent_id caps now
                 | agent_id now | ty cb | peer_id host port now | gev]; simpl.
  - by apply start_handlers_apart.
  - apply Hun. unfold AgentPresenceService.stop. rewrite bind_get_state.
    by destruct (negb _).
  - apply Hun. unfold AgentPresenceService.register_agent. rewrite bind_get_state.
    destruct (negb _); [done|].
    rewrite or_false_state, bind_put_state, bind_ret_state.
    by rewrite unchanged_callbacks_propagate_agent_active.
  - apply Hun. unfold AgentPresenceService.unregister_agent. rewrite bind_get_state.
    destruct (negb _); [done|]. rewrite or_false_state.
    destruct (AgentPresenceService.local_agents s !! KStr agent_id) as [presence|]; [|done].
    rewrite bind_put_state, bind_ret_state.
    by rewrite unchanged_callbacks_propagate_agent_inactive.
  - apply Hun. unfold AgentPresenceService.update_agent_capabilities.
    rewrite bind_get_state.
    destruct (negb _); [done|]. rewrite or_false_state.
    destruct (AgentPresenceService.local_agents s !! KStr agent_id) as [presence|]; [|done].
    rewrite bind_put_state, bind_ret_state.
    by rewrite unchanged_callbacks_propagate_agent_active.
  - apply Hun, unchanged_callbacks_query_agent.
  - apply Hun. unfold AgentPresenceService.register_callback. rewrite bind_get_state.
    by destruct (_ !! _).
  - apply Hun, unchanged_callbacks_add_peer.
  - intros registered Hreg.
    change (fst (fst (AgentPresenceService.network gev s)))
      with (PyM.state_of (AgentPresenceService.network gev s)) in Hreg.
    rewrite network_gossip_callbacks in Hreg.
    destruct gev as [datagram addr now rnd | id ip port state now | now | now rnd
                    | ty cb | ]; try by apply Hs.
    destruct (gossip_callbacks s) as [registered0|] eqn:Hs0; [|done].
    injection Hreg as <-.
    apply callbacks_apart_register; [by apply Hs|].
    destruct cb as [ | | | | n];
      [ | | right; by left | | left; by exists n ];
      exfalso; apply Hev; eexists _, _; split; done.
Qed.

Lemma run_handlers_apart `{PyRuntime} (s : AgentPresenceService.t)
    (evs : list AgentPresenceService.event) :
  handlers_apart s -> Forall (fun ev => ¬ registers_handler ev) evs ->
  handlers_apart (AgentPresenceService.run s evs).
Proof.
  intros Hs Hevs. induction evs as [|ev evs IH] using rev_ind; [done|].
  apply Forall_app in Hevs as [Hevs Hev]. apply Forall_cons in Hev as [Hev _].
  rewrite presence_run_snoc. apply step_handlers_apart; [by apply IH | done].
Qed.

(** A record that is not older has a number for [last_updated] that is
    not smaller, when the older one is a number. *)
Lemma not_older_number (old new : AgentPresence.t) (a : Z) :
  not_older old new -> py_num (AgentPresence.last_updated old) = Ok a ->
  exists b, py_num (AgentPresence.last_updated new) = Ok b ∧ a <= b.
Proof.
  intros [-> | Hgt] Hold; [exists a; split; [done | lia]|].
  destruct (AgentPresence.last_updated old) as [ | bo | x | so | lo | oo ];
    try discriminate;
    destruct (AgentPresence.last_updated new) as [ | bn | y | sn | ln | on ];
    try discriminate; simpl in *; simplify_eq; eexists; (split; [reflexivity|]).
  - destruct bo, bn; simpl in *; (discriminate || lia).
  - destruct bo; apply Z.ltb_lt in Hgt; lia.
  - destruct bn; apply Z.ltb_lt in Hgt; lia.
  - apply Z.ltb_lt in Hgt. lia.
Qed.

(** While a remote agent is held, the number held as its [last_updated]
    does not get smaller. *)
Lemma run_last_updated `{PyRuntime} (s : AgentPresenceService.t)
    (evs : list AgentPresenceService.event) (key : pykey) (old : AgentPresence.t) (a : Z) :
  handlers_apart s -> Forall (fun ev => ¬ registers_handler ev) evs ->
  AgentPresenceService.remote_agents s !! key = Some old ->
  py_num (AgentPresence.last_updated old) = Ok a ->
  (forall evs1 evs2,
     evs = evs1 ++ evs2 ->
     is_Some (AgentPresenceService.remote_agents (AgentPresenceService.run s evs1) !! key)) ->
  exists new b,
    AgentPresenceService.remote_agents (AgentPresenceService.run s evs) !! key = Some new
    ∧ py_num (AgentPresence.last_updated new) = Ok b ∧ a <= b.
Proof.
  intros Hs Hevs Hold Ha. induction evs as [|ev evs IH] using rev_ind; intros Hheld.
  - exists old, a. split; [done|]. split; [done | lia].
  - apply Forall_app in Hevs as [Hevs Hev].
    destruct (IH Hevs) as (mid & b & Hmid & Hb & Hab).
    { intros evs1 evs2 ->. apply (Hheld evs1 (evs2 ++ [ev])). by rewrite app_assoc. }
    destruct (Hheld (evs ++ [ev]) []) as [new Hnew]; [by rewrite app_nil_r|].
    rewrite presence_run_snoc in Hnew |- *.
    pose proof (step_kept_not_older _ ev (run_handlers_apart s evs Hs Hevs) key mid new
                  Hmid Hnew) as Hno.
    destruct (not_older_number mid new b Hno Hb) as (c & Hc & Hbc).
    exists new, c. split; [done|]. split; [done | lia].
Qed.

(** What a handler called by the gossip protocol object does to the
    table of remote agents: the handlers other than
    [_handle_agent_inactive] keep every entry, with its record or a more
    recent one; [_handle_agent_inactive] removes an entry or does
    nothing. *)
Lemma on_effect_remote_agents `{PyRuntime} (s : AgentPresenceService.t)
    (e : GossipProtocol.effect) (now : Z) :
  let s' := PyM.state_of (AgentPresenceService.on_effect now e s) in
  kept_not_older s s'
  ∧ ((forall message, e ≠ GossipProtocol.Invoke HandleAgentInactive message) ->
     remote_monotone s s').
Proof.
  intros s'. subst s'.
  assert (forall m : AgentPresenceService.M unit,
            PyM.state_of (PyM.try_ m s) = PyM.state_of (m s)) as Htry.
  { intros m. unfold PyM.try_, PyM.state_of. by destruct (m s) as [[s1 o1] r]. }
  destruct e as [message addr | [] message]; simpl; rewrite ?Htry;
    try (split; [apply remote_monotone_kept|intros _]; apply remote_monotone_refl).
  - assert (remote_monotone s
              (PyM.state_of (AgentPresenceService._handle_agent_active message now s)))
      as Hm.
    { destruct (handle_agent_active_cases s message now) as [-> | ->];
        [apply remote_monotone_refl | apply monotone_merge_presence]. }
    split; [by apply remote_monotone_kept | done].
  - split.
    + destruct (handle_agent_inactive_cases s message) as [-> | [key ->]].
      * apply remote_monotone_kept, remote_monotone_refl.
      * apply subseteq_kept. simpl. apply delete_subseteq.
    + intros Hne. destruct (Hne message eq_refl).
  - assert (remote_monotone s
              (PyM.state_of (AgentPresenceService._handle_agent_query message now s)))
      as Hm.
    { intros key old Hold. exists old. split; [|by left].
      pose proof (unchanged_handle_agent_query message now s) as Hq.
      unfold agents_of in Hq. by injection Hq as _ _ ->. }
    split; [by apply remote_monotone_kept | done].
  - assert (remote_monotone s
              (PyM.state_of (AgentPresenceService._handle_agent_info message now s)))
      as Hm.
    { destruct (handle_agent_info_cases s message now) as [-> | ->];
        [apply remote_monotone_refl | apply monotone_merge_presence]. }
    split; [by apply remote_monotone_kept | done].
Qed.

(** C5, as it is stated, fails: an [agent_inactive] removes the entry,
    and an [agent_active] that arrives after it is stored whatever its
    [last_updated]; the value held for the agent goes from 100 to 50. *)
Lemma remote_last_updated_decreases :
  let s1 := @AgentPresenceService.run demo_runtime demo_service
              [agent_active_datagram "n1" "a" 100 101] in
  let s2 := @AgentPresenceService.run demo_runtime s1
              [agent_inactive_datagram "n1" "a" 102;
               agent_active_datagram "n1" "a" 50 103] in
  AgentPresence.last_updated <$> AgentPresenceService.remote_agents s1 !! KStr "a"
  = Some (JNum 100)
  ∧ AgentPresence.last_updated <$> AgentPresenceService.remote_agents s2 !! KStr "a"
    = Some (JNum 50).
Proof. vm_compute. done. Qed.

(** C9, as it is stated, fails: [register_agent] does not look at the
    table of remote agents, so an id learned from another node and then
    registered locally is a key of both tables. *)
Lemma agent_id_in_both_tables :
  let s := @AgentPresenceService.run demo_runtime demo_service
             [agent_active_datagram "n1" "a" 100 101;
              AgentPresenceService.RegisterAgent "a" (JList [JStr "chat"]) 102] in
  AgentPresence.node_id <$> AgentPresenceService.local_agents s !! KStr "a"
  = Some (JStr "n0")
  ∧ AgentPresence.node_id <$> AgentPresenceService.remote_agents s !! KStr "a"
    = Some (JStr "n1").
Proof. vm_compute. done. Qed.

(** C5, amended. [_handle_agent_active], and [_handle_agent_info] for a
    message whose target is this node, pass a non-empty presence to the
    same code, which for a presence of another node whose agent id is
    hashable: stores it and fires [agent_discovered] when the table of
    remote agents has no entry for the id; replaces the entry and fires
    [agent_updated] when the [last_updated] of the presence is greater
    than the one of the entry; and does nothing otherwise (the exception
    of a comparison that fails is caught by the caller).
    [_handle_agent_inactive] removes one entry or does nothing. So every
    handler, and every step of a service whose gossip protocol object
    has the handlers registered apart (as [start] registers them, and as
    every run keeps them that registers no handler itself), removes
    remote agents or keeps each of them with its record or a more recent
    one; the steps other than those of the protocol object do not change
    the table. Hence while a remote agent is held along a run, the
    number held as its [last_updated] does not decrease. *)
Theorem remote_presence_replaced_by_newer_only `{PyRuntime} :
  (forall s presence_data now presence key,
     AgentPresence.from_dict presence_data now = Ok presence ->
     py_eq_str (AgentPresence.node_id presence) (AgentPresenceService.node_id s) = false ->
     py_hashable (AgentPresence.agent_id presence) = Ok key ->
     AgentPresenceService.merge_presence presence_data now s
     = match AgentPresenceService.remote_agents s !! key with
       | None =>
           (AgentPresenceService.set_remote_agents s
              (<[key := presence]> (AgentPresenceService.remote_agents s)),
            notifications "agent_discovered" (AgentPresence.agent_id presence) presence s,
            Ok tt)
       | Some existing_presence =>
           match py_gt (AgentPresence.last_updated presence)
                       (AgentPresence.last_updated existing_presence) with
           | Ok true =>
               (AgentPresenceService.set_remote_agents s
                  (<[key := presence]> (AgentPresenceService.remote_agents s)),
                notifications "agent_updated" (AgentPresence.agent_id presence) presence s,
                Ok tt)
           | Ok false => (s, [], Ok tt)
           | Raise e => (s, [], Raise e)
           end
       end)
  ∧ (forall s message now,
       AgentPresenceService._handle_agent_active message now s
       = if py_truthy (AgentPresenceService.presence_data_of message)
         then AgentPresenceService.merge_presence
                (AgentPresenceService.presence_data_of message) now s
         else (s, [], Ok tt))
  ∧ (forall s message now,
       AgentPresenceService._handle_agent_info message now s
       = if py_truthy (AgentPresenceService.presence_data_of message)
            && py_eq_str (py_get "target" (GossipMessage.data message))
                 (AgentPresenceService.node_id s)
         then AgentPresenceService.merge_presence
                (AgentPresenceService.presence_data_of message) now s
         else (s, [], Ok tt))
  ∧ (forall s message,
       let s' := PyM.state_of (AgentPresenceService._handle_agent_inactive message s) in
       s' = s
       ∨ exists key, s' = AgentPresenceService.set_remote_agents s
                            (delete key (AgentPresenceService.remote_agents s)))
  ∧ (forall s e now,
       let s' := PyM.state_of (AgentPresenceService.on_effect now e s) in
       kept_not_older s s'
       ∧ ((forall message, e ≠ GossipProtocol.Invoke HandleAgentInactive message) ->
          remote_monotone s s'))
  ∧ (forall s ev,
       handlers_apart s ->
       kept_not_older s (fst (AgentPresenceService.step s ev))
       ∧ (¬ registers_handler ev -> handlers_apart (fst (AgentPresenceService.step s ev))))
  ∧ (forall s ev,
       (forall network_event, ev ≠ AgentPresenceService.Network network_event) ->
       AgentPresenceService.remote_agents (fst (AgentPresenceService.step s ev))
       = AgentPresenceService.remote_agents s)
  ∧ (forall node_id host port, handlers_apart (AgentPresenceService.init node_id host port))
  ∧ (forall s evs,
       handlers_apart s -> Forall (fun ev => ¬ registers_handler ev) evs ->
       handlers_apart (AgentPresenceService.run s evs))
  ∧ (forall s evs key old a,
       handlers_apart s -> Forall (fun ev => ¬ registers_handler ev) evs ->
       AgentPresenceService.remote_agents s !! key = Some old ->
       py_num (AgentPresence.last_updated old) = Ok a ->
       (forall evs1 evs2,
          evs = evs1 ++ evs2 ->
          is_Some (AgentPresenceService.remote_agents (AgentPresenceService.run s evs1)
                   !! key)) ->
       exists new b,
         AgentPresenceService.remote_agents (AgentPresenceService.run s evs) !! key
         = Some new
         ∧ py_num (AgentPresence.last_updated new) = Ok b ∧ a <= b).
Proof.
  repeat apply conj.
  - intros s presence_data now presence key. apply merge_presence_result.
  - intros s message now. unfold AgentPresenceService._handle_agent_active.
    by destruct (py_truthy _).
  - intros s message now. unfold AgentPresenceService._handle_agent_info, PyM.bind, PyM.get.
    destruct (py_truthy _); simpl; [|done].
    destruct (py_eq_str _ _); simpl; [|done].
    by destruct (AgentPresenceService.merge_presence _ _ _) as [[s2 o2] r].
  - intros s message. apply handle_agent_inactive_cases.
  - intros s e now. apply on_effect_remote_agents.
  - intros s ev Hs. split; [by apply step_kept_not_older | by apply step_handlers_apart].
  - intros s ev. apply local_step_remote_agents.
  - intros node_id host port registered Hreg. discriminate.
  - intros s evs. apply run_handlers_apart.
  - intros s evs key old a. apply run_last_updated.
Qed.

Lemma remote_presence_replaced_by_newer_only_witness :
  let s := @AgentPresenceService.run demo_runtime demo_service
             [agent_active_datagram "n1" "a" 100 101] in
  let evs := [agent_active_datagram "n1" "a" 150 160;
              agent_active_datagram "n1" "a" 50 170] in
  exists new b,
    AgentPresenceService.remote_agents (@AgentPresenceService.run demo_runtime s evs)
    !! KStr "a" = Some new
    ∧ py_num (AgentPresence.last_updated new) = Ok b ∧ 100 <= b.
Proof.
  intros s evs.
  destruct (@remote_presence_replaced_by_newer_only demo_runtime)
    as (_ & _ & _ & _ & _ & _ & _ & Hinit & Hrun & Hheld).
  assert (forall sender agent_id last_updated now,
            ¬ registers_handler (agent_active_datagram sender agent_id last_updated now))
    as Hplain.
  { intros sender agent_id last_updated now (ty & cb & Heq & _). discriminate. }
  assert (handlers_apart demo_service) as Hs0.
  { unfold demo_service. apply Hrun; [apply Hinit|].
    constructor; [|constructor]. intros (ty & cb & Heq & _). discriminate. }
  assert (handlers_apart s) as Hs.
  { subst s. apply Hrun; [exact Hs0|]. constructor; [apply Hplain | constructor]. }
  apply (Hheld s evs (KStr "a")
           (AgentPresence.Build (JStr "a") (JStr "n1") (JList [JStr "chat"]) (JNum 100)
              "active") 100 Hs).
  - subst evs. constructor; [apply Hplain|]. constructor; [apply Hplain | constructor].
  - vm_compute. reflexivity.
  - reflexivity.
  - intros evs1 evs2 Hsplit. subst evs.
    destruct evs1 as [|e1 [|e2 [|e3 evs1]]]; simplify_eq/=.
    + vm_compute. by eexists.
    + vm_compute. by eexists.
    + vm_compute. by eexists.
Defined.

(** C9, amended. In every reachable state of the service, a record of
    the table of local agents is an agent of this node, under its own id,
    and a record of the table of remote agents is an agent of another
    node, under its own id: the handlers never store a presence announced
    for this node. An id can be a key of both tables, with records of
    different nodes. *)
Theorem agent_tables_hold_agents_of_different_nodes `{PyRuntime}
    (s : AgentPresenceService.t) :
  AgentPresenceService.reachable s ->
  (forall key presence,
     AgentPresenceService.local_agents s !! key = Some presence ->
     AgentPresence.node_id presence = JStr (AgentPresenceService.node_id s)
     ∧ exists agent_id, key = KStr agent_id ∧ AgentPresence.agent_id presence = JStr agent_id)
  ∧ (forall key presence,
       AgentPresenceService.remote_agents s !! key = Some presence ->
       py_eq_str (AgentPresence.node_id presence) (AgentPresenceService.node_id s) = false
       ∧ py_hashable (AgentPresence.agent_id presence) = Ok key)
  ∧ (forall key key' presence presence',
       AgentPresenceService.local_agents s !! key = Some presence ->
       AgentPresenceService.remote_agents s !! key' = Some presence' ->
       AgentPresence.node_id presence ≠ AgentPresence.node_id presence').
Proof.
  intros Hreach. destruct (reachable_presence_inv s Hreach) as (_ & Hl & Hr).
  split; [exact Hl|]. split; [exact Hr|].
  intros key key' presence presence' Hp Hp' Heq.
  destruct (Hl _ _ Hp) as [Hn _]. destruct (Hr _ _ Hp') as [Hn' _].
  rewrite <- Heq, Hn in Hn'. simpl in Hn'. by rewrite String.eqb_refl in Hn'.
Qed.

Lemma agent_tables_hold_agents_of_different_nodes_witness :
  let s := @AgentPresenceService.run demo_runtime
             (AgentPresenceService.init "n0" "127.0.0.1" 8001)
             [AgentPresenceService.Start true; agent_active_datagram "n1" "a" 100 101;
              AgentPresenceService.RegisterAgent "a" (JList [JStr "chat"]) 102] in
  exists presence presence',
    AgentPresenceService.local_agents s !! KStr "a" = Some presence
    ∧ AgentPresenceService.remote_agents s !! KStr "a" = Some presence'
    ∧ AgentPresence.node_id presence ≠ AgentPresence.node_id presence'.
Proof.
  intros s.
  assert (@AgentPresenceService.reachable demo_runtime s) as Hreach.
  { exists "n0", "127.0.0.1", 8001,
      [AgentPresenceService.Start true; agent_active_datagram "n1" "a" 100 101;
       AgentPresenceService.RegisterAgent "a" (JList [JStr "chat"]) 102].
    reflexivity. }
  destruct (@agent_tables_hold_agents_of_different_nodes demo_runtime s Hreach)
    as (_ & _ & Hdiff).
  eexists _, _. split; [vm_compute; reflexivity|]. split; [vm_compute; reflexivity|].
  eapply (Hdiff (KStr "a") (KStr "a")); vm_compute; reflexivity.
Defined.

(** * Further properties of the code *)

(** ** NodeID: the XOR distance *)

Lemma zip_xor_comm (a b : list byte) : NodeID.zip_xor a b = NodeID.zip_xor b a.
Proof.
  revert b. induction a as [|x a IH]; intros [|y b]; simpl; try done.
  unfold NodeID.xor_byte. by rewrite N.lxor_comm, IH.
Qed.

Lemma int_from_bytes_acc (l : list N) (acc : N) :
  fold_left (fun acc x => (acc * 256 + x)%N) l acc
  = (acc * 256 ^ N.of_nat (length l) + NodeID.int_from_bytes l)%N.
Proof.
  unfold NodeID.int_from_bytes. revert acc.
  induction l as [|x l IH]; intros acc.
  - simpl. lia.
  - cbn [fold_left length]. rewrite IH, (IH (0 * 256 + x)%N).
    rewrite Nat2N.inj_succ, N.pow_succ_r'. lia.
Qed.

Lemma int_from_bytes_cons (x : N) (l : list N) :
  NodeID.int_from_bytes (x :: l)
  = (x * 256 ^ N.of_nat (length l) + NodeID.int_from_bytes l)%N.
Proof.
  unfold NodeID.int_from_bytes at 1. cbn [fold_left]. rewrite int_from_bytes_acc. lia.
Qed.

Lemma int_from_bytes_zero (l : list N) :
  NodeID.int_from_bytes l = 0%N <-> Forall (fun x => x = 0%N) l.
Proof.
  induction l as [|x l IH].
  - split; [constructor | done].
  - rewrite int_from_bytes_cons, Forall_cons, <- IH.
    assert (256 ^ N.of_nat (length l) ≠ 0)%N by (apply N.pow_nonzero; lia).
    split; [nia | intros [-> ->]; lia].
Qed.

Lemma xor_byte_zero (x y : byte) : NodeID.xor_byte x y = 0%N -> x = y.
Proof.
  unfold NodeID.xor_byte. intros H%N.lxor_eq.
  pose proof (Byte.of_to_N x) as Hx. rewrite H, Byte.of_to_N in Hx. congruence.
Qed.

Lemma zip_xor_zero (a b : list byte) :
  length a = length b -> Forall (fun x => x = 0%N) (NodeID.zip_xor a b) -> a = b.
Proof.
  revert b. induction a as [|x a IH]; intros [|y b] Hlen Hz; simpl in *; try done.
  apply Forall_cons in Hz as [Hx Hz]. f_equal; [by apply xor_byte_zero|].
  apply IH; [lia | done].
Qed.

Lemma zip_xor_self (a : list byte) : Forall (fun x => x = 0%N) (NodeID.zip_xor a a).
Proof.
  induction a as [|x a IH]; simpl; constructor; [|done].
  unfold NodeID.xor_byte. apply N.lxor_nilpotent.
Qed.

Lemma distance_zero_eq (a b : NodeID.t) :
  length (NodeID.id_bytes a) = length (NodeID.id_bytes b) ->
  NodeID.distance a b = 0%N -> a = b.
Proof.
  unfold NodeID.distance. intros Hlen Hz. apply int_from_bytes_zero in Hz.
  destruct a as [a], b as [b]. simpl in *. f_equal. by apply zip_xor_zero.
Qed.

(** X1. [NodeID.distance] is symmetric and is 0 between an id and itself;
    between two ids of the same length it is 0 only if they are equal. *)
Theorem NodeID_distance_metric (a b : NodeID.t) :
  NodeID.distance a b = NodeID.distance b a
  ∧ NodeID.distance a a = 0%N
  ∧ (length (NodeID.id_bytes a) = length (NodeID.id_bytes b) ->
     NodeID.distance a b = 0%N -> a = b).
Proof.
  unfold NodeID.distance. split; [by rewrite zip_xor_comm|]. split.
  - apply int_from_bytes_zero, zip_xor_self.
  - apply distance_zero_eq.
Qed.

Lemma NodeID_distance_metric_witness :
  NodeID.distance (demo_id x05) (demo_id x03) = 6%N
  ∧ NodeID.distance (demo_id x05) (demo_id x03) = NodeID.distance (demo_id x03) (demo_id x05)
  ∧ NodeID.distance (demo_id x05) (demo_id x05) = 0%N
  ∧ demo_id x05 = demo_id x05.
Proof.
  destruct (NodeID_distance_metric (demo_id x05) (demo_id x03)) as (Hsym & _ & _).
  destruct (NodeID_distance_metric (demo_id x05) (demo_id x05)) as (_ & Hself & Hz).
  split; [vm_compute; reflexivity|]. split; [exact Hsym|]. split; [exact Hself|].
  apply Hz; [reflexivity | vm_compute; reflexivity].
Defined.

(** ** KBucket: capacity *)

Lemma pop_existing_length (id : NodeID.t) (l rest : list Node.t) :
  KBucket.pop_existing id l = Some rest -> length l = S (length rest).
Proof.
  revert rest. induction l as [|x l IH]; intros rest; simpl; [done|].
  destruct (NodeID.eqb _ _); [by intros [= ->]|].
  destruct (KBucket.pop_existing id l) as [r'|]; [|done].
  intros [= <-]. simpl. by rewrite (IH r').
Qed.

(** X2. [KBucket.add_node] never makes a bucket longer than its capacity
    [k]: a bucket within its capacity stays within it, and a bucket
    built from [KBucket(k)] holds at most [k] contacts (none for a
    negative [k]). *)
Theorem KBucket_capacity :
  (forall (b : KBucket.t) (node : Node.t),
     Z.of_nat (length (KBucket.nodes b)) <= Z.max 0 (KBucket.k b) ->
     Z.of_nat (length (KBucket.nodes (fst (KBucket.add_node b node))))
     <= Z.max 0 (KBucket.k b))
  ∧ (forall (k : Z) (adds : list Node.t),
       KBucket.k (KBucket.after k adds) = k
       ∧ Z.of_nat (length (KBucket.nodes (KBucket.after k adds))) <= Z.max 0 k).
Proof.
  assert (forall (b : KBucket.t) (node : Node.t),
            KBucket.k (fst (KBucket.add_node b node)) = KBucket.k b
            ∧ (Z.of_nat (length (KBucket.nodes b)) <= Z.max 0 (KBucket.k b) ->
               Z.of_nat (length (KBucket.nodes (fst (KBucket.add_node b node))))
               <= Z.max 0 (KBucket.k b))) as Hstep.
  { intros b node. unfold KBucket.add_node.
    destruct (KBucket.pop_existing _ _) as [rest|] eqn:Ep.
    - apply pop_existing_length in Ep. simpl. split; [done|].
      rewrite length_app. simpl. lia.
    - destruct (_ <? _) eqn:Elt; simpl; [|done].
      apply Z.ltb_lt in Elt. split; [done|]. rewrite length_app. simpl. lia. }
  split; [intros b node; apply Hstep|].
  intros k adds. induction adds as [|node adds IH] using rev_ind.
  - simpl. split; [done | lia].
  - rewrite KBucket_after_snoc. destruct IH as [Hk Hlen].
    destruct (Hstep (KBucket.after k adds) node) as [Hk' Hlen'].
    rewrite Hk in *. split; [done | by apply Hlen'].
Qed.

Lemma KBucket_capacity_witness :
  Z.of_nat (length (KBucket.nodes
                      (fst (KBucket.add_node (KBucket.after 2 [demo_node x01; demo_node x02])
                              (demo_node x03))))) <= Z.max 0 2.
Proof.
  refine (proj1 KBucket_capacity (KBucket.after 2 [demo_node x01; demo_node x02])
            (demo_node x03) _).
  vm_compute. discriminate.
Defined.

(** ** RoutingTable: bucket indices *)

Lemma zip_xor_length (a b : list byte) :
  length (NodeID.zip_xor a b) = Nat.min (length a) (length b).
Proof.
  revert b. induction a as [|x a IH]; intros [|y b]; simpl; try done. by rewrite IH.
Qed.

Lemma xor_byte_bound (x y : byte) : (NodeID.xor_byte x y < 256)%N.
Proof.
  unfold NodeID.xor_byte.
  pose proof (Byte.to_N_bounded x) as Hx. pose proof (Byte.to_N_bounded y) as Hy.
  destruct (N.eq_dec (N.lxor (Byte.to_N x) (Byte.to_N y)) 0%N) as [->|Hne]; [lia|].
  change 256%N with (2 ^ 8)%N. apply N.log2_lt_pow2; [lia|].
  pose proof (N.log2_lxor (Byte.to_N x) (Byte.to_N y)) as Hl.
  pose proof (N.log2_le_mono _ _ Hx) as Hx'. pose proof (N.log2_le_mono _ _ Hy) as Hy'.
  change (N.log2 255) with 7%N in *. lia.
Qed.

Lemma zip_xor_bound (a b : list byte) : Forall (fun x => x < 256)%N (NodeID.zip_xor a b).
Proof.
  revert b. induction a as [|x a IH]; intros [|y b]; simpl; try constructor.
  - apply xor_byte_bound.
  - apply IH.
Qed.

Lemma int_from_bytes_bound (l : list N) :
  Forall (fun x => x < 256)%N l -> (NodeID.int_from_bytes l < 256 ^ N.of_nat (length l))%N.
Proof.
  induction 1 as [|x l Hx _ IH].
  - simpl. unfold NodeID.int_from_bytes. simpl. lia.
  - rewrite int_from_bytes_cons. cbn [length]. rewrite Nat2N.inj_succ, N.pow_succ_r'. nia.
Qed.

Lemma distance_bound (a b : NodeID.t) :
  length (NodeID.id_bytes a) = length (NodeID.id_bytes b) ->
  (NodeID.distance a b < 2 ^ (8 * N.of_nat (length (NodeID.id_bytes b))))%N.
Proof.
  intros Hlen. unfold NodeID.distance.
  pose proof (int_from_bytes_bound _ (zip_xor_bound (NodeID.id_bytes a) (NodeID.id_bytes b)))
    as Hb.
  rewrite zip_xor_length, Hlen, Nat.min_id in Hb.
  change 256%N with (2 ^ 8)%N in Hb. by rewrite <- N.pow_mul_r in Hb.
Qed.

Lemma size_bound (d m : N) : (d < 2 ^ m)%N -> (N.size d <= m)%N.
Proof.
  intros Hd. destruct (N.eq_dec d 0%N) as [->|Hne]; [simpl; lia|].
  rewrite N.size_log2 by done. apply N.log2_lt_pow2 in Hd; lia.
Qed.

Lemma bucket_index_range (rt : RoutingTable.t) (id : NodeID.t) :
  table_ok rt -> same_width rt id -> id ≠ RoutingTable.local_node_id rt ->
  0 <= RoutingTable._get_bucket_index rt id < RoutingTable.bits rt.
Proof.
  intros [Hbits _] Hw Hne. unfold RoutingTable._get_bucket_index.
  pose proof (distance_bound (RoutingTable.local_node_id rt) id (eq_sym Hw)) as Hd.
  destruct (N.eqb_spec (NodeID.distance (RoutingTable.local_node_id rt) id) 0%N) as [Hz|Hnz].
  - destruct Hne. symmetry.
    by apply distance_zero_eq.
  - apply size_bound in Hd. rewrite Hw in Hd.
    assert (N.size (NodeID.distance (RoutingTable.local_node_id rt) id) ≠ 0%N).
    { rewrite N.size_log2 by done. lia. }
    lia.
Qed.

Lemma py_index_in_range {A : Type} (l : list A) (i : Z) :
  0 <= i < Z.of_nat (length l) ->
  exists x, py_index l i = Ok x ∧ l !! Z.to_nat i = Some x.
Proof.
  intros Hi. unfold py_index, py_norm_index.
  assert ((0 <=? i) = true) as -> by (apply Z.leb_le; lia).
  assert ((i <? Z.of_nat (length l)) = true) as -> by (apply Z.ltb_lt; lia).
  destruct (lookup_lt_is_Some_2 l (Z.to_nat i)) as [x Hx]; [lia|].
  exists x. by rewrite Hx.
Qed.

Lemma all_nodes_insert (bs : list KBucket.t) (i : nat) (b b' : KBucket.t) (node : Node.t) :
  bs !! i = Some b ->
  KBucket.nodes b' ⊆ node :: KBucket.nodes b ->
  concat (map KBucket.get_nodes (<[i := b']> bs))
  ⊆ node :: concat (map KBucket.get_nodes bs).
Proof.
  revert i. induction bs as [|b0 bs IH]; intros [|i] Hi Hsub; simpl in *; try done.
  - injection Hi as ->. unfold KBucket.get_nodes at 1 3. set_solver.
  - specialize (IH i Hi Hsub). set_solver.
Qed.

Lemma KBucket_add_node_subseteq (b : KBucket.t) (node : Node.t) :
  KBucket.nodes (fst (KBucket.add_node b node)) ⊆ node :: KBucket.nodes b.
Proof.
  unfold KBucket.add_node.
  destruct (KBucket.pop_existing _ _) as [rest|] eqn:Ep; simpl.
  - assert (rest ⊆ KBucket.nodes b); [|set_solver].
    clear -Ep. revert rest Ep. induction (KBucket.nodes b) as [|x l IH]; intros rest; simpl.
    + done.
    + destruct (NodeID.eqb _ _); [intros [= ->]; set_solver|].
      destruct (KBucket.pop_existing _ l) as [r'|]; [|done].
      intros [= <-]. specialize (IH r' eq_refl). set_solver.
  - destruct (_ <? _); simpl; set_solver.
Qed.

(** What [RoutingTable.add_node] does to a table: nothing when it
    raises or the node is the local one, an [add_node] on one bucket
    otherwise. *)
Lemma RoutingTable_add_node_cases (rt : RoutingTable.t) (node : Node.t) :
  match RoutingTable.add_node rt node with
  | Raise _ => True
  | Ok (rt', inserted) =>
      RoutingTable.local_node_id rt' = RoutingTable.local_node_id rt
      ∧ RoutingTable.bits rt' = RoutingTable.bits rt
      ∧ RoutingTable.k rt' = RoutingTable.k rt
      ∧ length (RoutingTable.buckets rt') = length (RoutingTable.buckets rt)
      ∧ RoutingTable.all_nodes rt' ⊆ node :: RoutingTable.all_nodes rt
      ∧ (Node.node_id node = RoutingTable.local_node_id rt -> rt' = rt ∧ inserted = false)
  end.
Proof.
  unfold RoutingTable.add_node, NodeID.eqb.
  destruct (bool_decide_reflect (Node.node_id node = RoutingTable.local_node_id rt))
    as [Heq|Hne].
  - repeat split; try done. set_solver.
  - destruct (py_norm_index _ _) as [i|]; [|done].
    destruct (RoutingTable.buckets rt !! i) as [b|] eqn:Hb; [|done].
    pose proof (KBucket_add_node_subseteq b node) as Hsub.
    destruct (KBucket.add_node b node) as [b' r]. simpl in *.
    repeat split; try done.
    + by rewrite length_insert.
    + unfold RoutingTable.all_nodes. simpl. by apply (all_nodes_insert _ _ b).
Qed.

(** X3. In a table with one bucket for each bit of the local id,
    [RoutingTable.add_node] of a contact whose id has the width of the
    local id does not raise: for a contact other than the local node the
    bucket index [bits - distance.bit_length()] is within
    [0 .. bits - 1], and the call is [KBucket.add_node] on that bucket;
    the table keeps its shape. *)
Theorem RoutingTable_add_node_in_range (rt : RoutingTable.t) (node : Node.t) :
  table_ok rt -> same_width rt (Node.node_id node) ->
  exists rt' inserted,
    RoutingTable.add_node rt node = Ok (rt', inserted)
    ∧ table_ok rt'
    ∧ (Node.node_id node ≠ RoutingTable.local_node_id rt ->
       let index := RoutingTable._get_bucket_index rt (Node.node_id node) in
       0 <= index < RoutingTable.bits rt
       ∧ exists b,
           RoutingTable.buckets rt !! Z.to_nat index = Some b
           ∧ RoutingTable.buckets rt'
             = <[Z.to_nat index := fst (KBucket.add_node b node)]> (RoutingTable.buckets rt)
           ∧ inserted = snd (KBucket.add_node b node)).
Proof.
  intros Hok Hw. unfold RoutingTable.add_node, NodeID.eqb.
  destruct (bool_decide_reflect (Node.node_id node = RoutingTable.local_node_id rt))
    as [Heq|Hne].
  { exists rt, false. split; [done|]. split; [done|]. by intros Hne. }
  pose proof (bucket_index_range rt (Node.node_id node) Hok Hw Hne) as Hi.
  destruct Hok as [Hbits Hlen]. unfold py_norm_index.
  assert ((0 <=? RoutingTable._get_bucket_index rt (Node.node_id node)) = true) as ->
    by (apply Z.leb_le; lia).
  assert ((RoutingTable._get_bucket_index rt (Node.node_id node)
           <? Z.of_nat (length (RoutingTable.buckets rt))) = true) as ->
    by (apply Z.ltb_lt; lia).
  destruct (lookup_lt_is_Some_2 (RoutingTable.buckets rt)
              (Z.to_nat (RoutingTable._get_bucket_index rt (Node.node_id node))))
    as [b Hb]; [lia|].
  rewrite Hb. destruct (KBucket.add_node b node) as [b' r] eqn:Eadd.
  eexists _, _. split; [reflexivity|]. split.
  - split; simpl; [done|]. by rewrite length_insert.
  - intros _. simpl. split; [done|]. exists b. by rewrite Eadd.
Qed.

Lemma RoutingTable_add_node_in_range_witness :
  exists rt' inserted,
    RoutingTable.add_node (RoutingTable.init (demo_id x00) 20 160) (demo_node x02)
    = Ok (rt', inserted)
    ∧ table_ok rt'.
Proof.
  destruct (RoutingTable_add_node_in_range (RoutingTable.init (demo_id x00) 20 160)
              (demo_node x02)) as (rt' & inserted & Hadd & Hok & _).
  - split; vm_compute; reflexivity.
  - vm_compute. reflexivity.
  - by exists rt', inserted.
Defined.

(** X4. The local node is never a contact of its own routing table:
    whatever contacts are added, of whatever width, no bucket holds a
    contact with the local id. *)
Theorem RoutingTable_never_holds_local_node (local_node_id : NodeID.t) (k bits : Z)
    (adds : list Node.t) :
  Forall (fun contact => Node.node_id contact ≠ local_node_id)
    (RoutingTable.all_nodes (RoutingTable.after local_node_id k bits adds))
  ∧ RoutingTable.local_node_id (RoutingTable.after local_node_id k bits adds) = local_node_id.
Proof.
  unfold RoutingTable.after. induction adds as [|node adds IH] using rev_ind.
  - simpl. split; [|done]. unfold RoutingTable.all_nodes, RoutingTable.init. simpl.
    induction (Z.to_nat bits) as [|n IHn]; simpl; [constructor | exact IHn].
  - rewrite fold_left_app. simpl. destruct IH as [IH Hid].
    set (rt := fold_left _ adds _) in *.
    pose proof (RoutingTable_add_node_cases rt node) as Hc.
    destruct (RoutingTable.add_node rt node) as [[rt' r]|e]; [|done].
    destruct Hc as (Hid' & _ & _ & _ & Hsub & Hloc).
    split; [|congruence].
    destruct (decide (Node.node_id node = RoutingTable.local_node_id rt)) as [Heq|Hne].
    + by destruct (Hloc Heq) as [-> _].
    + apply Forall_forall. intros x Hx. apply Hsub in Hx.
      apply elem_of_cons in Hx as [->|Hx]; [congruence|].
      by apply (proj1 (Forall_forall _ _) IH).
Qed.

(** ** RoutingTable: what [get_closest_nodes] returns *)

Lemma insert_sorted_Permutation {A : Type} (key : A -> N) (x : A) (l : list A) :
  insert_sorted key x l ≡ₚ x :: l.
Proof.
  induction l as [|y l IH]; simpl; [done|].
  destruct (_ <=? _)%N; [done|]. rewrite IH. apply Permutation_swap.
Qed.

Lemma sort_by_Permutation {A : Type} (key : A -> N) (l : list A) : sort_by key l ≡ₚ l.
Proof.
  induction l as [|x l IH]; simpl; [done|].
  by rewrite insert_sorted_Permutation, IH.
Qed.

Lemma insert_sorted_sorted {A : Type} (key : A -> N) (x : A) (l : list A) :
  StronglySorted (fun a b => key a <= key b)%N l ->
  StronglySorted (fun a b => key a <= key b)%N (insert_sorted key x l).
Proof.
  induction 1 as [|y l Hs IH Hy]; simpl.
  - repeat constructor.
  - destruct (N.leb_spec (key x) (key y)) as [Hle|Hgt].
    + constructor; [by constructor|]. constructor; [done|].
      eapply Forall_impl; [exact Hy|]. simpl. intros z Hz. lia.
    + constructor; [done|].
      rewrite insert_sorted_Permutation. constructor; [lia | done].
Qed.

Lemma sort_by_sorted {A : Type} (key : A -> N) (l : list A) :
  StronglySorted (fun a b => key a <= key b)%N (sort_by key l).
Proof.
  induction l as [|x l IH]; simpl; [constructor | by apply insert_sorted_sorted].
Qed.

Lemma StronglySorted_take {A : Type} (R : A -> A -> Prop) (n : nat) (l : list A) :
  StronglySorted R l -> StronglySorted R (take n l).
Proof.
  intros Hs. revert n. induction Hs as [|x l Hs IH Hx]; intros [|n]; simpl;
    try constructor; [apply IH|].
  eapply Forall_forall. intros y Hy. apply (proj1 (Forall_forall _ _) Hx).
  by apply (subseteq_take n l).
Qed.

Lemma concat_sublist {A : Type} (l1 l2 : list (list A)) :
  sublist l1 l2 -> concat l1 ⊆+ concat l2.
Proof.
  induction 1 as [|x l1 l2 _ IH|x l1 l2 _ IH]; simpl.
  - done.
  - by apply submseteq_app.
  - by apply submseteq_inserts_l.
Qed.

Lemma between_left (self : RoutingTable.t) (l r : Z) (b : KBucket.t) :
  0 <= l < r ->
  RoutingTable.buckets self !! Z.to_nat l = Some b ->
  between self (l - 1) r = KBucket.get_nodes b ++ between self l r.
Proof.
  intros Hl Hb. unfold between.
  replace (Z.to_nat (l - 1 + 1)) with (Z.to_nat l) by lia.
  replace (Z.to_nat (r - (l - 1) - 1)) with (S (Z.to_nat (r - l - 1))) by lia.
  replace (Z.to_nat (l + 1)) with (S (Z.to_nat l)) by lia.
  by rewrite (drop_S _ _ _ Hb).
Qed.

Lemma between_right (self : RoutingTable.t) (l r : Z) (b : KBucket.t) :
  -1 <= l < r ->
  RoutingTable.buckets self !! Z.to_nat r = Some b ->
  between self l (r + 1) = between self l r ++ KBucket.get_nodes b.
Proof.
  intros Hl Hb. unfold between.
  replace (Z.to_nat (r + 1 - l - 1)) with (S (Z.to_nat (r - l - 1))) by lia.
  rewrite (take_S_r _ _ b).
  - rewrite map_app, concat_app. simpl. by rewrite app_nil_r.
  - rewrite lookup_drop. by replace (Z.to_nat (l + 1) + Z.to_nat (r - l - 1))%nat
      with (Z.to_nat r) by lia.
Qed.

Lemma between_all (self : RoutingTable.t) :
  between self (-1) (Z.of_nat (length (RoutingTable.buckets self)))
  = RoutingTable.all_nodes self.
Proof.
  unfold between, RoutingTable.all_nodes.
  replace (Z.to_nat (-1 + 1)) with 0%nat by lia. rewrite drop_0.
  by rewrite take_ge by lia.
Qed.

Lemma between_submseteq (self : RoutingTable.t) (l r : Z) :
  between self l r ⊆+ RoutingTable.all_nodes self.
Proof.
  unfold between, RoutingTable.all_nodes.
  apply concat_sublist, (fmap_sublist KBucket.get_nodes).
  etrans; [apply sublist_take | apply sublist_drop].
Qed.

(** The [while] loop of [get_closest_nodes] on a table with one bucket
    for each bit: it ends, having collected the contacts of a range of
    buckets, with enough contacts or with all buckets read. *)
Lemma scan_adjacent_between (self : RoutingTable.t) (count : Z) (fuel : nat) :
  Z.of_nat (length (RoutingTable.buckets self)) = RoutingTable.bits self ->
  forall (l r : Z) (nodes : list Node.t),
    -1 <= l < r -> r <= RoutingTable.bits self ->
    nodes ≡ₚ between self l r ->
    Z.max (l + 1) (RoutingTable.bits self - r) <= Z.of_nat fuel ->
    exists nodes' l' r',
      RoutingTable.scan_adjacent fuel self count l r nodes = Some (Ok nodes')
      ∧ nodes' ≡ₚ between self l' r'
      ∧ (count <= Z.of_nat (length nodes')
         ∨ nodes' ≡ₚ RoutingTable.all_nodes self).
Proof.
  intros Hlen. induction fuel as [|fuel IH]; intros l r nodes Hl Hr Hnodes Hfuel.
  - assert (l = -1 ∧ r = RoutingTable.bits self) as [-> ->] by lia.
    exists nodes, (-1), (RoutingTable.bits self). simpl.
    assert ((RoutingTable.bits self <? RoutingTable.bits self) = false) as ->
      by (apply Z.ltb_ge; lia).
    rewrite andb_false_r. split; [done|]. split; [done|]. right.
    by rewrite Hnodes, <- Hlen, between_all.
  - simpl. destruct (Z.of_nat (length nodes) <? count) eqn:Ecount; simpl.
    2:{ exists nodes, l, r. split; [done|]. split; [done|].
        left. apply Z.ltb_ge in Ecount. lia. }
    destruct ((0 <=? l) || (r <? RoutingTable.bits self)) eqn:Eguard.
    2:{ exists nodes, l, r. split; [done|]. split; [done|]. right.
        apply orb_false_elim in Eguard as [El Er].
        apply Z.leb_gt in El. apply Z.ltb_ge in Er.
        assert (l = -1 ∧ r = RoutingTable.bits self) as [-> ->] by lia.
        by rewrite Hnodes, <- Hlen, between_all. }
    assert (exists nodes1 l1,
              RoutingTable.visit self (0 <=? l) l (-1) nodes = Ok (nodes1, l1)
              ∧ -1 <= l1 < r ∧ l1 + 1 <= Z.max 0 l
              ∧ nodes1 ≡ₚ between self l1 r) as (nodes1 & l1 & -> & Hl1 & Hf1 & Hn1).
    { unfold RoutingTable.visit. destruct (Z.leb_spec 0 l) as [Hle|Hgt].
      - destruct (py_index_in_range (RoutingTable.buckets self) l) as (b & -> & Hb); [lia|].
        eexists _, _. split; [reflexivity|]. split; [lia|]. split; [lia|].
        replace (l + -1) with (l - 1) by lia.
        rewrite (between_left self l r b) by (done || lia).
        rewrite Hnodes. apply Permutation_app_comm.
      - exists nodes, l. repeat split; try done; lia. }
    assert (exists nodes2 r1,
              RoutingTable.visit self (r <? RoutingTable.bits self) r 1 nodes1
              = Ok (nodes2, r1)
              ∧ l1 < r1 <= RoutingTable.bits self
              ∧ RoutingTable.bits self - r1 <= Z.max 0 (RoutingTable.bits self - r - 1)
              ∧ nodes2 ≡ₚ between self l1 r1) as (nodes2 & r1 & -> & Hr1 & Hf2 & Hn2).
    { unfold RoutingTable.visit. destruct (Z.ltb_spec r (RoutingTable.bits self)) as [Hlt|Hge].
      - destruct (py_index_in_range (RoutingTable.buckets self) r) as (b & -> & Hb); [lia|].
        eexists _, _. split; [reflexivity|]. split; [lia|]. split; [lia|].
        rewrite (between_right self l1 r b) by (done || lia). by rewrite Hn1.
      - exists nodes1, r. repeat split; try done; lia. }
    apply IH; try done; lia.
Qed.

Lemma target_bucket_index_range (rt : RoutingTable.t) (target_id : NodeID.t) :
  table_ok rt -> same_width rt target_id -> 0 < RoutingTable.bits rt ->
  0 <= RoutingTable._get_bucket_index rt target_id < RoutingTable.bits rt.
Proof.
  intros Hok Hw Hbits.
  destruct (decide (target_id = RoutingTable.local_node_id rt)) as [->|Hne].
  - unfold RoutingTable._get_bucket_index, NodeID.distance.
    assert (NodeID.int_from_bytes
              (NodeID.zip_xor (NodeID.id_bytes (RoutingTable.local_node_id rt))
                 (NodeID.id_bytes (RoutingTable.local_node_id rt))) = 0%N) as ->
      by apply int_from_bytes_zero, zip_xor_self.
    simpl. lia.
  - by apply bucket_index_range.
Qed.

(** X5. On a table with one bucket for each bit of the local id, and for a
    target of the width of the local id, [get_closest_nodes] returns a
    list of contacts of the table (none more often than the table holds
    it) in ascending order of XOR distance to the target, of at most
    [count] contacts; when the table holds no more than [count]
    contacts, it returns all of them. *)
Theorem get_closest_nodes_sorted_contacts (rt : RoutingTable.t) (target_id : NodeID.t)
    (count : Z) :
  table_ok rt -> same_width rt target_id -> 0 < RoutingTable.bits rt ->
  exists closest,
    RoutingTable.get_closest_nodes rt target_id count = Some (Ok closest)
    ∧ closest ⊆+ RoutingTable.all_nodes rt
    ∧ StronglySorted
        (fun a b => (NodeID.distance target_id (Node.node_id a)
                     <= NodeID.distance target_id (Node.node_id b))%N) closest
    ∧ (0 <= count -> Z.of_nat (length closest) <= count)
    ∧ (Z.of_nat (length (RoutingTable.all_nodes rt)) <= count ->
       closest ≡ₚ RoutingTable.all_nodes rt).
Proof.
  intros Hok Hw Hbits.
  pose proof (target_bucket_index_range rt target_id Hok Hw Hbits) as Hi.
  destruct Hok as [_ Hlen]. unfold RoutingTable.get_closest_nodes.
  set (index := RoutingTable._get_bucket_index rt target_id) in *.
  destruct (py_index_in_range (RoutingTable.buckets rt) index) as (b & -> & Hb); [lia|].
  destruct (scan_adjacent_between rt count (RoutingTable.scan_fuel rt index) Hlen
              (index - 1) (index + 1) (KBucket.get_nodes b))
    as (nodes & l' & r' & -> & Hnodes & Hexit); try lia.
  { rewrite (between_left rt index (index + 1) b) by (done || lia).
    unfold between at 1. replace (Z.to_nat (index + 1 - index - 1)) with 0%nat by lia.
    simpl. by rewrite app_nil_r. }
  { unfold RoutingTable.scan_fuel. lia. }
  set (key := fun node : Node.t => NodeID.distance target_id (Node.node_id node)).
  assert (nodes ⊆+ RoutingTable.all_nodes rt) as Hsub.
  { rewrite Hnodes. apply between_submseteq. }
  eexists. split; [reflexivity|].
  assert (forall n, take n (sort_by key nodes) ⊆+ RoutingTable.all_nodes rt) as Htake.
  { intros n. etrans; [apply sublist_submseteq, sublist_take|].
    by rewrite sort_by_Permutation. }
  assert (forall n, StronglySorted (fun a b => key a <= key b)%N (take n (sort_by key nodes)))
    as Hsorted by (intros n; apply StronglySorted_take, sort_by_sorted).
  unfold py_slice_to. split; [destruct (0 <=? count); apply Htake|].
  split; [destruct (0 <=? count); apply Hsorted|]. split.
  - intros Hc. assert ((0 <=? count) = true) as -> by (by apply Z.leb_le).
    rewrite length_take. lia.
  - intros Hall.
    assert (nodes ≡ₚ RoutingTable.all_nodes rt) as Hperm.
    { destruct Hexit as [Hfull|Hperm]; [|done].
      apply submseteq_length_Permutation; [done | lia]. }
    assert ((0 <=? count) = true) as -> by (apply Z.leb_le; lia).
    rewrite take_ge.
    + by rewrite sort_by_Permutation.
    + rewrite sort_by_Permutation, Hperm. lia.
Qed.

Lemma get_closest_nodes_sorted_contacts_witness :
  let rt := RoutingTable.after (demo_id x00) 20 160 [demo_node x02; demo_node x01] in
  exists closest,
    RoutingTable.get_closest_nodes rt (demo_id x04) 2 = Some (Ok closest)
    ∧ closest ≡ₚ RoutingTable.all_nodes rt.
Proof.
  intros rt.
  destruct (get_closest_nodes_sorted_contacts rt (demo_id x04) 2)
    as (closest & Hres & _ & _ & _ & Hall).
  - split; vm_compute; reflexivity.
  - vm_compute. reflexivity.
  - vm_compute. reflexivity.
  - exists closest. split; [exact Hres|]. apply Hall. vm_compute. discriminate.
Defined.

(** ** DHT: the local store *)

(** X6. [store] then [lookup] returns the value stored, and [store] and
    [register_agent] change what [lookup] and [find_agent] return for
    no other key and no other agent. *)
Theorem DHT_store_lookup :
  (forall (self : DHT.t) (key : string) (value : DHT.pyval) (key' : string),
     DHT.lookup (fst (DHT.store self key value)) key'
     = if String.eqb key key' then Some value else DHT.lookup self key')
  ∧ (forall (self : DHT.t) heap agent_id metadata now heap' self' ok other,
       DHT.register_agent heap self agent_id metadata now = Some (heap', self', ok) ->
       DHT.find_agent self' agent_id = Some (DHT.Ref metadata)
       ∧ (other ≠ agent_id -> DHT.find_agent self' other = DHT.find_agent self other)).
Proof.
  split.
  - intros self key value key'. unfold DHT.lookup, DHT.store. simpl.
    destruct (String.eqb_spec key key') as [->|Hne].
    + apply lookup_insert_eq.
    + apply lookup_insert_ne. congruence.
  - intros self heap agent_id metadata now heap' self' ok other. unfold DHT.register_agent.
    destruct (heap !! metadata) as [m|]; [|done]. simpl. intros [= <- <- <-].
    unfold DHT.find_agent, DHT.lookup. simpl. split; [apply lookup_insert_eq|].
    intros Hne. apply lookup_insert_ne. intros Heq. apply Hne.
    simpl in Heq. by injection Heq.
Qed.

Lemma DHT_store_lookup_witness :
  let dht := DHT.init "10.0.0.1" 9000 (demo_id x07) 20 0 in
  let heap : gmap loc dict := {[ 1%positive := [("k", JStr "v")] ]} in
  exists heap' self',
    DHT.register_agent heap dht "a1" 1%positive 100 = Some (heap', self', true)
    ∧ DHT.find_agent self' "a1" = Some (DHT.Ref 1%positive)
    ∧ DHT.find_agent self' "a2" = DHT.find_agent dht "a2".
Proof.
  intros dht heap. eexists _, _. split; [reflexivity|].
  refine (let H := proj2 DHT_store_lookup dht heap "a1" 1%positive 100
                     _ _ true "a2" eq_refl in _).
  split; [apply H|]. apply H. discriminate.
Defined.

(** ** Message ids *)

Lemma pretty_N_go_length (x : N) (s : string) :
  (String.length s <= String.length (pretty_N_go x s))%nat.
Proof.
  revert s. induction (N.lt_wf_0 x) as [x _ IH]. intros s.
  destruct (N.eq_dec x 0%N) as [->|Hne]; [by rewrite pretty_N_go_0|].
  rewrite pretty_N_go_step by lia.
  etrans; [|apply IH; apply N.div_lt; lia]. simpl. lia.
Qed.

Lemma pretty_Z_nonempty (z : Z) : pretty z ≠ "".
Proof.
  destruct z as [|p|p]; [done| |done].
  unfold pretty, pretty_Z, pretty, pretty_positive, pretty, pretty_N.
  destruct (decide _) as [|_]; [done|].
  rewrite pretty_N_go_step by lia. intros Heq.
  pose proof (pretty_N_go_length (N.pos p `div` 10)
                (String (pretty_N_char (N.pos p `mod` 10)) "")) as Hlen.
  rewrite Heq in Hlen. simpl in Hlen. lia.
Qed.

Lemma Message_new_id_nonempty `{PyRuntime} (msg_type sender_id : string) (data : dict)
    (message_id : option string) :
  Message.message_id (Message.new msg_type sender_id data message_id) ≠ "".
Proof.
  unfold Message.new. simpl. destruct message_id as [s|]; [|apply pretty_Z_nonempty].
  destruct (String.eqb_spec s ""); [apply pretty_Z_nonempty | done].
Qed.

(** X7. A message survives [to_dict] and [from_dict] unless its id is the
    empty string, in which case [from_dict] gives it a new id; the
    messages the constructor builds never have an empty id. *)
Theorem Message_round_trip `{PyRuntime} :
  (forall message : Message.t,
     Message.decode (Some (Message.to_dict message)) = message
     <-> Message.message_id message ≠ "")
  ∧ (forall msg_type sender_id data message_id,
       let message := Message.new msg_type sender_id data message_id in
       Message.decode (Some (Message.to_dict message)) = message).
Proof.
  assert (forall message : Message.t,
            Message.message_id message ≠ "" ->
            Message.decode (Some (Message.to_dict message)) = message) as Hrt.
  { intros [ty sender data id] Hid. simpl in Hid.
    unfold Message.decode, Message.from_dict, Message.to_dict, Message.new. simpl.
    by destruct (String.eqb_spec id ""). }
  split.
  - intros message. split; [|apply Hrt].
    intros Heq Hid. rewrite <- Heq in Hid. revert Hid.
    unfold Message.decode, Message.from_dict. apply Message_new_id_nonempty.
  - intros msg_type sender_id data message_id message. apply Hrt.
    apply Message_new_id_nonempty.
Qed.

(** ** DHTProtocol: requests and their responses *)

(** X8. A [ping] request and its answer. The request of node [a] leaves as
    one datagram, under the id its future is registered with; node [b]
    answers it with one [pong] to the sender's address; when [a] handles
    that [pong], the waiting [send_request] returns it and the pending
    entry is gone. *)
Theorem ping_pong_round_trip `{PyRuntime} (a b : DHTProtocol.t) (addr_a addr_b : string * Z) :
  DHTProtocol.transport a = true -> DHTProtocol.transport b = true ->
  let begun := DHTProtocol.send_request_begin a "ping" [] addr_b in
  let a1 := fst (fst begun) in
  let message_id := fst (snd begun) in
  let future := snd (snd begun) in
  exists ping pong a2,
    snd (fst begun) = [DHTProtocol.SendTo ping addr_b]
    ∧ Message.msg_type ping = "ping"
    ∧ Message.message_id ping = message_id
    ∧ DHTProtocol._handle_ping b ping addr_a = [DHTProtocol.SendTo pong addr_a]
    ∧ Message.msg_type pong = "pong"
    ∧ DHTProtocol._handle_reply a1 pong = Ok a2
    ∧ snd (DHTProtocol.send_request_end a2 message_id future) = Some pong
    ∧ DHTProtocol.pending_requests (fst (DHTProtocol.send_request_end a2 message_id future))
      !! message_id = None.
Proof.
  intros Ha Hb begun a1 message_id future.
  set (ping := Message.new "ping" (NodeID.str (DHT.node_id (DHTProtocol.dht a))) [] None).
  set (pong := Message.new DHTProtocol.MSG_PONG
                 (NodeID.str (DHT.node_id (DHTProtocol.dht b)))
                 [("request_id", JStr (Message.message_id ping))] None).
  assert (DHTProtocol.pending_requests a1 !! Message.message_id ping = Some future
          ∧ DHTProtocol.futures a1 !! future = Some DHTProtocol.Pending) as [Hp Hf].
  { subst a1 future begun. unfold DHTProtocol.send_request_begin. simpl.
    split; apply lookup_insert_eq. }
  exists ping, pong, (DHTProtocol._resolve_pending_request a1 (Message.message_id ping) pong).
  split.
  { subst begun. unfold DHTProtocol.send_request_begin, DHTProtocol._send_message. simpl.
    by rewrite Ha. }
  split; [done|]. split; [done|]. split.
  { unfold DHTProtocol._handle_ping, DHTProtocol._send_message. by rewrite Hb. }
  split; [done|]. split.
  { assert (py_get "request_id" (Message.data pong) = JStr (Message.message_id ping))
      as Hrid by done.
    unfold DHTProtocol._handle_reply. rewrite Hrid. cbn [py_truthy].
    destruct (String.eqb_spec (Message.message_id ping) "") as [Hempty|_]; [|done].
    by destruct (Message_new_id_nonempty "ping"
                   (NodeID.str (DHT.node_id (DHTProtocol.dht a))) [] None). }
  unfold DHTProtocol._resolve_pending_request. rewrite Hp, Hf.
  unfold DHTProtocol.send_request_end. simpl. rewrite lookup_insert_eq. simpl.
  split; [done|]. apply lookup_delete_eq.
Qed.

Lemma ping_pong_round_trip_witness :
  let begun := @DHTProtocol.send_request_begin demo_runtime demo_protocol "ping" []
                 ("10.0.0.2", 9001) in
  exists ping pong a2,
    snd (fst begun) = [DHTProtocol.SendTo ping ("10.0.0.2", 9001)]
    ∧ @DHTProtocol._handle_ping demo_runtime demo_protocol ping ("10.0.0.1", 9000)
      = [DHTProtocol.SendTo pong ("10.0.0.1", 9000)]
    ∧ DHTProtocol._handle_reply (fst (fst begun)) pong = Ok a2
    ∧ snd (DHTProtocol.send_request_end a2 (fst (snd begun)) (snd (snd begun))) = Some pong.
Proof.
  intros begun.
  destruct (@ping_pong_round_trip demo_runtime demo_protocol demo_protocol
              ("10.0.0.1", 9000) ("10.0.0.2", 9001))
    as (ping & pong & a2 & H1 & _ & _ & H4 & _ & H6 & H7 & _).
  - reflexivity.
  - reflexivity.
  - by exists ping, pong, a2.
Defined.

(** X9. A value stored through [_handle_store] is what [_handle_find_value]
    answers for the same key: one [found_value] response to the
    requester, with the id of the request, the key and the value. *)
Theorem store_then_find_value `{PyRuntime} (heap : gmap loc dict) (self : DHTProtocol.t)
    (store_request find_request : Message.t) (addr addr' : string * Z)
    (key : string) (value : json) :
  DHTProtocol.transport self = true ->
  py_get "key" (Message.data store_request) = JStr key -> key ≠ "" ->
  py_get "value" (Message.data store_request) = value -> value ≠ JNull ->
  py_get "key" (Message.data find_request) = JStr key ->
  exists self' ack response,
    DHTProtocol._handle_store self store_request addr
    = Ok (self', [DHTProtocol.SendTo ack addr])
    ∧ DHTProtocol._handle_find_value heap self' find_request addr'
      = Some (Ok [DHTProtocol.SendTo response addr'])
    ∧ Message.msg_type response = "found_value"
    ∧ Message.data response
      = [("request_id", JStr (Message.message_id find_request)); ("key", JStr key);
         ("value", value)].
Proof.
  intros Htr Hkey Hne Hval Hnull Hkey'.
  assert (String.eqb key "" = false) as Hemp by (by apply String.eqb_neq).
  unfold DHTProtocol._handle_store. rewrite Hkey, Hval. simpl. rewrite Hemp. simpl.
  assert (negb match value with JNull => true | _ => false end = true) as ->
    by (by destruct value).
  eexists _, _, _. split.
  { unfold DHTProtocol._send_message. simpl. rewrite Htr. reflexivity. }
  unfold DHTProtocol._handle_find_value. rewrite Hkey'. simpl. rewrite Hemp. simpl.
  unfold DHTProtocol.stored_value. simpl. rewrite lookup_insert_eq. simpl.
  unfold DHTProtocol._send_message. simpl.
  destruct value; try done; rewrite Htr; by repeat split.
Qed.

Lemma store_then_find_value_witness :
  exists self' ack response,
    @DHTProtocol._handle_store demo_runtime demo_protocol
      (Message.Build "store" "peer" [("key", JStr "agent:a1"); ("value", JNum 1)] "42")
      ("10.0.0.2", 9001)
    = Ok (self', [DHTProtocol.SendTo ack ("10.0.0.2", 9001)])
    ∧ @DHTProtocol._handle_find_value demo_runtime ∅ self'
        (Message.Build "find_value" "other" [("key", JStr "agent:a1")] "43")
        ("10.0.0.3", 9001)
      = Some (Ok [DHTProtocol.SendTo response ("10.0.0.3", 9001)])
    ∧ Message.data response
      = [("request_id", JStr "43"); ("key", JStr "agent:a1"); ("value", JNum 1)].
Proof.
  destruct (@store_then_find_value demo_runtime ∅ demo_protocol
              (Message.Build "store" "peer" [("key", JStr "agent:a1"); ("value", JNum 1)] "42")
              (Message.Build "find_value" "other" [("key", JStr "agent:a1")] "43")
              ("10.0.0.2", 9001) ("10.0.0.3", 9001) "agent:a1" (JNum 1))
    as (self' & ack & response & H1 & H2 & _ & H4); try reflexivity; try discriminate.
  by exists self', ack, response.
Defined.

(** ** GossipMessage: the wire format *)

(** X10. A message built by the constructor whose timestamp is not 0
    survives [to_dict] and [from_dict], whatever the clock of the
    receiver, and the copy that [_propagate_message] builds from it (same
    sender, type, data and timestamp, [ttl - 1]) has its message id. A
    timestamp 0 is replaced by the receiver's clock reading. *)
Theorem GossipMessage_round_trip `{PyRuntime} (sender_id message_type : string)
    (data : dict) (timestamp : option Z) (ttl now0 now : Z) :
  let message := GossipMessage.new sender_id message_type data timestamp ttl now0 in
  (GossipMessage.timestamp message ≠ 0 ->
   GossipMessage.decode (Some (GossipMessage.to_dict message)) now = message
   ∧ GossipMessage.message_id
       (GossipMessage.new (GossipMessage.sender_id message)
          (GossipMessage.message_type message) (GossipMessage.data message)
          (Some (GossipMessage.timestamp message)) (GossipMessage.ttl message - 1) now)
     = GossipMessage.message_id message)
  ∧ (GossipMessage.timestamp message = 0 ->
     GossipMessage.timestamp
       (GossipMessage.decode (Some (GossipMessage.to_dict message)) now) = now).
Proof.
  intros message. split.
  - intros Hts. unfold GossipMessage.decode, GossipMessage.from_dict, GossipMessage.to_dict.
    simpl in *. unfold GossipMessage.new.
    destruct (Z.eqb_spec
                match timestamp with
                | Some t => if t =? 0 then now0 else t
                | None => now0
                end 0) as [Hz|_]; [done|]. done.
  - intros Hts. unfold GossipMessage.decode, GossipMessage.from_dict, GossipMessage.to_dict.
    simpl in *. by rewrite Hts.
Qed.

Lemma GossipMessage_round_trip_witness :
  @GossipMessage.decode demo_runtime (Some (GossipMessage.to_dict demo_message)) 500
  = demo_message.
Proof.
  refine (proj1 (proj1 (@GossipMessage_round_trip demo_runtime "p1" "agent_active" []
                          (Some 100) 3 100 500) _)).
  vm_compute. discriminate.
Defined.

(** ** GossipProtocol: the cleanup task *)

(** X11. One iteration of the cleanup task. When [_check_peers] returns, the
    dedup cache keeps exactly the entries that are not older than
    [2 * cleanup_interval]; when [_check_peers] raises (on a peer record
    that lacks a field it reads), [_clean_message_cache] is not reached
    and the cache is left as it is. *)
Theorem cleanup_tick_cleans_cache `{PyRuntime} (s : GossipProtocol.t) (now : Z) :
  let s' := PyM.state_of (GossipProtocol.cleanup_tick now s) in
  match PyM.result_of (GossipProtocol._check_peers now s) with
  | Ok _ =>
      forall id received,
        GossipProtocol.message_cache s' !! id = Some received
        <-> GossipProtocol.message_cache s !! id = Some received
            ∧ now - received <= GossipProtocol.cleanup_interval s * 2
  | Raise _ => GossipProtocol.message_cache s' = GossipProtocol.message_cache s
  end.
Proof.
  intros s'.
  set (P := fun x => GossipProtocol.message_cache x = GossipProtocol.message_cache s
                      ∧ GossipProtocol.cleanup_interval x = GossipProtocol.cleanup_interval s).
  assert (peers_frame P) as HP by (by intros x ps Hx).
  pose proof (keeps_state P (GossipProtocol._check_peers now) s
                (keeps_check_peers_frame P now HP) (conj eq_refl eq_refl)) as [Hc Hi].
  subst s'. unfold GossipProtocol.cleanup_tick, PyM.try_, PyM.bind, PyM.result_of,
    PyM.state_of in *.
  destruct (GossipProtocol._check_peers now s) as [[s1 o1] [[]|e]]; simpl in *; [|done].
  intros id received. rewrite map_lookup_filter_Some. simpl.
  unfold GossipProtocol.expired. rewrite Hc, Hi, Z.ltb_ge. done.
Qed.

(** ** GossipProtocol: the node itself is no peer *)

Lemma not_own_peer_frame (nid : string) (s s' : GossipProtocol.t) :
  GossipProtocol.node_id s' = GossipProtocol.node_id s ->
  dget nid (GossipProtocol.peers s') = dget nid (GossipProtocol.peers s) ->
  not_own_peer nid s -> not_own_peer nid s'.
Proof. intros Hid Hp [H1 H2]. split; congruence. Qed.

Lemma keeps_peers_assign_own (nid id : string) (v : json) :
  id ≠ nid -> keeps (not_own_peer nid) (GossipProtocol.peers_assign id v).
Proof.
  intros Hne s Hs. unfold GossipProtocol.peers_assign.
  eapply not_own_peer_frame; [| |exact Hs]; [done|]. simpl. by apply dget_dset_ne.
Qed.

Lemma keeps_peer_setitem_own (nid id field : string) (v : json) :
  keeps (not_own_peer nid) (GossipProtocol.peer_setitem id field v).
Proof.
  destruct (decide (id = nid)) as [->|Hne].
  - intros s Hs. unfold GossipProtocol.peer_setitem, GossipProtocol.peers_lookup, PyM.bind.
    destruct Hs as [Hid Hp]. rewrite Hp. by split.
  - apply keeps_bind; [apply readonly_keeps, readonly_peers_lookup|]. intros p.
    apply keeps_bind; [apply keeps_lift|]. intros p'. by apply keeps_peers_assign_own.
Qed.

Lemma keeps_peers_del_own (nid id : string) :
  keeps (not_own_peer nid) (GossipProtocol.peers_del id).
Proof.
  intros s Hs. unfold GossipProtocol.peers_del.
  destruct (dget id (GossipProtocol.peers s)) eqn:Hid; [|done].
  eapply not_own_peer_frame; [| |exact Hs]; [done|]. simpl.
  destruct (decide (id = nid)) as [->|Hne]; [|by apply dget_ddel_ne].
  destruct Hs as [_ Hp]. congruence.
Qed.

Ltac at_state self H :=
  apply triple_get_bind; intros self H; apply (triple_at _ _ _ _ _ H);
  match goal with |- triple ?P ?m _ _ => change (keeps P m) end.

Ltac own_step :=
  first
    [ apply keeps_peer_setitem_own
    | apply keeps_peers_del_own
    | apply readonly_keeps, readonly_peers_lookup
    | apply readonly_keeps, readonly_peer_getitem
    | apply readonly_keeps, readonly_send_message
    | apply readonly_keeps, readonly_send_to_peer
    | apply readonly_keeps, readonly_propagate_to_all
    | apply readonly_keeps, readonly_propagate_message
    | apply readonly_keeps, readonly_trigger_callbacks
    | apply readonly_keeps, readonly_handle_ping
    | apply readonly_keeps, readonly_handle_sync
    | method_step ].

Lemma keeps_update_peer_own (nid id ip : string) (port : Z) (state : string) (now : Z) :
  keeps (not_own_peer nid) (GossipProtocol._update_peer id ip port state now).
Proof.
  unfold GossipProtocol._update_peer. at_state self Hself.
  destruct (String.eqb_spec id (GossipProtocol.node_id self)) as [_|Hne]; [apply keeps_ret|].
  destruct (GossipProtocol.in_peers self id).
  - repeat own_step.
  - apply keeps_peers_assign_own. destruct Hself as [<- _]. done.
Qed.

Lemma keeps_state_entry_own (nid : string) (now : Z) (peer_id : string) (peer_data : json) :
  keeps (not_own_peer nid) (GossipProtocol.state_entry now peer_id peer_data).
Proof.
  unfold GossipProtocol.state_entry. at_state self Hself.
  destruct (String.eqb_spec peer_id (GossipProtocol.node_id self)) as [_|Hne];
    [apply keeps_ret|].
  assert (peer_id ≠ nid) as Hne' by (destruct Hself as [<- _]; done).
  destruct (dget peer_id (GossipProtocol.peers self));
    repeat first [apply keeps_peers_assign_own; assumption | own_step].
Qed.

Lemma keeps_state_loop_own (nid : string) (now : Z) (entries : list (string * json)) :
  keeps (not_own_peer nid) (GossipProtocol.state_loop now entries).
Proof.
  induction entries as [|[id peer_data] entries IH]; simpl.
  - apply keeps_ret.
  - apply keeps_bind; [apply keeps_state_entry_own|]. intros ?.
    apply keeps_bind; [exact IH|]. intros ?. apply keeps_ret.
Qed.

Lemma keeps_put_own (nid : string) (s0 s1 : GossipProtocol.t) :
  not_own_peer nid s0 ->
  GossipProtocol.node_id s1 = GossipProtocol.node_id s0 ->
  GossipProtocol.peers s1 = GossipProtocol.peers s0 ->
  keeps (not_own_peer nid) (@PyM.put GossipProtocol.t GossipProtocol.effect s1).
Proof.
  intros Hs Hid Hp. apply keeps_put.
  eapply not_own_peer_frame; [| |exact Hs]; [done | by rewrite Hp].
Qed.

Lemma keeps_deliver_own `{PyRuntime} (nid : string) (message : GossipMessage.t)
    (addr : string * Z) (now : Z) (rnd : nat -> nat) :
  keeps (not_own_peer nid) (GossipProtocol.deliver message addr now rnd).
Proof.
  unfold GossipProtocol.deliver. apply keeps_try. apply keeps_bind.
  - unfold GossipProtocol._should_process_message. at_state self Hself.
    destruct (String.eqb _ _); [apply keeps_ret|].
    destruct (_ !! _); [apply keeps_ret|].
    destruct (_ <=? _); [apply keeps_ret|].
    apply keeps_bind; [by apply (keeps_put_own nid self) | intros _; apply keeps_ret].
  - intros [|]; [|apply keeps_ret].
    unfold GossipProtocol._process_message.
    apply keeps_bind; [apply keeps_update_peer_own|]. intros _.
    apply keeps_bind.
    + unfold GossipProtocol.dispatch, GossipProtocol._handle_state,
        GossipProtocol._handle_ack, GossipProtocol._handle_suspect,
        GossipProtocol._handle_dead.
      repeat first [apply keeps_state_loop_own | own_step].
    + intros data'. repeat own_step.
Qed.

Lemma keeps_cleanup_tick_own `{PyRuntime} (nid : string) (now : Z) :
  keeps (not_own_peer nid) (GossipProtocol.cleanup_tick now).
Proof.
  unfold GossipProtocol.cleanup_tick. apply keeps_try. apply keeps_bind.
  - unfold GossipProtocol._check_peers, GossipProtocol.check_peer. repeat own_step.
  - intros _. unfold GossipProtocol._clean_message_cache. at_state self Hself.
    by apply (keeps_put_own nid self).
Qed.

Lemma step_not_own_peer `{PyRuntime} (nid : string) (s : GossipProtocol.t)
    (ev : GossipProtocol.event) :
  not_own_peer nid s -> not_own_peer nid (fst (GossipProtocol.step s ev)).
Proof.
  intros Hs.
  assert (forall (A : Type) (m : GossipProtocol.M A),
            keeps (not_own_peer nid) m -> not_own_peer nid (fst (fst (m s)))) as Hk.
  { intros A m Hm. exact (keeps_state _ m s Hm Hs). }
  destruct ev as [datagram addr now rnd | id ip port state now | now | now rnd | ty cb | ];
    simpl.
  - apply Hk, keeps_deliver_own.
  - apply Hk, keeps_try, keeps_update_peer_own.
  - apply Hk, keeps_cleanup_tick_own.
  - apply Hk, keeps_try. unfold GossipProtocol._gossip. repeat own_step.
  - exact Hs.
  - exact Hs.
Qed.

(** X12. A node never has itself in its peer table: starting from
    [GossipProtocol(node_id, port)], whatever datagrams arrive, whatever
    peers are added and whatever ticks run, there is no record for
    [node_id] in [peers], so the node never gossips to itself. *)
Theorem node_is_never_its_own_peer `{PyRuntime} (node_id : string) (port : Z)
    (evs : list GossipProtocol.event) :
  let s := GossipProtocol.run (GossipProtocol.init node_id port) evs in
  GossipProtocol.node_id s = node_id ∧ GossipProtocol.absent s node_id.
Proof.
  induction evs as [|ev evs IH] using rev_ind.
  - by split.
  - rewrite gossip_run_snoc. by apply step_not_own_peer.
Qed.

(** ** GossipProtocol: contact with a known peer *)

Lemma keeps_peer_setitem_state (peer : string) (st : json) (id field : string) (v : json) :
  field ≠ "state" ->
  keeps (fun s => GossipProtocol.state_of s peer = Some st)
        (GossipProtocol.peer_setitem id field v).
Proof.
  intros Hfield s Hs.
  unfold GossipProtocol.peer_setitem, GossipProtocol.peers_lookup, PyM.bind, PyM.lift.
  destruct (dget id (GossipProtocol.peers s)) as [p|] eqn:Hp; [|done].
  destruct p as [| | | | |o]; simpl; try done.
  unfold GossipProtocol.state_of in *. simpl.
  destruct (decide (id = peer)) as [->|Hne].
  - rewrite dget_dset_eq. rewrite Hp in Hs. by rewrite dget_dset_ne.
  - by rewrite dget_dset_ne.
Qed.

Lemma keeps_bind_ret {S E A B : Type} (P : S -> Prop) (a : A) (f : A -> PyM.M S E B) :
  keeps P (f a) -> keeps P (PyM.bind (PyM.ret a) f).
Proof.
  intros Hf s Hs. specialize (Hf s Hs). unfold PyM.bind, PyM.ret.
  by destruct (f a s) as [[s2 o2] [b|e]].
Qed.

(** X13. [_update_peer(peer_id, ip, port, ALIVE)], which is what [add_peer]
    and every processed message call, never changes the state recorded
    for a peer that has one: a peer held as [SUSPECT] or [DEAD] is not
    made [ALIVE] by being added again or by a message from it. For an id
    that is not in the table (and is not the node's own) it adds the
    record [{ip, port, state: alive, last_seen: now, incarnation: 0}]. *)
Theorem update_peer_alive_keeps_state (s : GossipProtocol.t) (peer_id ip : string)
    (port now : Z) :
  let s' := PyM.state_of
              (GossipProtocol._update_peer peer_id ip port GossipProtocol.ALIVE now s) in
  (forall peer st,
     GossipProtocol.state_of s peer = Some st -> GossipProtocol.state_of s' peer = Some st)
  ∧ (GossipProtocol.in_peers s peer_id = false -> peer_id ≠ GossipProtocol.node_id s ->
     GossipProtocol.peers s'
     = GossipProtocol.peers s
       ++ [(peer_id,
            JObj [("ip", JStr ip); ("port", JNum port); ("state", JStr GossipProtocol.ALIVE);
                  ("last_seen", JNum now); ("incarnation", JNum 0)])]).
Proof.
  intros s'. split.
  - intros peer st Hst. subst s'.
    apply (keeps_state (fun x => GossipProtocol.state_of x peer = Some st)); [|done].
    clear Hst. unfold GossipProtocol._update_peer.
    apply triple_get_bind. intros self Hself.
    destruct (String.eqb _ _); [by intros x ->|].
    destruct (GossipProtocol.in_peers self peer_id) eqn:Hin.
    + apply (triple_at (fun x => GossipProtocol.state_of x peer = Some st) _ _ _ _ Hself).
      match goal with |- triple ?P ?m _ _ => change (keeps P m) end.
      change (String.eqb GossipProtocol.ALIVE GossipProtocol.DEAD) with false.
      change (String.eqb GossipProtocol.ALIVE GossipProtocol.SUSPECT) with false.
      cbv iota.
      repeat first [ apply keeps_peer_setitem_state; discriminate
                   | apply keeps_bind_ret
                   | apply readonly_keeps, readonly_peer_getitem
                   | method_step ].
    + intros x ->. unfold GossipProtocol.peers_assign, GossipProtocol.state_of in *. simpl.
      unfold GossipProtocol.in_peers in Hin.
      destruct (decide (peer_id = peer)) as [->|Hne].
      * by destruct (dget peer (GossipProtocol.peers self)).
      * by rewrite dget_dset_ne.
  - intros Hin Hne. subst s'. unfold GossipProtocol._update_peer, PyM.bind, PyM.get.
    destruct (String.eqb_spec peer_id (GossipProtocol.node_id s)) as [|_]; [done|].
    rewrite Hin. simpl. unfold GossipProtocol.in_peers in Hin.
    induction (GossipProtocol.peers s) as [|[k v] ps IH]; simpl in *; [done|].
    destruct (String.eqb k peer_id); [done|]. by rewrite IH.
Qed.

Lemma update_peer_alive_keeps_state_witness :
  GossipProtocol.state_of
    (PyM.state_of (GossipProtocol._update_peer "p3" "10.0.0.9" 9100 GossipProtocol.ALIVE 200
                     demo_dead)) "p3"
  = Some (JStr GossipProtocol.DEAD).
Proof.
  apply (proj1 (update_peer_alive_keeps_state demo_dead "p3" "10.0.0.9" 9100 200)).
  vm_compute. reflexivity.
Defined.

(** ** AgentPresence: the wire format *)

(** X14. A presence built by the constructor survives [to_dict] and
    [from_dict] when its [last_updated] is truthy (it always is unless
    the clock reads 0). [from_dict] of an empty dictionary gives the
    defaults, and [from_dict] of a list raises [AttributeError]. *)
Theorem AgentPresence_round_trip (agent_id node_id capabilities last_updated : json)
    (now0 now : Z) :
  let presence := AgentPresence.new agent_id node_id capabilities last_updated now0 in
  (py_truthy (AgentPresence.last_updated presence) = true ->
   AgentPresence.from_dict (JObj (AgentPresence.to_dict presence)) now = Ok presence)
  ∧ (now ≠ 0 ->
     AgentPresence.from_dict (JObj []) now
     = Ok (AgentPresence.Build (JStr "") (JStr "") (JList []) (JNum now) "active"))
  ∧ (forall l, AgentPresence.from_dict (JList l) now = Raise AttributeError).
Proof.
  intros presence. split; [|split].
  - intros Hts. unfold AgentPresence.from_dict, AgentPresence.to_dict. simpl.
    unfold AgentPresence.new at 1. simpl in Hts. rewrite Hts.
    assert ((if py_truthy (if py_truthy capabilities then capabilities else JList [])
             then if py_truthy capabilities then capabilities else JList []
             else JList [])
            = (if py_truthy capabilities then capabilities else JList [])) as ->
      by (by destruct (py_truthy capabilities) eqn:E; [rewrite E|]).
    done.
  - intros Hnow. unfold AgentPresence.from_dict, AgentPresence.new. simpl.
    by destruct (Z.eqb_spec now 0).
  - done.
Qed.

Lemma AgentPresence_round_trip_witness :
  AgentPresence.from_dict
    (JObj (AgentPresence.to_dict
             (AgentPresence.new (JStr "a") (JStr "n0") (JList [JStr "chat"]) JNull 100))) 200
  = Ok (AgentPresence.new (JStr "a") (JStr "n0") (JList [JStr "chat"]) JNull 100).
Proof.
  apply (proj1 (AgentPresence_round_trip (JStr "a") (JStr "n0") (JList [JStr "chat"])
                  JNull 100 200)).
  reflexivity.
Defined.

(** ** AgentPresenceService: local agents *)

Lemma set_gossip_same (s : AgentPresenceService.t) (g : GossipProtocol.t) :
  AgentPresenceService.gossip s = Some g ->
  AgentPresenceService.set_gossip s (Some g) = s.
Proof. destruct s. simpl. by intros ->. Qed.

Lemma for_each_in_gossip (s : AgentPresenceService.t) (g : GossipProtocol.t)
    (message : GossipMessage.t) (targets : list json) :
  AgentPresenceService.gossip s = Some g ->
  GossipProtocol.transport g = true -> Forall peer_ok targets ->
  PyM.for_each targets
    (fun peer => AgentPresenceService.in_gossip (GossipProtocol.send_to_peer message peer) g) s
  = (s,
     map (fun peer => AgentPresenceService.Gossip
                        (GossipProtocol.SendTo message (peer_addr peer))) targets,
     Ok tt).
Proof.
  intros Hg Htr. induction 1 as [|p ps Hp _ IH]; simpl; [done|].
  unfold PyM.bind. unfold AgentPresenceService.in_gossip at 1.
  rewrite send_to_peer_ok by done. rewrite (set_gossip_same s g Hg). by rewrite IH.
Qed.

(** [broadcast] on a service whose gossip protocol has a transport and
    well-formed peer records: one datagram to each peer that is not
    [DEAD], in the order of the table. *)
Lemma broadcast_output (s : AgentPresenceService.t) (g : GossipProtocol.t)
    (message : GossipMessage.t) :
  AgentPresenceService.gossip s = Some g ->
  GossipProtocol.transport g = true -> peers_ok g ->
  AgentPresenceService.broadcast message s
  = (s,
     map (fun peer => AgentPresenceService.Gossip
                        (GossipProtocol.SendTo message (peer_addr peer)))
         (live_peers g),
     Ok tt).
Proof.
  intros Hg Htr Hok. unfold AgentPresenceService.broadcast, PyM.bind at 1, PyM.get.
  rewrite Hg. unfold GossipProtocol.get_active_peers.
  destruct (live_of_ok _ Hok) as (l & -> & Hl). fold (live_peers g) in Hl.
  unfold PyM.bind, PyM.lift. rewrite Hl.
  assert (Forall peer_ok (live_peers g)) as Hlive.
  { unfold live_peers. apply Forall_forall. intros p Hp.
    apply list_elem_of_In, filter_In in Hp as [Hp _]. apply list_elem_of_In in Hp.
    apply list_elem_of_fmap in Hp as ([id p'] & -> & Hin).
    by apply (proj1 (Forall_forall _ _) Hok (id, p')). }
  by rewrite (for_each_in_gossip s g message (live_peers g) Hg Htr Hlive).
Qed.

Lemma running_in_gossip {A : Type} (m : GossipProtocol.M A) (g : GossipProtocol.t) :
  unchanged AgentPresenceService.running (AgentPresenceService.in_gossip m g).
Proof.
  intros s. unfold AgentPresenceService.in_gossip, PyM.state_of.
  by destruct (m g) as [[g' out] r].
Qed.

Lemma running_broadcast (message : GossipMessage.t) :
  unchanged AgentPresenceService.running (AgentPresenceService.broadcast message).
Proof.
  unfold AgentPresenceService.broadcast.
  repeat first [apply running_in_gossip | presence_step].
Qed.

Lemma running_propagate_agent_active `{PyRuntime} (presence : AgentPresence.t) (now : Z) :
  unchanged AgentPresenceService.running
    (AgentPresenceService._propagate_agent_active presence now).
Proof.
  unfold AgentPresenceService._propagate_agent_active.
  repeat first [apply running_broadcast | presence_step].
Qed.

Lemma propagate_agent_active_output `{PyRuntime} (s : AgentPresenceService.t)
    (g : GossipProtocol.t) (presence : AgentPresence.t) (now : Z) :
  AgentPresenceService.gossip s = Some g ->
  GossipProtocol.transport g = true -> peers_ok g ->
  AgentPresenceService._propagate_agent_active presence now s
  = (s,
     map (fun peer =>
            AgentPresenceService.Gossip
              (GossipProtocol.SendTo
                 (GossipMessage.new (AgentPresenceService.node_id s) "agent_active"
                    [("presence", JObj (AgentPresence.to_dict presence))]
                    None GossipMessage.DEFAULT_MAX_TRANSMIT_COUNT now)
                 (peer_addr peer)))
         (live_peers g),
     Ok tt).
Proof.
  intros Hg Htr Hok. unfold AgentPresenceService._propagate_agent_active, PyM.bind, PyM.get.
  rewrite Hg. by rewrite (broadcast_output s g _ Hg Htr Hok).
Qed.

(** X15. On a running service whose gossip protocol has a transport and
    well-formed peer records, [register_agent] stores the presence of
    the agent (this node, the capabilities or [[]], the clock reading)
    under its id, sends one [agent_active] message carrying it to each
    peer that is not [DEAD], and returns [True]. *)
Theorem register_agent_announces `{PyRuntime} (s : AgentPresenceService.t)
    (g : GossipProtocol.t) (agent_id : string) (capabilities : json) (now : Z) :
  AgentPresenceService.running s = true ->
  AgentPresenceService.gossip s = Some g ->
  GossipProtocol.transport g = true -> peers_ok g ->
  let presence :=
    AgentPresence.new (JStr agent_id) (JStr (AgentPresenceService.node_id s))
      capabilities JNull now in
  let message :=
    GossipMessage.new (AgentPresenceService.node_id s) "agent_active"
      [("presence", JObj (AgentPresence.to_dict presence))]
      None GossipMessage.DEFAULT_MAX_TRANSMIT_COUNT now in
  AgentPresenceService.register_agent agent_id capabilities now s
  = (AgentPresenceService.set_local_agents s
       (<[KStr agent_id := presence]> (AgentPresenceService.local_agents s)),
     map (fun peer => AgentPresenceService.Gossip
                        (GossipProtocol.SendTo message (peer_addr peer)))
         (live_peers g),
     Ok true).
Proof.
  intros Hrun Hg Htr Hok presence message.
  set (s1 := AgentPresenceService.set_local_agents s
               (<[KStr agent_id := presence]> (AgentPresenceService.local_agents s))).
  pose proof (propagate_agent_active_output s1 g presence now Hg Htr Hok) as Hout.
  unfold AgentPresenceService.register_agent, PyM.bind at 1, PyM.get. rewrite Hrun. simpl.
  unfold AgentPresenceService.or_false, PyM.bind, PyM.put. fold presence s1.
  rewrite Hout. simpl. by rewrite app_nil_r.
Qed.

Lemma register_agent_announces_witness :
  let s := @AgentPresenceService.run demo_runtime demo_service
             [AgentPresenceService.AddPeer "n1" "10.0.0.2" 9001 50;
              AgentPresenceService.AddPeer "n2" "10.0.0.3" 9001 60] in
  exists s' out,
    @AgentPresenceService.register_agent demo_runtime "a" (JList [JStr "chat"]) 100 s
    = (s', out, Ok true)
    ∧ length out = 2%nat.
Proof.
  intros s.
  set (g := default (GossipProtocol.init "" 0) (AgentPresenceService.gossip s)).
  assert (peers_ok g) as Hok.
  { unfold peers_ok. vm_compute.
    repeat (constructor; [eexists; split; [reflexivity|]; by repeat split; eexists|]).
    constructor. }
  eexists _, _. split.
  - apply (@register_agent_announces demo_runtime s g "a" (JList [JStr "chat"]) 100);
      [vm_compute; reflexivity | vm_compute; reflexivity | vm_compute; reflexivity | exact Hok].
  - vm_compute. reflexivity.
Defined.

(** X16. The life of a local agent. A service that is not running refuses
    [register_agent], [unregister_agent] and
    [update_agent_capabilities]: [False], nothing changed, nothing sent.
    On a running service, [register_agent] stores the presence whatever
    it returns ([False] when sending raised), [query_agent] then answers
    from the table of local agents without any traffic, and
    [unregister_agent] removes the entry; the table of remote agents is
    not touched. *)
Theorem local_agent_lifecycle `{PyRuntime} (s : AgentPresenceService.t)
    (agent_id : string) (capabilities : json) (now now' : Z) :
  (AgentPresenceService.running s = false ->
   AgentPresenceService.register_agent agent_id capabilities now s = (s, [], Ok false)
   ∧ AgentPresenceService.unregister_agent agent_id now s = (s, [], Ok false)
   ∧ AgentPresenceService.update_agent_capabilities agent_id capabilities now s
     = (s, [], Ok false))
  ∧ (AgentPresenceService.running s = true ->
     let s1 := PyM.state_of
                 (AgentPresenceService.register_agent agent_id capabilities now s) in
     let presence :=
       AgentPresence.new (JStr agent_id) (JStr (AgentPresenceService.node_id s))
         capabilities JNull now in
     AgentPresenceService.local_agents s1 !! KStr agent_id = Some presence
     ∧ AgentPresenceService.remote_agents s1 = AgentPresenceService.remote_agents s
     ∧ AgentPresenceService.query_agent agent_id now' s1 = (s1, [], Ok (Some presence))
     ∧ AgentPresenceService.local_agents
         (PyM.state_of (AgentPresenceService.unregister_agent agent_id now' s1))
       !! KStr agent_id = None).
Proof.
  split.
  - intros Hrun.
    unfold AgentPresenceService.register_agent, AgentPresenceService.unregister_agent,
      AgentPresenceService.update_agent_capabilities, PyM.bind, PyM.get.
    by rewrite Hrun.
  - intros Hrun s1 presence.
    pose proof (register_agent_agents s agent_id capabilities now) as Ha.
    fold s1 in Ha. rewrite Hrun in Ha. fold presence in Ha.
    unfold agents_of in Ha. injection Ha as Hid Hl Hr.
    assert (AgentPresenceService.running s1 = true) as Hrun1.
    { subst s1. unfold AgentPresenceService.register_agent. rewrite bind_get_state, Hrun.
      simpl. rewrite or_false_state, bind_put_state, bind_ret_state.
      by rewrite running_propagate_agent_active. }
    split; [rewrite Hl; apply lookup_insert_eq|]. split; [done|]. split.
    + unfold AgentPresenceService.query_agent, PyM.bind, PyM.get.
      rewrite Hl, lookup_insert_eq. done.
    + pose proof (unregister_agent_agents s1 agent_id now') as Hu.
      rewrite Hrun1 in Hu. unfold agents_of in Hu. injection Hu as _ Hl' _.
      rewrite Hl'. apply lookup_delete_eq.
Qed.

Lemma local_agent_lifecycle_witness :
  let s1 := PyM.state_of
              (@AgentPresenceService.register_agent demo_runtime "a" (JList [JStr "chat"])
                 100 demo_service) in
  @AgentPresenceService.query_agent demo_runtime "a" 110 s1
  = (s1, [], Ok (Some (AgentPresence.new (JStr "a") (JStr "n0") (JList [JStr "chat"])
                         JNull 100))).
Proof.
  intros s1.
  destruct (proj2 (@local_agent_lifecycle demo_runtime demo_service "a"
                     (JList [JStr "chat"]) 100 110)) as (_ & _ & Hq & _).
  - vm_compute. reflexivity.
  - exact Hq.
Defined.

(** ** AgentPresenceService: withdrawal of a remote agent *)

(** X17. [_handle_agent_inactive] for an agent held in the table of remote
    agents removes the record, and calls the [agent_inactive] callbacks
    with it, only when the [node_id] of the message equals the [node_id]
    of the record: another node cannot withdraw the agent. A message
    without [agent_id] or [node_id], or for an agent that is not held,
    changes nothing. *)
Theorem agent_inactive_needs_the_hosting_node (s : AgentPresenceService.t)
    (message : GossipMessage.t) :
  let agent_id := py_get "agent_id" (GossipMessage.data message) in
  let node_id := py_get "node_id" (GossipMessage.data message) in
  (py_truthy agent_id = false ∨ py_truthy node_id = false ->
   AgentPresenceService._handle_agent_inactive message s = (s, [], Ok tt))
  ∧ (forall key,
       py_truthy agent_id = true -> py_truthy node_id = true ->
       py_hashable agent_id = Ok key ->
       AgentPresenceService._handle_agent_inactive message s
       = match AgentPresenceService.remote_agents s !! key with
         | Some presence =>
             if py_eq (AgentPresence.node_id presence) node_id
             then (AgentPresenceService.set_remote_agents s
                     (delete key (AgentPresenceService.remote_agents s)),
                   notifications "agent_inactive" agent_id presence s,
                   Ok tt)
             else (s, [], Ok tt)
         | None => (s, [], Ok tt)
         end).
Proof.
  intros agent_id node_id. unfold AgentPresenceService._handle_agent_inactive.
  fold agent_id node_id. split.
  - intros [-> | ->]; simpl; [done|]. by rewrite orb_true_r.
  - intros key -> -> Hkey. simpl. unfold PyM.bind at 1, PyM.lift. rewrite Hkey.
    unfold PyM.bind at 1, PyM.get.
    destruct (AgentPresenceService.remote_agents s !! key) as [presence|]; [|done].
    destruct (py_eq _ _); [|done].
    unfold PyM.bind, PyM.put. by rewrite presence_trigger_callbacks.
Qed.

Lemma agent_inactive_needs_the_hosting_node_witness :
  let s := @AgentPresenceService.run demo_runtime demo_service
             [agent_active_datagram "n1" "a" 100 101] in
  AgentPresenceService._handle_agent_inactive
    (@GossipMessage.new demo_runtime "n2" "agent_inactive"
       [("agent_id", JStr "a"); ("node_id", JStr "n2")] (Some 102) 3 102) s
  = (s, [], Ok tt).
Proof.
  intros s.
  rewrite (proj2 (agent_inactive_needs_the_hosting_node s
                    (@GossipMessage.new demo_runtime "n2" "agent_inactive"
                       [("agent_id", JStr "a"); ("node_id", JStr "n2")] (Some 102) 3 102))
             (KStr "a") eq_refl eq_refl eq_refl).
  vm_compute. reflexivity.
Defined.

(** ** From a registration on one node to the table of another *)

Lemma should_process_fresh (s : GossipProtocol.t) (message : GossipMessage.t) (now : Z) :
  GossipMessage.sender_id message ≠ GossipProtocol.node_id s ->
  GossipProtocol.message_cache s !! GossipMessage.message_id message = None ->
  0 < GossipMessage.ttl message ->
  GossipProtocol._should_process_message message now s
  = (GossipProtocol.set_message_cache s
       (<[GossipMessage.message_id message := now]> (GossipProtocol.message_cache s)),
     [], Ok true).
Proof.
  intros Hs Hc Httl. unfold GossipProtocol._should_process_message, PyM.bind, PyM.get.
  rewrite (proj2 (String.eqb_neq _ _) Hs), Hc.
  by assert ((GossipMessage.ttl message <=? 0) = false) as -> by (apply Z.leb_gt; lia).
Qed.

Lemma for_each_on_effect_sends `{PyRuntime} (now : Z) (sends : list GossipProtocol.effect)
    (s : AgentPresenceService.t) :
  Forall is_send sends ->
  PyM.for_each sends (AgentPresenceService.on_effect now) s
  = (s, map AgentPresenceService.Gossip sends, Ok tt).
Proof.
  induction 1 as [|e sends He _ IH]; simpl; [done|].
  destruct e as [message addr|]; [|done]. unfold PyM.bind. simpl. by rewrite IH.
Qed.

Lemma gossip_new_round_trip `{PyRuntime} (sender_id message_type : string) (data : dict)
    (ttl now0 now : Z) :
  now0 ≠ 0 ->
  GossipMessage.decode
    (Some (GossipMessage.to_dict
             (GossipMessage.new sender_id message_type data None ttl now0))) now
  = GossipMessage.new sender_id message_type data None ttl now0.
Proof.
  intros Hnow. unfold GossipMessage.decode, GossipMessage.from_dict, GossipMessage.to_dict,
    GossipMessage.new. simpl. by destruct (Z.eqb_spec now0 0).
Qed.

Lemma presence_new_round_trip (agent_id node_id : string) (capabilities : json)
    (now0 now : Z) :
  now0 ≠ 0 ->
  AgentPresence.from_dict
    (JObj (AgentPresence.to_dict
             (AgentPresence.new (JStr agent_id) (JStr node_id) capabilities JNull now0))) now
  = Ok (AgentPresence.new (JStr agent_id) (JStr node_id) capabilities JNull now0).
Proof.
  intros Hnow. unfold AgentPresence.from_dict, AgentPresence.to_dict, AgentPresence.new.
  simpl. destruct (Z.eqb_spec now0 0) as [|_]; [done|]. simpl.
  by destruct (py_truthy capabilities) eqn:E; [rewrite E|].
Qed.

Lemma network_step `{PyRuntime} (s : AgentPresenceService.t) (g : GossipProtocol.t)
    (ev : GossipProtocol.event) (g' : GossipProtocol.t) (out : list GossipProtocol.effect) :
  AgentPresenceService.gossip s = Some g ->
  GossipProtocol.step g ev = (g', out) ->
  AgentPresenceService.network ev s
  = PyM.for_each out (AgentPresenceService.on_effect (AgentPresenceService.event_time ev))
      (AgentPresenceService.set_gossip s (Some g')).
Proof.
  intros Hg Hstep. unfold AgentPresenceService.network, PyM.bind, PyM.get, PyM.put.
  rewrite Hg, Hstep.
  by destruct (PyM.for_each out _ _) as [[s2 o2] r].
Qed.

(** X18. An agent registered on one node is discovered by the nodes that
    receive the announcement. The [agent_active] message that
    [register_agent] builds on node [node_a] at clock reading [now_a]
    (not 0), received as a datagram by a started service with another
    node id, well-formed peer records, no entry for the message in its
    dedup cache and no record of the agent: the presence is stored in
    the table of remote agents under the id of the agent, the table of
    local agents is unchanged, the [agent_discovered] callbacks are
    called with it, and what else leaves the node are datagrams of its
    gossip protocol (the copies forwarded to its peers). *)
Theorem registered_agent_is_discovered `{PyRuntime} (s : AgentPresenceService.t)
    (g : GossipProtocol.t) (node_a agent_id : string) (capabilities : json)
    (now_a now : Z) (addr : string * Z) (rnd : nat -> nat) :
  let presence :=
    AgentPresence.new (JStr agent_id) (JStr node_a) capabilities JNull now_a in
  let message :=
    GossipMessage.new node_a "agent_active"
      [("presence", JObj (AgentPresence.to_dict presence))]
      None GossipMessage.DEFAULT_MAX_TRANSMIT_COUNT now_a in
  let arrival :=
    AgentPresenceService.Network
      (GossipProtocol.Datagram (Some (GossipMessage.to_dict message)) addr now rnd) in
  now_a ≠ 0 ->
  AgentPresenceService.gossip s = Some g ->
  peers_ok g ->
  GossipProtocol.callbacks g !! "agent_active" = Some [HandleAgentActive] ->
  node_a ≠ GossipProtocol.node_id g ->
  node_a ≠ AgentPresenceService.node_id s ->
  GossipProtocol.message_cache g !! GossipMessage.message_id message = None ->
  AgentPresenceService.remote_agents s !! KStr agent_id = None ->
  let s' := fst (AgentPresenceService.step s arrival) in
  AgentPresenceService.remote_agents s' !! KStr agent_id = Some presence
  ∧ AgentPresenceService.local_agents s' = AgentPresenceService.local_agents s
  ∧ exists sends,
      Forall is_send sends
      ∧ snd (AgentPresenceService.step s arrival)
        = notifications "agent_discovered" (JStr agent_id) presence s
          ++ map AgentPresenceService.Gossip sends.
Proof.
  intros presence message arrival Hnow Hg Hok Hcb Hnode_g Hnode_s Hcache Hremote s'.
  assert (GossipMessage.message_type message ∉ builtin_types) as Hty.
  { unfold builtin_types. rewrite !not_elem_of_cons. repeat split; try discriminate.
    apply not_elem_of_nil. }
  set (g0 := GossipProtocol.set_message_cache g
               (<[GossipMessage.message_id message := now]> (GossipProtocol.message_cache g))).
  assert (exists g' sends,
            GossipProtocol.step g
              (GossipProtocol.Datagram (Some (GossipMessage.to_dict message)) addr now rnd)
            = (g', GossipProtocol.Invoke HandleAgentActive message :: sends)
            ∧ Forall is_send sends) as (g' & sends & Hstep & Hsends).
  { assert (GossipMessage.decode (Some (GossipMessage.to_dict message)) now = message)
      as Hdec by (by apply gossip_new_round_trip).
    unfold GossipProtocol.step, GossipProtocol.datagram_received. rewrite Hdec.
    unfold GossipProtocol.deliver, PyM.try_, PyM.bind.
    rewrite (should_process_fresh g message now Hnode_g Hcache) by done. fold g0.
    pose proof (process_message_output g0 message addr now rnd) as Hout.
    cbv zeta in Hout.
    change (GossipProtocol.callbacks g0) with (GossipProtocol.callbacks g) in Hout.
    change (GossipMessage.message_type message) with "agent_active" in Hout.
    rewrite Hcb in Hout. cbn [default map] in Hout.
    destruct Hout as [[_ Hno] | (s2 & data' & sends1 & sends2 & _ & _ & Happ & _ & Hs2 & Hout)].
    { destruct (Hno Hok Hty). }
    destruct (Happ Hty) as (-> & -> & _ & _). rewrite with_data_same in Hout.
    unfold PyM.output_of in Hout.
    destruct (GossipProtocol._process_message message addr now rnd g0) as [[g2 o2] r2].
    simpl in *. subst o2. by exists g2, sends2. }
  assert (AgentPresenceService.merge_presence (JObj (AgentPresence.to_dict presence)) now
            (AgentPresenceService.set_gossip s (Some g'))
          = (AgentPresenceService.set_remote_agents (AgentPresenceService.set_gossip s (Some g'))
               (<[KStr agent_id := presence]> (AgentPresenceService.remote_agents s)),
             notifications "agent_discovered" (JStr agent_id) presence s, Ok tt)) as Hmerge.
  { rewrite (merge_presence_result _ _ now presence (KStr agent_id)); simpl.
    - by rewrite Hremote.
    - by apply presence_new_round_trip.
    - by apply String.eqb_neq.
    - done. }
  assert (AgentPresenceService._handle_agent_active message now
            (AgentPresenceService.set_gossip s (Some g'))
          = AgentPresenceService.merge_presence (JObj (AgentPresence.to_dict presence)) now
              (AgentPresenceService.set_gossip s (Some g'))) as Hactive by done.
  assert (AgentPresenceService.step s arrival
          = (AgentPresenceService.set_remote_agents
               (AgentPresenceService.set_gossip s (Some g'))
               (<[KStr agent_id := presence]> (AgentPresenceService.remote_agents s)),
             notifications "agent_discovered" (JStr agent_id) presence s
             ++ map AgentPresenceService.Gossip sends)) as Hfinal.
  { unfold arrival, AgentPresenceService.step.
    rewrite (network_step s g _ g' _ Hg Hstep).
    cbn [PyM.for_each AgentPresenceService.event_time].
    unfold PyM.bind. cbn [AgentPresenceService.on_effect]. unfold PyM.try_.
    rewrite Hactive, Hmerge.
    by rewrite (for_each_on_effect_sends now sends _ Hsends). }
  subst s'. rewrite Hfinal. simpl.
  split; [apply lookup_insert_eq|]. split; [done|]. by exists sends.
Qed.

Lemma registered_agent_is_discovered_witness :
  let presence :=
    AgentPresence.new (JStr "a") (JStr "n1") (JList [JStr "chat"]) JNull 100 in
  let message :=
    @GossipMessage.new demo_runtime "n1" "agent_active"
      [("presence", JObj (AgentPresence.to_dict presence))]
      None GossipMessage.DEFAULT_MAX_TRANSMIT_COUNT 100 in
  AgentPresenceService.remote_agents
    (fst (@AgentPresenceService.step demo_runtime demo_service
            (AgentPresenceService.Network
               (GossipProtocol.Datagram (Some (GossipMessage.to_dict message))
                  ("10.0.0.2", 9001) 101 (fun _ => O)))))
  !! KStr "a" = Some presence.
Proof.
  intros presence message.
  set (g := default (GossipProtocol.init "" 0) (AgentPresenceService.gossip demo_service)).
  refine (proj1 (@registered_agent_is_discovered demo_runtime demo_service g "n1" "a"
                   (JList [JStr "chat"]) 100 101 ("10.0.0.2", 9001) (fun _ => O)
                   _ _ _ _ _ _ _ _)).
  - discriminate.
  - vm_compute. reflexivity.
  - unfold peers_ok. vm_compute. constructor.
  - vm_compute. reflexivity.
  - vm_compute. discriminate.
  - vm_compute. discriminate.
  - vm_compute. reflexivity.
  - vm_compute. reflexivity.
Defined.

(** ** GossipProtocol: the failure detector *)

Lemma peer_getitem_eq (s : GossipProtocol.t) (id field : string) (o : dict) (v : json) :
  dget id (GossipProtocol.peers s) = Some (JObj o) -> dget field o = Some v ->
  GossipProtocol.peer_getitem id field s = (s, [], Ok v).
Proof.
  intros Hp Hf.
  unfold GossipProtocol.peer_getitem, GossipProtocol.peers_lookup, PyM.bind, PyM.lift.
  rewrite Hp. simpl. by rewrite Hf.
Qed.

Lemma peer_setitem_eq (s : GossipProtocol.t) (id field : string) (o : dict) (v : json) :
  dget id (GossipProtocol.peers s) = Some (JObj o) ->
  GossipProtocol.peer_setitem id field v s
  = (GossipProtocol.set_peers s (dset id (JObj (dset field v o)) (GossipProtocol.peers s)),
     [], Ok tt).
Proof.
  intros Hp.
  unfold GossipProtocol.peer_setitem, GossipProtocol.peers_lookup, GossipProtocol.peers_assign,
    PyM.bind, PyM.lift.
  by rewrite Hp.
Qed.

Lemma bind_state_ok {S E A B : Type} (m : PyM.M S E A) (f : A -> PyM.M S E B)
    (s s1 : S) (o1 : list E) (a : A) :
  m s = (s1, o1, Ok a) -> PyM.state_of (PyM.bind m f s) = PyM.state_of (f a s1).
Proof.
  intros Hm. unfold PyM.bind, PyM.state_of. rewrite Hm.
  by destruct (f a s1) as [[s2 o2] r].
Qed.

Lemma bind_eq_ok {S E A B : Type} (m : PyM.M S E A) (f : A -> PyM.M S E B)
    (s : S) (a : A) :
  m s = (s, [], Ok a) -> PyM.bind m f s = f a s.
Proof.
  intros Hm. unfold PyM.bind. rewrite Hm. by destruct (f a s) as [[s2 o2] r].
Qed.

Lemma dset_dset {V : Type} (k : string) (v v' : V) (d : list (string * V)) :
  dset k v' (dset k v d) = dset k v' d.
Proof.
  induction d as [|[k0 v0] d IH]; simpl.
  - by rewrite String.eqb_refl.
  - destruct (String.eqb k0 k) eqn:E; simpl; rewrite E; [done | by rewrite IH].
Qed.

(** X19. One peer in [_check_peers], by the state of its record. An [ALIVE]
    peer seen within [suspicion_timeout] is left alone; one last seen
    longer ago becomes [SUSPECT] with [suspect_time] the clock reading. A
    [SUSPECT] peer becomes [DEAD] once its [suspect_time] is older than
    [suspicion_timeout], and is left alone before that and when its
    record has no [suspect_time]. A [DEAD] peer is removed once it was
    last seen longer ago than [dead_timeout], and is left alone before
    that. *)
Theorem check_peer_timeline `{PyRuntime} (s : GossipProtocol.t) (now : Z)
    (peer_id : string) (o : dict) :
  dget peer_id (GossipProtocol.peers s) = Some (JObj o) ->
  let s' := PyM.state_of (GossipProtocol.check_peer now peer_id s) in
  (forall seen,
     dget "state" o = Some (JStr GossipProtocol.ALIVE) ->
     dget "last_seen" o = Some (JNum seen) ->
     (now - seen <= GossipProtocol.suspicion_timeout s ->
      GossipProtocol.check_peer now peer_id s = (s, [], Ok tt))
     ∧ (GossipProtocol.suspicion_timeout s < now - seen ->
        GossipProtocol.peers s'
        = dset peer_id
            (JObj (dset "suspect_time" (JNum now)
                     (dset "state" (JStr GossipProtocol.SUSPECT) o)))
            (GossipProtocol.peers s)))
  ∧ (dget "state" o = Some (JStr GossipProtocol.SUSPECT) ->
     (dget "suspect_time" o = None ->
      GossipProtocol.check_peer now peer_id s = (s, [], Ok tt))
     ∧ (forall since,
          dget "suspect_time" o = Some (JNum since) ->
          (now - since <= GossipProtocol.suspicion_timeout s ->
           GossipProtocol.check_peer now peer_id s = (s, [], Ok tt))
          ∧ (GossipProtocol.suspicion_timeout s < now - since ->
             GossipProtocol.peers s'
             = dset peer_id (JObj (dset "state" (JStr GossipProtocol.DEAD) o))
                 (GossipProtocol.peers s))))
  ∧ (forall seen,
       dget "state" o = Some (JStr GossipProtocol.DEAD) ->
       dget "last_seen" o = Some (JNum seen) ->
       GossipProtocol.check_peer now peer_id s
       = if GossipProtocol.dead_timeout s <? now - seen
         then (GossipProtocol.set_peers s (ddel peer_id (GossipProtocol.peers s)), [], Ok tt)
         else (s, [], Ok tt)).
Proof.
  intros Hp s'. split; [|split].
  - intros seen Hst Hseen.
    split.
    + intros Hfresh. unfold GossipProtocol.check_peer.
      rewrite (bind_eq_ok PyM.get _ s s) by done.
      rewrite (bind_eq_ok _ _ s _ (peer_getitem_eq s peer_id "state" o _ Hp Hst)).
      change (py_eq_str (JStr GossipProtocol.ALIVE) GossipProtocol.DEAD) with false.
      change (py_eq_str (JStr GossipProtocol.ALIVE) GossipProtocol.SUSPECT) with false.
      change (py_eq_str (JStr GossipProtocol.ALIVE) GossipProtocol.ALIVE) with true.
      cbv iota.
      rewrite (bind_eq_ok _ _ s _ (peer_getitem_eq s peer_id "last_seen" o _ Hp Hseen)).
      rewrite (bind_eq_ok (PyM.lift (py_num (JNum seen))) _ s seen) by done.
      by assert ((GossipProtocol.suspicion_timeout s <? now - seen) = false) as ->
        by (apply Z.ltb_ge; lia).
    + intros Hstale. subst s'. unfold GossipProtocol.check_peer.
      rewrite (bind_eq_ok PyM.get _ s s) by done.
      rewrite (bind_eq_ok _ _ s _ (peer_getitem_eq s peer_id "state" o _ Hp Hst)).
      change (py_eq_str (JStr GossipProtocol.ALIVE) GossipProtocol.DEAD) with false.
      change (py_eq_str (JStr GossipProtocol.ALIVE) GossipProtocol.SUSPECT) with false.
      change (py_eq_str (JStr GossipProtocol.ALIVE) GossipProtocol.ALIVE) with true.
      cbv iota.
      rewrite (bind_eq_ok _ _ s _ (peer_getitem_eq s peer_id "last_seen" o _ Hp Hseen)).
      rewrite (bind_eq_ok (PyM.lift (py_num (JNum seen))) _ s seen) by done.
      assert ((GossipProtocol.suspicion_timeout s <? now - seen) = true) as ->
        by (apply Z.ltb_lt; lia).
      rewrite (bind_state_ok _ _ _ _ _ _ (peer_setitem_eq s peer_id "state" o _ Hp)).
      set (s1 := GossipProtocol.set_peers s _).
      assert (dget peer_id (GossipProtocol.peers s1)
              = Some (JObj (dset "state" (JStr GossipProtocol.SUSPECT) o))) as Hp1
        by (simpl; apply dget_dset_eq).
      rewrite (bind_state_ok _ _ _ _ _ _ (peer_setitem_eq s1 peer_id "suspect_time" _ _ Hp1)).
      set (s2 := GossipProtocol.set_peers s1 _).
      assert (readonly
                (PyM.bind (GossipProtocol.peers_lookup peer_id)
                   (fun peer =>
                      PyM.bind
                        (GossipProtocol.send_to_peer
                           (GossipMessage.new (GossipProtocol.node_id s)
                              GossipProtocol.MSG_PING [] None
                              GossipMessage.DEFAULT_MAX_TRANSMIT_COUNT now) peer)
                        (fun _ =>
                           GossipProtocol._propagate_to_all
                             (GossipMessage.new (GossipProtocol.node_id s)
                                GossipProtocol.MSG_SUSPECT [("peer_id", JStr peer_id)] None
                                GossipMessage.DEFAULT_MAX_TRANSMIT_COUNT now)))))
        as Hro.
      { apply readonly_bind; [apply readonly_peers_lookup|]. intros peer.
        apply readonly_bind; [apply readonly_send_to_peer|]. intros _.
        apply readonly_propagate_to_all. }
      rewrite (Hro s2). subst s2 s1. simpl. apply dset_dset.
  - intros Hst. split.
    + intros Hnone. unfold GossipProtocol.check_peer.
      rewrite (bind_eq_ok PyM.get _ s s) by done.
      rewrite (bind_eq_ok _ _ s _ (peer_getitem_eq s peer_id "state" o _ Hp Hst)).
      change (py_eq_str (JStr GossipProtocol.SUSPECT) GossipProtocol.DEAD) with false.
      change (py_eq_str (JStr GossipProtocol.SUSPECT) GossipProtocol.SUSPECT) with true.
      cbv iota.
      assert (GossipProtocol.peers_lookup peer_id s = (s, [], Ok (JObj o))) as Hl
        by (unfold GossipProtocol.peers_lookup; by rewrite Hp).
      rewrite (bind_eq_ok _ _ s _ Hl).
      assert (PyM.lift (py_contains "suspect_time" (JObj o)) s
              = (s, @nil GossipProtocol.effect, Ok false)) as Hc
        by (unfold PyM.lift; simpl; by rewrite Hnone).
      rewrite (bind_eq_ok _ _ s _ Hc). by rewrite (bind_eq_ok (PyM.ret false) _ s false).
    + intros since Hsince.
      assert (GossipProtocol.peers_lookup peer_id s = (s, [], Ok (JObj o))) as Hl
        by (unfold GossipProtocol.peers_lookup; by rewrite Hp).
      assert (PyM.lift (py_contains "suspect_time" (JObj o)) s
              = (s, @nil GossipProtocol.effect, Ok true)) as Hc
        by (unfold PyM.lift; simpl; by rewrite Hsince).
      split.
      * intros Hfresh. unfold GossipProtocol.check_peer.
        rewrite (bind_eq_ok PyM.get _ s s) by done.
        rewrite (bind_eq_ok _ _ s _ (peer_getitem_eq s peer_id "state" o _ Hp Hst)).
        change (py_eq_str (JStr GossipProtocol.SUSPECT) GossipProtocol.DEAD) with false.
        change (py_eq_str (JStr GossipProtocol.SUSPECT) GossipProtocol.SUSPECT) with true.
        cbv iota.
        rewrite (bind_eq_ok _ _ s _ Hl), (bind_eq_ok _ _ s _ Hc).
        assert ((let* since0 := GossipProtocol.peer_getitem peer_id "suspect_time" in
                 let* since_at := PyM.lift (py_num since0) in
                 PyM.ret (GossipProtocol.suspicion_timeout s <? now - since_at)) s
                = (s, @nil GossipProtocol.effect, Ok false)) as Hexp.
        { rewrite (bind_eq_ok _ _ s _
                     (peer_getitem_eq s peer_id "suspect_time" o _ Hp Hsince)).
          rewrite (bind_eq_ok (PyM.lift (py_num (JNum since))) _ s since) by done.
          unfold PyM.ret. do 2 f_equal. apply Z.ltb_ge. lia. }
        by rewrite (bind_eq_ok _ _ s _ Hexp).
      * intros Hstale. subst s'. unfold GossipProtocol.check_peer.
        rewrite (bind_eq_ok PyM.get _ s s) by done.
        rewrite (bind_eq_ok _ _ s _ (peer_getitem_eq s peer_id "state" o _ Hp Hst)).
        change (py_eq_str (JStr GossipProtocol.SUSPECT) GossipProtocol.DEAD) with false.
        change (py_eq_str (JStr GossipProtocol.SUSPECT) GossipProtocol.SUSPECT) with true.
        cbv iota.
        rewrite (bind_eq_ok _ _ s _ Hl), (bind_eq_ok _ _ s _ Hc).
        assert ((let* since0 := GossipProtocol.peer_getitem peer_id "suspect_time" in
                 let* since_at := PyM.lift (py_num since0) in
                 PyM.ret (GossipProtocol.suspicion_timeout s <? now - since_at)) s
                = (s, @nil GossipProtocol.effect, Ok true)) as Hexp.
        { rewrite (bind_eq_ok _ _ s _
                     (peer_getitem_eq s peer_id "suspect_time" o _ Hp Hsince)).
          rewrite (bind_eq_ok (PyM.lift (py_num (JNum since))) _ s since) by done.
          unfold PyM.ret. do 2 f_equal. apply Z.ltb_lt. lia. }
        rewrite (bind_eq_ok _ _ s _ Hexp).
        rewrite (bind_state_ok _ _ _ _ _ _ (peer_setitem_eq s peer_id "state" o _ Hp)).
        by rewrite readonly_propagate_to_all.
  - intros seen Hst Hseen. unfold GossipProtocol.check_peer.
    rewrite (bind_eq_ok PyM.get _ s s) by done.
    rewrite (bind_eq_ok _ _ s _ (peer_getitem_eq s peer_id "state" o _ Hp Hst)).
    change (py_eq_str (JStr GossipProtocol.DEAD) GossipProtocol.DEAD) with true.
    cbv iota.
    rewrite (bind_eq_ok _ _ s _ (peer_getitem_eq s peer_id "last_seen" o _ Hp Hseen)).
    rewrite (bind_eq_ok (PyM.lift (py_num (JNum seen))) _ s seen) by done.
    destruct (_ <? _); [|done]. unfold GossipProtocol.peers_del. by rewrite Hp.
Qed.

Lemma check_peer_timeline_witness :
  let o := match dget "p1" (GossipProtocol.peers demo_gossip) with
           | Some (JObj o) => o
           | _ => []
           end in
  dget "state" o = Some (JStr GossipProtocol.ALIVE)
  ∧ dget "p1"
      (GossipProtocol.peers
         (PyM.state_of (@GossipProtocol.check_peer demo_runtime 1000 "p1" demo_gossip)))
    = Some (JObj (dset "suspect_time" (JNum 1000)
                    (dset "state" (JStr GossipProtocol.SUSPECT) o))).
Proof.
  intros o. split; [vm_compute; reflexivity|].
  assert (dget "p1" (GossipProtocol.peers demo_gossip) = Some (JObj o)) as Hp
    by (vm_compute; reflexivity).
  destruct (@check_peer_timeline demo_runtime demo_gossip 1000 "p1" o Hp) as [Halive _].
  destruct (Halive 100) as [_ Hstale]; [vm_compute; reflexivity ..|].
  rewrite Hstale; [apply dget_dset_eq | vm_compute; reflexivity].
Defined.
